(** * Clair_Confirm_Attendance_v1: call-lifecycle orchestration (src/index.js)

    A shallow embedding of the Express server of [src/index.js]: phone-number
    normalisation, the SMS sender, call initiation and the telephony status
    webhook, followed by the properties of the specification that concern
    them.

    Conventions of the embedding.
    - A JavaScript string is a Rocq [string] holding its bytes in
      generalised UTF-8: well-formed text is plain UTF-8, and an unpaired
      surrogate is the three-byte sequence that starts with ED A0..BF.  The
      program only measures strings that consist of ASCII digits, so byte
      length and [.length] agree wherever the code uses [.length].
    - [JsValue] holds the values the phone helpers are written for:
      [undefined], [null] and strings.  [JsAny] adds every other value a
      parsed body or query string can hold (numbers, booleans, arrays,
      objects), by what the program can observe of it: whether it is truthy
      and what its conversion to a string gives, if it does not throw.
    - The status webhook is embedded on requests with [JsAny] fields
      ([RawRequest]); the other routes on requests whose fields are strings
      or absent ([Request]).
    - Effects (outbound HTTP requests, telephony API calls, [console.error])
      are recorded in a trace; the answers of the outside world are read
      from a [World] of oracles.  [console.log] output is not recorded, but
      the conversions its template literals perform are. *)

From Stdlib Require Import String Ascii List ZArith Lia Bool DecimalString.
Import ListNotations.
Open Scope list_scope.
Open Scope string_scope.

(** ** JavaScript values and strings *)

Module Js.

Inductive JsValue : Type :=
| JsUndefined
| JsNull
| JsString (s : string).

(** [ToBoolean]: [undefined], [null] and the empty string are falsy. *)
Definition truthy (v : JsValue) : bool :=
  match v with
  | JsString "" => false
  | JsString _ => true
  | _ => false
  end.

(** [a || b]. *)
Definition orElse (a b : JsValue) : JsValue := if truthy a then a else b.

(** [ToString], as performed by a template literal. *)
Definition toString (v : JsValue) : string :=
  match v with
  | JsUndefined => "undefined"
  | JsNull => "null"
  | JsString s => s
  end.

Definition strictEq (a b : JsValue) : bool :=
  match a, b with
  | JsUndefined, JsUndefined => true
  | JsNull, JsNull => true
  | JsString s, JsString t => String.eqb s t
  | _, _ => false
  end.

(** [\d]: an ASCII digit. *)
Definition isDigit (c : ascii) : bool :=
  let n := nat_of_ascii c in (48 <=? n)%nat && (n <=? 57)%nat.

(** [s.replace(/\D/g, '')]. *)
Fixpoint stripNonDigits (s : string) : string :=
  match s with
  | EmptyString => EmptyString
  | String c r => if isDigit c then String c (stripNonDigits r) else stripNonDigits r
  end.

(** [s.startsWith(p)]. *)
Definition startsWith (s p : string) : bool := String.prefix p s.

(** If [p] is a prefix of [s], what follows it. *)
Fixpoint dropPrefix (p s : string) : option string :=
  match p, s with
  | EmptyString, _ => Some s
  | String a p', String b s' => if Ascii.eqb a b then dropPrefix p' s' else None
  | String _ _, EmptyString => None
  end.

Definition bytes (l : list nat) : string :=
  string_of_list_ascii (map ascii_of_nat l).

(** The UTF-8 encodings of the characters [String.prototype.trim] removes:
    WhiteSpace (TAB, VT, FF, SP, NBSP, ZWNBSP and category Zs) and
    LineTerminator (LF, CR, LS, PS). *)
Definition whiteSpace : list string :=
  [ bytes [9]; bytes [10]; bytes [11]; bytes [12]; bytes [13]; bytes [32];
    bytes [194; 160];            (* U+00A0 *)
    bytes [225; 154; 128];       (* U+1680 *)
    bytes [226; 128; 128]; bytes [226; 128; 129]; bytes [226; 128; 130];
    bytes [226; 128; 131]; bytes [226; 128; 132]; bytes [226; 128; 133];
    bytes [226; 128; 134]; bytes [226; 128; 135]; bytes [226; 128; 136];
    bytes [226; 128; 137]; bytes [226; 128; 138];   (* U+2000 .. U+200A *)
    bytes [226; 128; 168]; bytes [226; 128; 169];   (* U+2028, U+2029 *)
    bytes [226; 128; 175];       (* U+202F *)
    bytes [226; 129; 159];       (* U+205F *)
    bytes [227; 128; 128];       (* U+3000 *)
    bytes [239; 187; 191] ].     (* U+FEFF *)

(** Removes one leading white-space character, if there is one. *)
Fixpoint dropOne (ws : list string) (s : string) : option string :=
  match ws with
  | [] => None
  | p :: ws' =>
      match p, dropPrefix p s with
      | String _ _, Some r => Some r
      | _, _ => dropOne ws' s
      end
  end.

Fixpoint trimStartFuel (fuel : nat) (s : string) : string :=
  match fuel with
  | O => s
  | S fuel' =>
      match dropOne whiteSpace s with
      | Some r => trimStartFuel fuel' r
      | None => s
      end
  end.

(** [s.trimStart()]: every removal consumes a byte, so [length s] rounds
    are enough. *)
Definition trimStart (s : string) : string := trimStartFuel (String.length s) s.

(** [s.trimEnd()]: cut where the rest of the string is white space only. *)
Fixpoint trimEnd (s : string) : string :=
  match s with
  | EmptyString => EmptyString
  | String c r =>
      match trimStart s with
      | EmptyString => EmptyString
      | _ => String c (trimEnd r)
      end
  end.

(** [s.trim()]. *)
Definition trim (s : string) : string := trimStart (trimEnd s).

Definition hexDigit (n : nat) : ascii :=
  ascii_of_nat (if (n <? 10)%nat then 48 + n else 55 + n).

(** The characters [encodeURIComponent] leaves alone:
    [A-Z a-z 0-9 - _ . ! ~ * ' ( )]. *)
Definition uriUnreserved (c : ascii) : bool :=
  let n := nat_of_ascii c in
  ((65 <=? n) && (n <=? 90) || (97 <=? n) && (n <=? 122) || (48 <=? n) && (n <=? 57)
   || existsb (Nat.eqb n) [45; 95; 46; 33; 126; 42; 39; 40; 41])%nat.

(** [encodeURIComponent] on the UTF-8 bytes of a string. *)
Fixpoint encodeURIComponentStr (s : string) : string :=
  match s with
  | EmptyString => EmptyString
  | String c r =>
      if uriUnreserved c then String c (encodeURIComponentStr r)
      else
        let n := nat_of_ascii c in
        String "%" (String (hexDigit (n / 16)) (String (hexDigit (n mod 16))
          (encodeURIComponentStr r)))
  end.

Definition encodeURIComponent (v : JsValue) : string :=
  encodeURIComponentStr (toString v).

(** The string holds an unpaired surrogate, on which [encodeURIComponent]
    throws a URIError: a byte ED followed by a byte in A0..BF. *)
Fixpoint hasLoneSurrogate (s : string) : bool :=
  match s with
  | EmptyString => false
  | String a r =>
      match r with
      | EmptyString => false
      | String b _ =>
          (nat_of_ascii a =? 237)%nat && (160 <=? nat_of_ascii b)%nat
          && (nat_of_ascii b <=? 191)%nat
          || hasLoneSurrogate r
      end
  end.

(** Any value of a parsed body or query string.  [Other t (Some s)] is a
    number, boolean, array or object with truthiness [t] whose conversion to
    a string gives [s]; [Other t None] is one whose conversion throws (an
    object whose [toString] is not callable, or an array that holds one). *)
Inductive JsAny : Type :=
| Plain (v : JsValue)
| Other (isTruthy : bool) (conversion : option string).

Definition truthyAny (x : JsAny) : bool :=
  match x with
  | Plain v => truthy v
  | Other t _ => t
  end.

(** [a || b]. *)
Definition orElseAny (a b : JsAny) : JsAny := if truthyAny a then a else b.

(** [x === "literal"]. *)
Definition isString (x : JsAny) (literal : string) : bool :=
  match x with
  | Plain v => strictEq v (JsString literal)
  | Other _ _ => false
  end.

End Js.
Import Js.

Notation "a '|||' b" := (orElse a b) (at level 50, left associativity).

(** ** PhoneNormalizer (index.js, lines 73-111) *)

Definition formatPhoneNumber (phoneNumber : JsValue) : JsValue :=
  if negb (truthy phoneNumber) then JsNull
  else
    let digits := stripNonDigits (trim (toString phoneNumber)) in
    if startsWith digits "63" then JsString ("+" ++ digits)
    else if (String.length digits =? 10)%nat then JsString ("+1" ++ digits)
    else if (11 <=? String.length digits)%nat then
      if startsWith digits "1" then JsString ("+" ++ digits)
      else if startsWith digits "63" then JsString ("+" ++ digits)
      else JsNull
    else JsNull.

Definition formatPhoneNumberForTagging (phoneNumber : JsValue) : JsValue :=
  if negb (truthy phoneNumber) then JsNull
  else JsString (stripNonDigits (trim (toString phoneNumber))).

(** The normaliser as section 4.1 of the specification words it, for
    comparison with [formatPhoneNumber]. *)
Definition normalizeDialableSpec (raw : string) : option string :=
  let digits := stripNonDigits raw in
  if startsWith digits "63" then Some ("+" ++ digits)
  else if (String.length digits =? 10)%nat then Some ("+1" ++ digits)
  else if (11 <=? String.length digits)%nat && startsWith digits "1" then Some ("+" ++ digits)
  else if (11 <=? String.length digits)%nat && startsWith digits "63" then Some ("+" ++ digits)
  else None.

(** [dialable] as a JavaScript value: a string, or [null]. *)
Definition dialableValue (d : option string) : JsValue :=
  match d with
  | Some s => JsString s
  | None => JsNull
  end.

(** ** The outside world and the effects of the program *)

(** A thrown [Error]; only its [message] is ever read. *)
Record JsError : Type := mkError { errMessage : string }.

Inductive Result (A : Type) : Type :=
| Ok (a : A)
| Throw (e : JsError).
Arguments Ok {A} a.
Arguments Throw {A} e.

(** The JSON of an HTTP reply, by the fields the program reads from it: a
    reply is [null], whose properties cannot be read, or a value whose
    fields [joinUrl], [messageSid], [contacts] and [contact] are as given
    (an absent field reads as [undefined], an absent or empty [contacts]
    as the empty list). *)
Record Contact : Type := { contactId : JsValue }.

Record ReplyObject : Type := {
  joinUrl : JsValue;
  messageSid : JsValue;
  contacts : list Contact;
  contact : option Contact
}.

Inductive JsData : Type :=
| DNull
| DObject (o : ReplyObject).

(** A [fetch] Response.  [text()] and [json()] may reject. *)
Record Response : Type := {
  status : Z;
  statusText : string;
  text : Result string;
  json : Result JsData
}.

(** [response.ok]: the status is in the range 200-299. *)
Definition ok (r : Response) : bool := ((200 <=? status r) && (status r <=? 299))%Z.

(** The parameters of one voice-AI tool ([selectedTools]). *)
Record DynamicParameter : Type := {
  paramName : string;
  paramLocation : string;
  paramRequired : bool
}.

Inductive ToolBinding : Type :=
| ClientImplementation
| Http (baseUrlPattern httpMethod : string).

Record TemporaryTool : Type := {
  modelToolName : string;
  toolDescription : string;
  dynamicParameters : list DynamicParameter;
  toolBinding : ToolBinding
}.

(** The script is a fixed template; it is represented by the four values
    interpolated into it. *)
Record SystemPrompt : Type := {
  promptTime : string;
  promptClientName : JsValue;
  promptUserType : JsValue;
  promptPhoneNumber : JsValue
}.

Record UltravoxCallConfig : Type := {
  systemPrompt : SystemPrompt;
  model : string;
  voice : string;
  temperature : string;
  firstSpeaker : string;
  medium : string;
  selectedTools : list TemporaryTool
}.

Inductive Payload : Type :=
| NoBody
| UltravoxCallBody (cfg : UltravoxCallConfig)
| SmsWebhookBody (recipient message : JsValue)
| GhlContactBody (phone locationId : JsValue)
| GhlTagsBody (tags : list JsValue).

Record FetchRequest : Type := {
  url : string;
  method : string;
  headers : list (string * string);
  payload : Payload
}.

Record ClientOptions : Type := { timeout : Z; keepAlive : bool }.

Record TwilioClient : Type := {
  accountSid : JsValue;
  authToken : JsValue;
  clientOptions : option ClientOptions
}.

Record MessageParams : Type := {
  msgBody : JsValue;
  msgFrom : JsValue;
  msgTo : JsValue;
  attempt : Z;
  maxPrice : string
}.

Record CallParams : Type := {
  twiml : string;
  callTo : JsValue;
  callFrom : JsValue;
  statusCallback : string;
  statusCallbackEvent : list string;
  statusCallbackMethod : string
}.

Inductive Event : Type :=
| EvFetch (r : FetchRequest)
| EvMessagesCreate (c : TwilioClient) (p : MessageParams)
| EvCallsCreate (c : TwilioClient) (p : CallParams)
| EvConsoleError (label : string).

Record World : Type := {
  env : string -> JsValue;                       (* process.env *)
  now : string;                                  (* new Date().toISOString() *)
  fetchReply : FetchRequest -> Result Response;
  clientRefused : TwilioClient -> option JsError;   (* what twilio(...) throws, if it does *)
  messagesReply : TwilioClient -> MessageParams -> Result string;   (* the sid *)
  callsReply : TwilioClient -> CallParams -> Result string          (* the sid *)
}.

(** An Express request after body and query parsing, with fields that are
    strings or absent. *)
Record Request : Type := {
  query : string -> JsValue;
  body : string -> JsValue
}.

(** An Express request after body and query parsing, with fields of any
    kind. *)
Record RawRequest : Type := {
  rawQuery : string -> JsAny;
  rawBody : string -> JsAny
}.

(** A request with plain fields, as a raw request. *)
Definition raw (req : Request) : RawRequest :=
  {| rawQuery := fun key => Plain (query req key);
     rawBody := fun key => Plain (body req key) |}.

Inductive JsonField : Type :=
| FBool (b : bool)
| FStr (s : string).

Inductive Content : Type :=
| Text (s : string)
| Json (fields : list (string * JsonField)).

Record HttpResponse : Type := { code : Z; content : Content }.

(** A computation: the effects it performed, and how it completed. *)
Definition M (A : Type) : Type := (list Event * Result A)%type.

Definition ret {A} (a : A) : M A := ([], Ok a).
Definition throw {A} (e : JsError) : M A := ([], Throw e).

Definition bind {A B} (m : M A) (k : A -> M B) : M B :=
  match m with
  | (t, Ok a) => let (t', r) := k a in ((t ++ t')%list, r)
  | (t, Throw e) => (t, Throw e)
  end.

(** [try { m } catch (error) { h error }]. *)
Definition tryCatch {A} (m : M A) (h : JsError -> M A) : M A :=
  match m with
  | (t, Ok a) => (t, Ok a)
  | (t, Throw e) => let (t', r) := h e in ((t ++ t')%list, r)
  end.

Definition trace {A} (m : M A) : list Event := fst m.
Definition outcome {A} (m : M A) : Result A := snd m.

Notation "x <- m ;; k" := (bind m (fun x => k))
  (at level 61, m at next level, right associativity).
Notation "m ;;; k" := (bind m (fun _ => k))
  (at level 61, right associativity).

Definition consoleError (label : string) : M unit := ([EvConsoleError label], Ok tt).

(** [await p] for a promise that resolves or rejects. *)
Definition await {A} (r : Result A) : M A := ([], r).

Definition quote : string := bytes [34].
Definition newline : string := bytes [10].

Definition stringOfZ (z : Z) : string := NilZero.string_of_int (Z.to_int z).

Definition GHL_API_URL : string := "https://rest.gohighlevel.com/v1".

(** [fetch(url)] without options: a GET without headers or body. *)
Definition get (u : string) : FetchRequest :=
  {| url := u; method := "GET"; headers := []; payload := NoBody |}.

(** [ToString] of any value, as a template literal or [encodeURIComponent]
    performs it. *)
Definition toStringAny (x : JsAny) : Result string :=
  match x with
  | Plain v => Ok (toString v)
  | Other _ (Some s) => Ok s
  | Other _ None => Throw (mkError "Cannot convert object to primitive value")
  end.

(** [x.toString()] for a truthy [x]. *)
Definition callToString (name : string) (x : JsAny) : Result string :=
  match x with
  | Plain v => Ok (toString v)
  | Other _ (Some s) => Ok s
  | Other _ None => Throw (mkError (name ++ ".toString is not a function"))
  end.

(** [console.log] of a template literal that interpolates [values]: the
    output is not recorded, the conversions can throw. *)
Fixpoint consoleLog (values : list JsAny) : M unit :=
  match values with
  | [] => ret tt
  | x :: rest =>
      match toStringAny x with
      | Ok _ => consoleLog rest
      | Throw e => throw e
      end
  end.

(** [encodeURIComponent(x)], which throws on an unpaired surrogate. *)
Definition encodeURIComponentM (x : JsAny) : M string :=
  match toStringAny x with
  | Ok s =>
      if hasLoneSurrogate s then throw (mkError "URI malformed")
      else ret (encodeURIComponentStr s)
  | Throw e => throw e
  end.

(** What reading a property of [null] throws. *)
Definition nullRead (prop : string) : JsError :=
  mkError ("Cannot read properties of null (reading '" ++ prop ++ "')").

(** ** The program *)

Section Program.

Variable w : World.

Definition TWILIO_ACCOUNT_SID : JsValue := env w "TWILIO_ACCOUNT_SID".
Definition TWILIO_AUTH_TOKEN : JsValue := env w "TWILIO_AUTH_TOKEN".
Definition TWILIO_PHONE_NUMBER : JsValue := env w "TWILIO_PHONE_NUMBER".
Definition GHL_API_KEY : JsValue := env w "GHL_API_KEY".
Definition GHL_LOCATION_ID : JsValue := env w "GHL_LOCATION_ID".
Definition ULTRAVOX_API_KEY : JsValue := env w "ULTRAVOX_API_KEY".

Definition getServerBaseUrl : string :=
  if truthy (env w "SERVER_BASE_URL") then toString (env w "SERVER_BASE_URL")
  else
    let port := if truthy (env w "PORT") then toString (env w "PORT") else "10000" in
    if truthy (env w "VERCEL_URL") then "https://" ++ toString (env w "VERCEL_URL")
    else if truthy (env w "RENDER_EXTERNAL_URL") then toString (env w "RENDER_EXTERNAL_URL")
    else "http://localhost:" ++ port.

Definition fetch (r : FetchRequest) : M Response := ([EvFetch r], fetchReply w r).

Definition messagesCreate (c : TwilioClient) (p : MessageParams) : M string :=
  ([EvMessagesCreate c p], messagesReply w c p).

Definition callsCreate (c : TwilioClient) (p : CallParams) : M string :=
  ([EvCallsCreate c p], callsReply w c p).

(** The client that [twilio(TWILIO_ACCOUNT_SID, TWILIO_AUTH_TOKEN, options)]
    returns, when it returns. *)
Definition twilioClient (options : option ClientOptions) : TwilioClient :=
  {| accountSid := TWILIO_ACCOUNT_SID; authToken := TWILIO_AUTH_TOKEN;
     clientOptions := options |}.

(** [twilio(TWILIO_ACCOUNT_SID, TWILIO_AUTH_TOKEN, options)]: the
    constructor of the library checks its arguments and can throw. *)
Definition twilio (options : option ClientOptions) : M TwilioClient :=
  match clientRefused w (twilioClient options) with
  | Some e => throw e
  | None => ret (twilioClient options)
  end.

(** *** Environment validation at startup (lines 18-31) *)

Definition requiredEnvVars : list string :=
  ["TWILIO_ACCOUNT_SID"; "TWILIO_AUTH_TOKEN"; "TWILIO_PHONE_NUMBER";
   "ULTRAVOX_API_KEY"; "GHL_API_KEY"; "GHL_LOCATION_ID"].

Definition missingEnvVars : list string :=
  filter (fun envVar => negb (truthy (env w envVar))) requiredEnvVars.

(** The process either exits with a code or goes on to serve requests. *)
Inductive Startup : Type :=
| Exits (exitCode : Z)
| Serves.

Definition validateEnvironment : M Startup :=
  if (0 <? List.length missingEnvVars)%nat then
    consoleError "Missing required environment variables:" ;;;
    ret (Exits 1)
  else ret Serves.

(** *** OutboundMessenger (lines 114-174) *)

Definition sendSMS (phoneNumber message : JsValue) : M string :=
  match message with
  | JsString _ =>
      tryCatch
        (let formattedNumber := formatPhoneNumber phoneNumber in
         (if negb (truthy formattedNumber) then
            consoleError "Invalid phone number format:" ;;;
            throw (mkError "Invalid phone number format")
          else ret tt) ;;;
         let options := {| timeout := 30000; keepAlive := false |} in
         client <- twilio (Some options) ;;
         sid <- messagesCreate client
                  {| msgBody := message;
                     msgFrom := TWILIO_PHONE_NUMBER;
                     msgTo := formattedNumber;
                     attempt := 1;
                     maxPrice := "0.15" |} ;;
         ret sid)
        (fun error =>
           consoleError (newline ++ "=== SMS Send Error ===") ;;;
           consoleError "Error details:" ;;;
           throw (mkError ("SMS send failed: " ++ errMessage error)))
  | _ =>
      (* [message.length] is read before the [try] *)
      throw (mkError ("Cannot read properties of " ++ toString message ++ " (reading 'length')"))
  end.

(** *** POST /api/sms-webhook (lines 177-226) *)

Definition smsWebhook (req : Request) : M HttpResponse :=
  tryCatch
    (let phoneNumber :=
       body req "phoneNumber" ||| body req "recipient" ||| query req "recipient"
       ||| query req "phoneNumber" in
     let message := body req "message" ||| query req "message" in
     if negb (truthy phoneNumber) || negb (truthy message) then
       consoleError "Missing parameters:" ;;;
       ret {| code := 400;
              content := Json [("success", FBool false);
                               ("error", FStr "Missing phoneNumber/recipient or message")] |}
     else
       tryCatch
         (sid <- sendSMS phoneNumber message ;;
          ret {| code := 200;
                 content := Json [("success", FBool true);
                                  ("messageSid", FStr sid);
                                  ("message", FStr "SMS sent successfully")] |})
         (fun smsError =>
            consoleError "Error sending SMS in webhook:" ;;;
            ret {| code := 500;
                   content := Json [("success", FBool false);
                                    ("error", FStr ("SMS send failed: " ++ errMessage smsError))] |}))
    (fun error =>
       consoleError "Error in SMS webhook:" ;;;
       ret {| code := 500;
              content := Json [("success", FBool false); ("error", FStr (errMessage error))] |}).

(** *** CRM REST helpers (lines 229-297) *)

Definition ghlHeaders : list (string * string) :=
  [("Authorization", "Bearer " ++ toString GHL_API_KEY);
   ("Content-Type", "application/json")].

Definition findOrCreateContact (phoneNumber : JsValue) : M (option Contact) :=
  tryCatch
    (searchResponse <- fetch {| url := GHL_API_URL ++ "/contacts/search?query=" ++ toString phoneNumber;
                                method := "GET";
                                headers := ghlHeaders;
                                payload := NoBody |} ;;
     (if negb (ok searchResponse) then
        throw (mkError ("Failed to search contact: " ++ statusText searchResponse))
      else ret tt) ;;;
     searchResult <- await (json searchResponse) ;;
     match searchResult with
     | DNull => throw (nullRead "contacts")
     | DObject found =>
         match contacts found with
         | first :: _ => ret (Some first)
         | [] =>
             createResponse <- fetch {| url := GHL_API_URL ++ "/contacts";
                                         method := "POST";
                                         headers := ghlHeaders;
                                         payload := GhlContactBody phoneNumber GHL_LOCATION_ID |} ;;
             (if negb (ok createResponse) then
                throw (mkError ("Failed to create contact: " ++ statusText createResponse))
              else ret tt) ;;;
             newContact <- await (json createResponse) ;;
             match newContact with
             | DNull => throw (nullRead "contact")
             | DObject created => ret (contact created)
             end
         end
     end)
    (fun error => consoleError "Error in findOrCreateContact:" ;;; throw error).

Definition addTagToContact (contactId tag : JsValue) : M JsData :=
  tryCatch
    (response <- fetch {| url := GHL_API_URL ++ "/contacts/" ++ toString contactId ++ "/tags";
                          method := "POST";
                          headers := ghlHeaders;
                          payload := GhlTagsBody [tag] |} ;;
     (if negb (ok response) then
        throw (mkError ("Failed to add tag: " ++ statusText response))
      else ret tt) ;;;
     await (json response))
    (fun error => consoleError "Error in addTagToContact:" ;;; throw error).

(** *** ConversationSessionFactory (lines 299-552) *)

(** The [client.implementation] of the [sendSMS] tool. *)
Definition sendSMSToolImplementation (baseUrl : string) (recipient message : JsValue) : M string :=
  tryCatch
    (response <- fetch {| url := baseUrl ++ "/api/sms-webhook";
                          method := "POST";
                          headers := [("Content-Type", "application/json")];
                          payload := SmsWebhookBody recipient message |} ;;
     (if negb (ok response) then
        errorData <- await (text response) ;;
        consoleError "SMS webhook error:" ;;;
        throw (mkError "Failed to send SMS")
      else ret tt) ;;;
     result <- await (json response) ;;
     match result with
     | DNull => throw (nullRead "messageSid")
     | DObject o => ret ("SMS sent successfully (" ++ toString (messageSid o) ++ ")")
     end)
    (fun error => consoleError "Error in sendSMS tool:" ;;; ret "Failed to send SMS").

(** The constant [selectedTools] of [createUltravoxCall]. *)
Definition selectedTools_ : list TemporaryTool :=
  [ {| modelToolName := "sendSMS";
       toolDescription := "Send an SMS message to the user with the provided content";
       dynamicParameters :=
         [ {| paramName := "recipient"; paramLocation := "PARAMETER_LOCATION_BODY";
              paramRequired := true |};
           {| paramName := "message"; paramLocation := "PARAMETER_LOCATION_BODY";
              paramRequired := true |} ];
       toolBinding := ClientImplementation |};
    {| modelToolName := "addContact";
       toolDescription := "Add a contact via external CRM API";
       dynamicParameters :=
         [ {| paramName := "clientName"; paramLocation := "PARAMETER_LOCATION_QUERY";
              paramRequired := true |};
           {| paramName := "phoneNumber"; paramLocation := "PARAMETER_LOCATION_QUERY";
              paramRequired := true |};
           {| paramName := "tag"; paramLocation := "PARAMETER_LOCATION_QUERY";
              paramRequired := false |} ];
       toolBinding := Http "https://tag-ghl-danella.onrender.com/api/contacts" "GET" |} ].

Definition ULTRAVOX_CALL_CONFIG (clientName phoneNumber userType : JsValue) : UltravoxCallConfig :=
  {| systemPrompt := {| promptTime := now w;
                        promptClientName := clientName;
                        promptUserType := userType;
                        promptPhoneNumber := phoneNumber |};
     model := "fixie-ai/ultravox-70B";
     voice := "b0e6b5c1-3100-44d5-8578-9015aa3023ae";
     temperature := "0.4";
     firstSpeaker := "FIRST_SPEAKER_USER";
     medium := "twilio";
     selectedTools := selectedTools_ |}.

Definition ultravoxRequest (clientName phoneNumber userType : JsValue) : FetchRequest :=
  {| url := "https://api.ultravox.ai/api/calls";
     method := "POST";
     headers := [("Content-Type", "application/json");
                 ("X-API-Key", toString ULTRAVOX_API_KEY)];
     payload := UltravoxCallBody (ULTRAVOX_CALL_CONFIG clientName phoneNumber userType) |}.

Definition createUltravoxCall (clientName phoneNumber userType : JsValue) : M JsData :=
  tryCatch
    (response <- fetch (ultravoxRequest clientName phoneNumber userType) ;;
     (if negb (ok response) then
        errorText <- await (text response) ;;
        throw (mkError ("Ultravox API error: " ++ stringOfZ (status response) ++ " "
                        ++ statusText response ++ " - " ++ errorText))
      else ret tt) ;;;
     data <- await (json response) ;;
     ret data)
    (fun error => consoleError "Error creating Ultravox call:" ;;; throw error).

(** *** CallOrchestrator (lines 554-582) *)

(** The status-callback URL of line 564, for a name and a phone that can be
    encoded. *)
Definition statusCallbackUrl (clientName phoneNumber : JsValue) : string :=
  getServerBaseUrl ++ "/call-status?clientName=" ++ encodeURIComponent clientName
  ++ "&phoneNumber=" ++ encodeURIComponent phoneNumber.

Definition initiateCall (clientName phoneNumber userType : JsValue) : M string :=
  tryCatch
    (ultravoxCall <- createUltravoxCall clientName phoneNumber userType ;;
     match ultravoxCall with
     | DNull =>
         throw (mkError "Cannot destructure property 'joinUrl' of 'ultravoxCall' as it is null.")
     | DObject session =>
         encodedName <- encodeURIComponentM (Plain clientName) ;;
         encodedPhone <- encodeURIComponentM (Plain phoneNumber) ;;
         let callbackUrl := getServerBaseUrl ++ "/call-status?clientName=" ++ encodedName
                            ++ "&phoneNumber=" ++ encodedPhone in
         client <- twilio None ;;
         sid <- callsCreate client
                  {| twiml := "<Response><Connect><Stream url=" ++ quote
                              ++ toString (joinUrl session) ++ quote
                              ++ "/></Connect></Response>";
                     callTo := phoneNumber;
                     callFrom := TWILIO_PHONE_NUMBER;
                     statusCallback := callbackUrl;
                     statusCallbackEvent := ["initiated"; "ringing"; "answered"; "completed"];
                     statusCallbackMethod := "POST" |} ;;
         ret sid
     end)
    (fun error => consoleError "Error initiating call:" ;;; throw error).

(** *** CallStatusHandler: POST /call-status (lines 585-657) *)

Definition tagWebhook : string := "https://tag-ghl-danella.onrender.com/api/contacts".

(** [formatPhoneNumberForTagging] (lines 106-111) on any value. *)
Definition formatPhoneNumberForTaggingAny (phoneNumber : JsAny) : Result JsValue :=
  if negb (truthyAny phoneNumber) then Ok JsNull
  else
    match callToString "phoneNumber" phoneNumber with
    | Ok s => Ok (JsString (stripNonDigits (trim s)))
    | Throw e => Throw e
    end.

Definition callStatusHandler (req : RawRequest) : M HttpResponse :=
  let callStatus := rawBody req "CallStatus" in
  let callSid := rawBody req "CallSid" in
  let to := rawBody req "To" in
  let clientName := rawQuery req "clientName" in
  let phoneNumber := rawQuery req "phoneNumber" in
  (if isString callStatus "initiated" then consoleLog [callSid; to]
   else if isString callStatus "ringing" then consoleLog [callSid]
   else if isString callStatus "busy" then
     consoleLog [callSid] ;;;
     tryCatch
       (let tag := encodeURIComponentStr "events → ve0525flash-call-busy" in
        formattedPhone <- await (formatPhoneNumberForTaggingAny (orElseAny phoneNumber to)) ;;
        encodedName <- encodeURIComponentM clientName ;;
        let tagUrl := tagWebhook ++ "?clientName=" ++ encodedName
                      ++ "&phoneNumber=" ++ toString formattedPhone ++ "&tag=" ++ tag in
        response <- fetch (get tagUrl) ;;
        (if negb (ok response) then
           errorText <- await (text response) ;;
           throw (mkError ("Failed to tag contact: " ++ statusText response ++ " - " ++ errorText))
         else ret tt) ;;;
        consoleLog [to])
       (fun error => consoleError "Error tagging busy contact:")
   else if isString callStatus "no-answer" then
     consoleLog [callSid] ;;;
     tryCatch
       (let tag := encodeURIComponentStr "events → ve0525flash-call-no-answer" in
        formattedPhone <- await (formatPhoneNumberForTaggingAny (orElseAny phoneNumber to)) ;;
        encodedName <- encodeURIComponentM clientName ;;
        let tagUrl := tagWebhook ++ "?clientName=" ++ encodedName
                      ++ "&phoneNumber=" ++ toString formattedPhone ++ "&tag=" ++ tag in
        response <- fetch (get tagUrl) ;;
        (if negb (ok response) then
           errorText <- await (text response) ;;
           throw (mkError ("Failed to tag contact: " ++ statusText response ++ " - " ++ errorText))
         else ret tt) ;;;
        consoleLog [to])
       (fun error => consoleError "Error tagging no-answer contact:")
   else if isString callStatus "failed" then consoleLog [callSid; callStatus]
   else if isString callStatus "canceled" then consoleLog [callSid; callStatus]
   else if isString callStatus "completed" then consoleLog [callSid]
   else ret tt) ;;;
  (* res.sendStatus(200) *)
  ret {| code := 200; content := Text "OK" |}.

(** *** POST /send-sms (lines 660-689) *)

Definition sendSmsHandler (req : Request) : M HttpResponse :=
  tryCatch
    (let phoneNumber := body req "phoneNumber" in
     let message := body req "message" in
     if negb (truthy phoneNumber) || negb (truthy message) then
       consoleError "Missing parameters in direct SMS:" ;;;
       ret {| code := 400;
              content := Json [("error", FStr "Missing required parameters: phoneNumber and message")] |}
     else
       sid <- sendSMS phoneNumber message ;;
       ret {| code := 200;
              content := Json [("success", FBool true);
                               ("message", FStr "SMS sent successfully");
                               ("messageSid", FStr sid)] |})
    (fun error =>
       consoleError "Error in direct SMS endpoint:" ;;;
       ret {| code := 500;
              content := Json [("error", FStr "Failed to send SMS");
                               ("message", FStr (errMessage error))] |}).

(** *** GET /health (lines 692-694) *)

Definition healthHandler (req : Request) : M HttpResponse :=
  ret {| code := 200; content := Json [("status", FStr "ok")] |}.

(** *** GET|POST /initiate-call (lines 697-734) *)

Definition handleCall (req : Request) : M HttpResponse :=
  tryCatch
    (let clientName := query req "clientName" ||| body req "clientName" in
     let phoneNumber := query req "phoneNumber" ||| body req "phoneNumber" in
     let userType := query req "userType" ||| body req "userType" ||| JsString "non-VIP" in
     if negb (truthy clientName) || negb (truthy phoneNumber) then
       ret {| code := 400;
              content := Json [("error", FStr "Missing required parameters: clientName and phoneNumber")] |}
     else
       let formattedNumber := formatPhoneNumber phoneNumber in
       if negb (truthy formattedNumber) then
         ret {| code := 400;
                content := Json [("error", FStr "Invalid phone number format. Please provide a valid phone number (e.g., 1234567890 or +1234567890)")] |}
       else
         callSid <- initiateCall clientName formattedNumber userType ;;
         ret {| code := 200;
                content := Json [("success", FBool true);
                                 ("message", FStr "Call initiated successfully");
                                 ("callSid", FStr callSid)] |})
    (fun error =>
       consoleError "Error in handleCall:" ;;;
       ret {| code := 500;
              content := Json [("error", FStr "Failed to initiate call");
                               ("message", FStr (errMessage error))] |}).

(** *** The routes of the application, on requests with plain fields *)

Inductive Route : Type :=
| PostSmsWebhook
| PostCallStatus
| PostSendSms
| GetHealth
| GetInitiateCall
| PostInitiateCall.

Definition serve (r : Route) (req : Request) : M HttpResponse :=
  match r with
  | PostSmsWebhook => smsWebhook req
  | PostCallStatus => callStatusHandler (raw req)
  | PostSendSms => sendSmsHandler req
  | GetHealth => healthHandler req
  | GetInitiateCall => handleCall req
  | PostInitiateCall => handleCall req
  end.

End Program.

(** * Definitions used by the statements *)

(** A digit string: every character is an ASCII digit. *)
Fixpoint isDigits (s : string) : bool :=
  match s with
  | EmptyString => true
  | String c r => isDigit c && isDigits r
  end.

(** The tagging operation: a GET of the tagging webhook for a contact
    name, a contact key and a tag string. *)
Definition taggingRequest (clientName : JsValue) (contactKey tag : string) : FetchRequest :=
  get (tagWebhook ++ "?clientName=" ++ encodeURIComponent clientName
       ++ "&phoneNumber=" ++ contactKey ++ "&tag=" ++ encodeURIComponentStr tag).


Definition isMessagesCreate (e : Event) : bool :=
  match e with
  | EvMessagesCreate _ _ => true
  | _ => false
  end.

Definition isCallsCreate (e : Event) : bool :=
  match e with
  | EvCallsCreate _ _ => true
  | _ => false
  end.

(** The requests that the CRM REST helpers issue. *)
Definition ghlSearchRequest (w : World) (phoneNumber : JsValue) : FetchRequest :=
  {| url := GHL_API_URL ++ "/contacts/search?query=" ++ toString phoneNumber;
     method := "GET"; headers := ghlHeaders w; payload := NoBody |}.

Definition ghlCreateRequest (w : World) (phoneNumber : JsValue) : FetchRequest :=
  {| url := GHL_API_URL ++ "/contacts";
     method := "POST"; headers := ghlHeaders w;
     payload := GhlContactBody phoneNumber (GHL_LOCATION_ID w) |}.

Definition ghlTagsRequest (w : World) (contactId tag : JsValue) : FetchRequest :=
  {| url := GHL_API_URL ++ "/contacts/" ++ toString contactId ++ "/tags";
     method := "POST"; headers := ghlHeaders w; payload := GhlTagsBody [tag] |}.

Inductive crmRestRequest (w : World) : FetchRequest -> Prop :=
| CrmSearch phoneNumber : crmRestRequest w (ghlSearchRequest w phoneNumber)
| CrmCreate phoneNumber : crmRestRequest w (ghlCreateRequest w phoneNumber)
| CrmTags contactId tag : crmRestRequest w (ghlTagsRequest w contactId tag).

(** The status-callback URL as section 4.5 of the specification words it:
    it embeds the display name and the phone as supplied in the request. *)
Definition statusCallbackUrlSpec (w : World) (displayName rawPhone : JsValue) : string :=
  getServerBaseUrl w ++ "/call-status?clientName=" ++ encodeURIComponent displayName
  ++ "&phoneNumber=" ++ encodeURIComponent rawPhone.

(** A tagging request fails when [fetch] rejects or the reply is not ok. *)
Definition taggingFails (w : World) (r : FetchRequest) : bool :=
  match fetchReply w r with
  | Ok response => negb (ok response)
  | Throw _ => true
  end.

(** What the status handler logs after a tagging request. *)
Definition taggingLog (w : World) (r : FetchRequest) (label : string) : list Event :=
  if taggingFails w r then [EvConsoleError label] else [].

(** The contact key of a status callback: the tagging form of the query
    parameter [phoneNumber], or of the body field [To] when that is falsy,
    as it is interpolated into the tagging URL. *)
Definition contactKey (req : Request) : string :=
  toString (formatPhoneNumberForTagging (query req "phoneNumber" ||| body req "To")).

(** The lead of an initiate-call request, as [handleCall] reads it. *)
Definition leadName (req : Request) : JsValue :=
  query req "clientName" ||| body req "clientName".

Definition leadPhone (req : Request) : JsValue :=
  query req "phoneNumber" ||| body req "phoneNumber".

Definition leadType (req : Request) : JsValue :=
  query req "userType" ||| body req "userType" ||| JsString "non-VIP".

(** The session-creation request that [handleCall] issues for a request. *)
Definition sessionRequest (w : World) (req : Request) : FetchRequest :=
  ultravoxRequest w (leadName req) (formatPhoneNumber (leadPhone req)) (leadType req).

(** How session creation ends, given the reply of the voice-AI provider. *)
Definition sessionResult (w : World) (u : FetchRequest) : Result JsData :=
  match fetchReply w u with
  | Throw e => Throw e
  | Ok response =>
      if ok response then json response
      else
        match text response with
        | Ok errorText =>
            Throw (mkError ("Ultravox API error: " ++ stringOfZ (status response) ++ " "
                            ++ statusText response ++ " - " ++ errorText))
        | Throw e => Throw e
        end
  end.

(** The dial request of [initiateCall]. *)
Definition dialParams (w : World) (clientName phoneNumber : JsValue) (session : ReplyObject)
  : CallParams :=
  {| twiml := "<Response><Connect><Stream url=" ++ quote ++ toString (joinUrl session) ++ quote
              ++ "/></Connect></Response>";
     callTo := phoneNumber;
     callFrom := TWILIO_PHONE_NUMBER w;
     statusCallback := statusCallbackUrl w clientName phoneNumber;
     statusCallbackEvent := ["initiated"; "ringing"; "answered"; "completed"];
     statusCallbackMethod := "POST" |}.

Definition failure500 (label : string) (e : JsError) : HttpResponse :=
  {| code := 500; content := Json [("error", FStr label); ("message", FStr (errMessage e))] |}.

(** Every event of the trace of a computation satisfies [Q]. *)
Definition traceAll (Q : Event -> Prop) {A} (m : M A) : Prop := Forall Q (trace m).

(** An event that is not a CRM REST request. *)
Definition crmFree (w : World) (ev : Event) : Prop :=
  match ev with
  | EvFetch r => ~ crmRestRequest w r /\ startsWith (url r) GHL_API_URL = false
  | _ => True
  end.

(** The conversion of a value to a string does not throw. *)
Definition printable (x : JsAny) : bool :=
  match toStringAny x with
  | Ok _ => true
  | Throw _ => false
  end.

(** The statuses for which the status handler logs the call sid. *)
Definition loggedStatuses : list string :=
  ["initiated"; "ringing"; "busy"; "no-answer"; "failed"; "canceled"; "completed"].

(** How often a character occurs in a string. *)
Fixpoint countChar (c : ascii) (s : string) : nat :=
  match s with
  | EmptyString => 0
  | String a r => (if Ascii.eqb a c then 1 else 0) + countChar c r
  end.

Definition isFetch (e : Event) : bool :=
  match e with
  | EvFetch _ => true
  | _ => false
  end.

(** The digits of a value, as the phone helpers read them. *)
Definition digitsOf (v : JsValue) : string := stripNonDigits (toString v).

(** The status code a handler answered with, if it answered. *)
Definition answered (m : M HttpResponse) : option Z :=
  match outcome m with
  | Ok response => Some (code response)
  | Throw _ => None
  end.

(** The client and the parameters of the message [sendSMS] dispatches. *)
Definition smsClient (w : World) : TwilioClient :=
  twilioClient w (Some {| timeout := 30000; keepAlive := false |}).

Definition smsParams (w : World) (phoneNumber message : JsValue) : MessageParams :=
  {| msgBody := message; msgFrom := TWILIO_PHONE_NUMBER w;
     msgTo := formatPhoneNumber phoneNumber; attempt := 1; maxPrice := "0.15" |}.

(** The recipient and the text of a POST /api/sms-webhook. *)
Definition webhookPhone (req : Request) : JsValue :=
  body req "phoneNumber" ||| body req "recipient" ||| query req "recipient"
  ||| query req "phoneNumber".

Definition webhookMessage (req : Request) : JsValue :=
  body req "message" ||| query req "message".

(** *** Concrete worlds and requests *)

Definition object (fields : list (string * string)) : string -> JsValue :=
  fun key =>
    match find (fun kv => String.eqb (fst kv) key) fields with
    | Some kv => JsString (snd kv)
    | None => JsUndefined
    end.

Definition sampleEnv : string -> JsValue :=
  object [("TWILIO_ACCOUNT_SID", "AC0001"); ("TWILIO_AUTH_TOKEN", "token");
          ("TWILIO_PHONE_NUMBER", "+15550001111"); ("ULTRAVOX_API_KEY", "uv-key");
          ("GHL_API_KEY", "ghl-key"); ("GHL_LOCATION_ID", "loc-1");
          ("SERVER_BASE_URL", "https://clair.example.com")].

Definition sampleReply : ReplyObject :=
  {| joinUrl := JsString "wss://voice.example.com/join/1";
     messageSid := JsString "SM0001";
     contacts := [];
     contact := None |}.

(** What [twilio(...)] throws in the sample worlds: the constructor of the
    library refuses an account sid that does not start with AC. *)
Definition accountSidCheck (c : TwilioClient) : option JsError :=
  if startsWith (toString (accountSid c)) "AC" then None
  else Some (mkError "accountSid must start with AC").

(** Every service answers with success. *)
Definition worldUp : World :=
  {| env := sampleEnv;
     now := "2025-05-20T16:00:00.000Z";
     fetchReply := fun _ => Ok {| status := 200; statusText := "OK";
                                  text := Ok "ok"; json := Ok (DObject sampleReply) |};
     clientRefused := accountSidCheck;
     messagesReply := fun _ _ => Ok "SM0001";
     callsReply := fun _ _ => Ok "CA0001" |}.

(** A deployment whose TWILIO_ACCOUNT_SID holds an API key sid: startup
    validation passes, and the constructor of the client throws. *)
Definition worldApiKey : World :=
  {| env := object [("TWILIO_ACCOUNT_SID", "SK0001"); ("TWILIO_AUTH_TOKEN", "token");
                    ("TWILIO_PHONE_NUMBER", "+15550001111"); ("ULTRAVOX_API_KEY", "uv-key");
                    ("GHL_API_KEY", "ghl-key"); ("GHL_LOCATION_ID", "loc-1");
                    ("SERVER_BASE_URL", "https://clair.example.com")];
     now := "2025-05-20T16:00:00.000Z";
     fetchReply := fun _ => Ok {| status := 200; statusText := "OK";
                                  text := Ok "ok"; json := Ok (DObject sampleReply) |};
     clientRefused := accountSidCheck;
     messagesReply := fun _ _ => Ok "SM0001";
     callsReply := fun _ _ => Ok "CA0001" |}.

(** Every service answers with a failure. *)
Definition worldDown : World :=
  {| env := sampleEnv;
     now := "2025-05-20T16:00:00.000Z";
     fetchReply := fun _ => Ok {| status := 500; statusText := "Internal Server Error";
                                  text := Ok "upstream exploded";
                                  json := Throw (mkError "Unexpected token") |};
     clientRefused := accountSidCheck;
     messagesReply := fun _ _ => Throw (mkError "carrier rejected");
     callsReply := fun _ _ => Throw (mkError "dial failed") |}.

Definition request (q b : list (string * string)) : Request :=
  {| query := object q; body := object b |}.

(** The status callback of the scenario of section 8. *)
Definition busyJane : Request :=
  request [("clientName", "Jane"); ("phoneNumber", "5551234567")]
          [("CallStatus", "busy"); ("CallSid", "CA0001"); ("To", "+15551234567")].


(** A status callback sent as JSON, with an object as call sid:
    {"CallStatus": "busy", "CallSid": {"toString": null}}. *)
Definition busyObjectSid : RawRequest :=
  {| rawQuery := fun _ => Plain JsUndefined;
     rawBody := fun key =>
       if String.eqb key "CallStatus" then Plain (JsString "busy")
       else if String.eqb key "CallSid" then Other true None
       else Plain JsUndefined |}.

Definition initiateJane : Request :=
  request [("clientName", "Jane"); ("phoneNumber", "(555) 123-4567")] [].

(** * Properties *)

(** ** Evaluation on sample inputs *)

Example fmt1 : formatPhoneNumber (JsString "(555) 123-4567") = JsString "+15551234567".
Proof. reflexivity. Qed.
Example fmt2 : formatPhoneNumber (JsString "09171234567") = JsNull.
Proof. reflexivity. Qed.
Example fmt3 : formatPhoneNumber (JsString "6312345678") = JsString "+6312345678".
Proof. reflexivity. Qed.
Example tag1 : formatPhoneNumberForTagging (JsString "abc") = JsString "".
Proof. reflexivity. Qed.
Example tag2 : formatPhoneNumberForTagging (JsString "09171234567") = JsString "09171234567".
Proof. reflexivity. Qed.
Example fmt4 : formatPhoneNumber (JsString "1234567") = JsNull.
Proof. reflexivity. Qed.
Example fmt5 : formatPhoneNumber (JsString "+1 555 123 4567") = JsString "+15551234567".
Proof. reflexivity. Qed.

Example trim1 : trim (bytes [32; 194; 160] ++ "(555) 123-4567" ++ bytes [10; 9]) = "(555) 123-4567".
Proof. reflexivity. Qed.
Example trim2 : trim "  555 123  " = "555 123".
Proof. reflexivity. Qed.
Example trim3 : trim (bytes [32; 9; 13]) = "".
Proof. reflexivity. Qed.

Example encode1 :
  encodeURIComponentStr "events → ve0525flash-call-busy"
  = "events%20%E2%86%92%20ve0525flash-call-busy".
Proof. reflexivity. Qed.
Example encode2 : encodeURIComponent (JsString "+15551234567") = "%2B15551234567".
Proof. reflexivity. Qed.
Example encode3 : encodeURIComponent JsUndefined = "undefined".
Proof. reflexivity. Qed.

Example missingPhone :
  handleCall worldUp (request [("clientName", "Jane")] [])
  = ([], Ok {| code := 400;
               content := Json [("error",
                 FStr "Missing required parameters: clientName and phoneNumber")] |}).
Proof. reflexivity. Qed.


(** ** Digit stripping and trimming *)

Lemma stripNonDigits_app (a b : string) :
  stripNonDigits (a ++ b) = stripNonDigits a ++ stripNonDigits b.
Proof.
  induction a as [|c a IH]; simpl; [reflexivity|].
  destruct (isDigit c); simpl; now rewrite IH.
Qed.

Lemma stripNonDigits_digits (s : string) :
  isDigits s = true -> stripNonDigits s = s.
Proof.
  induction s as [|c s IH]; simpl; [reflexivity|].
  intros H. apply andb_true_iff in H as [Hc Hs].
  rewrite Hc. now rewrite IH.
Qed.

Lemma isDigits_stripNonDigits (s : string) : isDigits (stripNonDigits s) = true.
Proof.
  induction s as [|c s IH]; simpl; [reflexivity|].
  destruct (isDigit c) eqn:Hc; simpl; [now rewrite Hc|assumption].
Qed.

Lemma stripNonDigits_idem (s : string) :
  stripNonDigits (stripNonDigits s) = stripNonDigits s.
Proof. apply stripNonDigits_digits, isDigits_stripNonDigits. Qed.

Lemma dropPrefix_app (p s r : string) : dropPrefix p s = Some r -> s = p ++ r.
Proof.
  revert s. induction p as [|a p IH]; intros s H; simpl in *.
  - now inversion H.
  - destruct s as [|b s]; [discriminate|].
    destruct (Ascii.eqb a b) eqn:E; [|discriminate].
    apply Ascii.eqb_eq in E. subst b. f_equal. now apply IH.
Qed.

Lemma whiteSpace_no_digit : Forall (fun p => stripNonDigits p = "") whiteSpace.
Proof. repeat constructor. Qed.

Lemma dropOne_digits (ws : list string) (s r : string) :
  Forall (fun p => stripNonDigits p = "") ws ->
  dropOne ws s = Some r -> stripNonDigits s = stripNonDigits r.
Proof.
  induction 1 as [|p ws Hp _ IH]; [discriminate|].
  cbn [dropOne].
  destruct p as [|a p]; [exact IH|].
  destruct (dropPrefix (String a p) s) as [r'|] eqn:E; [|exact IH].
  intros H. inversion H; subst r'.
  apply dropPrefix_app in E. rewrite E, stripNonDigits_app, Hp. reflexivity.
Qed.

Lemma trimStartFuel_digits (fuel : nat) (s : string) :
  stripNonDigits (trimStartFuel fuel s) = stripNonDigits s.
Proof.
  revert s. induction fuel as [|fuel IH]; intros s; cbn [trimStartFuel]; [reflexivity|].
  destruct (dropOne whiteSpace s) as [r|] eqn:E; [|reflexivity].
  rewrite IH. symmetry. eapply dropOne_digits; [apply whiteSpace_no_digit|exact E].
Qed.

Lemma trimStart_digits (s : string) : stripNonDigits (trimStart s) = stripNonDigits s.
Proof. apply trimStartFuel_digits. Qed.

Lemma trimEnd_digits (s : string) : stripNonDigits (trimEnd s) = stripNonDigits s.
Proof.
  induction s as [|c s IH]; [reflexivity|].
  cbn [trimEnd].
  destruct (trimStart (String c s)) as [|c' s'] eqn:E.
  - rewrite <- (trimStart_digits (String c s)), E. reflexivity.
  - simpl. now rewrite IH.
Qed.

(** Trimming never changes the digits of a string. *)
Lemma trim_digits (s : string) : stripNonDigits (trim s) = stripNonDigits s.
Proof. unfold trim. now rewrite trimStart_digits, trimEnd_digits. Qed.

Lemma truthy_string (s : string) : truthy (JsString s) = negb (String.eqb s "").
Proof. destruct s; reflexivity. Qed.

Lemma truthy_inv (v : JsValue) :
  truthy v = true -> exists c s, v = JsString (String c s).
Proof. destruct v as [| |[|c s]]; try discriminate. intros _. now exists c, s. Qed.

(** What the tagging form is, without the trimming step. *)
Lemma formatPhoneNumberForTagging_eq (v : JsValue) :
  formatPhoneNumberForTagging v
  = if truthy v then JsString (stripNonDigits (toString v)) else JsNull.
Proof.
  unfold formatPhoneNumberForTagging.
  destruct (truthy v); simpl; [now rewrite trim_digits|reflexivity].
Qed.

(** ** PhoneNormalizer *)

(** [formatPhoneNumber] on a string, with the trimming step removed. *)
Lemma formatPhoneNumber_string (raw : string) :
  formatPhoneNumber (JsString raw)
  = if String.eqb raw "" then JsNull
    else
      let digits := stripNonDigits raw in
      if startsWith digits "63" then JsString ("+" ++ digits)
      else if (String.length digits =? 10)%nat then JsString ("+1" ++ digits)
      else if (11 <=? String.length digits)%nat then
        if startsWith digits "1" then JsString ("+" ++ digits)
        else if startsWith digits "63" then JsString ("+" ++ digits)
        else JsNull
      else JsNull.
Proof.
  unfold formatPhoneNumber. rewrite truthy_string, negb_involutive.
  destruct (String.eqb raw ""); [reflexivity|].
  cbn [toString]. rewrite trim_digits. reflexivity.
Qed.

(** C5: for every input string, [formatPhoneNumber] computes the dialable
    form exactly as the branch list of the specification does: digits
    starting with 63, then ten digits, then eleven or more digits starting
    with 1, then eleven or more starting with 63, otherwise null. *)
Theorem C5_formatPhoneNumber_refines_spec (raw : string) :
  formatPhoneNumber (JsString raw) = dialableValue (normalizeDialableSpec raw).
Proof.
  rewrite formatPhoneNumber_string. unfold normalizeDialableSpec.
  destruct (String.eqb raw "") eqn:E.
  - apply String.eqb_eq in E. subst raw. reflexivity.
  - cbv zeta.
    destruct (startsWith (stripNonDigits raw) "63"); [reflexivity|].
    destruct (String.length (stripNonDigits raw) =? 10)%nat; [reflexivity|].
    destruct (11 <=? String.length (stripNonDigits raw))%nat; [|reflexivity].
    destruct (startsWith (stripNonDigits raw) "1"); reflexivity.
Qed.

(** C3, as stated, fails: a ten-digit string that starts with 63 is taken
    for a Philippine number and only gets a plus sign. *)
Lemma C3_ten_digits_counterexample :
  isDigits "6312345678" = true /\
  String.length "6312345678" = 10%nat /\
  formatPhoneNumber (JsString "6312345678") = JsString "+6312345678" /\
  formatPhoneNumber (JsString "6312345678") <> JsString ("+1" ++ "6312345678").
Proof. repeat split; try reflexivity. discriminate. Qed.

(** C3 (amended): for every digit string x of length 10 that does not start
    with 63, the dialable form is "+1" followed by x. *)
Theorem C3_ten_digits_dialable (x : string) :
  isDigits x = true ->
  String.length x = 10%nat ->
  startsWith x "63" = false ->
  formatPhoneNumber (JsString x) = JsString ("+1" ++ x).
Proof.
  intros Hd Hl H63. rewrite formatPhoneNumber_string.
  destruct (String.eqb x "") eqn:E.
  - apply String.eqb_eq in E. subst x. discriminate.
  - cbv zeta. rewrite (stripNonDigits_digits x Hd), H63, Hl. reflexivity.
Qed.

Lemma C3_ten_digits_dialable_witness :
  isDigits "5551234567" = true /\
  String.length "5551234567" = 10%nat /\
  startsWith "5551234567" "63" = false /\
  formatPhoneNumber (JsString "5551234567") = JsString ("+1" ++ "5551234567").
Proof.
  split; [reflexivity|]. split; [reflexivity|]. split; [reflexivity|].
  apply (C3_ten_digits_dialable "5551234567"); reflexivity.
Defined.

(** C4, as stated, fails: for the empty string and for null the tagging form
    is null, not the empty string. *)
Lemma C4_tagging_key_counterexample :
  formatPhoneNumberForTagging (JsString "") = JsNull /\
  formatPhoneNumberForTagging JsNull = JsNull /\
  formatPhoneNumberForTagging (JsString "") <> JsString (stripNonDigits "") /\
  formatPhoneNumberForTagging JsNull <> JsString "".
Proof. repeat split; try reflexivity; discriminate. Qed.

(** C4 (amended): both projections of the normaliser are total functions
    (every input, be it undefined, null or any string, yields a value and
    nothing is thrown); for a non-empty string the tagging form is the input
    with every non-digit removed; for an empty, null or undefined input the
    tagging form is null, as is the dialable form. *)
Theorem C4_tagging_key_total (v : JsValue) :
  formatPhoneNumberForTagging v
  = (if truthy v then JsString (stripNonDigits (toString v)) else JsNull) /\
  (truthy v = false ->
   formatPhoneNumberForTagging v = JsNull /\ formatPhoneNumber v = JsNull).
Proof.
  split; [apply formatPhoneNumberForTagging_eq|].
  intros T. unfold formatPhoneNumberForTagging, formatPhoneNumber.
  rewrite T. split; reflexivity.
Qed.

Lemma C4_tagging_key_total_witness :
  truthy (JsString "") = false /\
  formatPhoneNumberForTagging (JsString "") = JsNull /\
  formatPhoneNumber (JsString "") = JsNull /\
  formatPhoneNumberForTagging (JsString "+1 (555) 123-4567") = JsString "15551234567".
Proof.
  split; [reflexivity|].
  destruct (C4_tagging_key_total (JsString "")) as [_ H].
  destruct (H eq_refl) as [Ht Hd].
  split; [exact Ht|]. split; [exact Hd|].
  apply (C4_tagging_key_total (JsString "+1 (555) 123-4567")).
Defined.

(** C9, as stated, fails: a non-empty string without digits has the empty
    string as tagging form, and the tagging form of the empty string is
    null. *)
Lemma C9_tagging_idempotent_counterexample :
  formatPhoneNumberForTagging (JsString "abc") = JsString "" /\
  formatPhoneNumberForTagging (formatPhoneNumberForTagging (JsString "abc")) = JsNull /\
  formatPhoneNumberForTagging (formatPhoneNumberForTagging (JsString "abc"))
  <> formatPhoneNumberForTagging (JsString "abc").
Proof. repeat split; try reflexivity; discriminate. Qed.

(** C9 (amended): the tagging form is idempotent on every input whose
    tagging form is not the empty string, that is, on undefined, null, the
    empty string and every string that holds at least one digit. *)
Theorem C9_tagging_idempotent (x : JsValue) :
  formatPhoneNumberForTagging x <> JsString "" ->
  formatPhoneNumberForTagging (formatPhoneNumberForTagging x)
  = formatPhoneNumberForTagging x.
Proof.
  intros H. rewrite formatPhoneNumberForTagging_eq in H.
  rewrite (formatPhoneNumberForTagging_eq x).
  destruct (truthy x); [|reflexivity].
  rewrite formatPhoneNumberForTagging_eq, truthy_string. cbn [toString].
  destruct (String.eqb (stripNonDigits (toString x)) "") eqn:E.
  - apply String.eqb_eq in E. rewrite E in H. now contradiction H.
  - cbn [negb]. now rewrite stripNonDigits_idem.
Qed.

Lemma C9_tagging_idempotent_witness :
  formatPhoneNumberForTagging (JsString "(555) 123-4567") <> JsString "" /\
  formatPhoneNumberForTagging (formatPhoneNumberForTagging (JsString "(555) 123-4567"))
  = formatPhoneNumberForTagging (JsString "(555) 123-4567").
Proof.
  split; [discriminate|].
  apply (C9_tagging_idempotent (JsString "(555) 123-4567")). discriminate.
Defined.

(** ** OutboundMessenger *)

(** The dialable form is null or a string that starts with a plus sign. *)
Lemma formatPhoneNumber_cases (v : JsValue) :
  formatPhoneNumber v = JsNull \/ exists d, formatPhoneNumber v = JsString (String "+" d).
Proof.
  unfold formatPhoneNumber.
  repeat match goal with
         | |- context [if ?b then _ else _] => destruct b
         end; (now left) || (right; eexists; reflexivity).
Qed.

Lemma formatPhoneNumber_truthy (v : JsValue) (d : string) :
  formatPhoneNumber v = JsString d -> truthy (JsString d) = true.
Proof.
  intros H. destruct (formatPhoneNumber_cases v) as [E|[d' E]]; rewrite E in H.
  - discriminate.
  - now inversion H.
Qed.

Ltac run :=
  cbv beta iota zeta delta
    [bind tryCatch ret throw await consoleError fetch messagesCreate callsCreate
     trace outcome fst snd].

Tactic Notation "run" "in" hyp(H) :=
  cbv beta iota zeta delta
    [bind tryCatch ret throw await consoleError fetch messagesCreate callsCreate
     trace outcome fst snd] in H.

(** C8, as stated, fails: with a recipient that has a dialable form, no
    message is dispatched when the constructor of the telephony client
    refuses the configured account sid. *)
Lemma C8_sendSMS_counterexample :
  validateEnvironment worldApiKey = ([], Ok Serves) /\
  formatPhoneNumber (JsString "(555) 123-4567") = JsString "+15551234567" /\
  filter isMessagesCreate
    (trace (sendSMS worldApiKey (JsString "(555) 123-4567") (JsString "See you at 4pm"))) = [] /\
  outcome (sendSMS worldApiKey (JsString "(555) 123-4567") (JsString "See you at 4pm"))
  = Throw (mkError "SMS send failed: accountSid must start with AC").
Proof. repeat split. Qed.

(** C8 (amended): [sendSMS] on a phone whose dialable form is null throws
    the invalid-phone-number error (under the "SMS send failed" wrapper that
    the function puts on every error) and dispatches no message; on any
    other phone, provided the telephony client can be constructed from the
    configured credentials, it dispatches exactly one message, from the
    configured sender number, through a client with a 30000 ms timeout and
    with a maximum price set, returns the sid the provider assigned when the
    provider accepts, and throws the wrapped provider error when the
    provider fails. *)
Theorem C8_sendSMS (w : World) (rawPhone : JsValue) (text : string) :
  let client := twilioClient w (Some {| timeout := 30000; keepAlive := false |}) in
  let params := fun to =>
    {| msgBody := JsString text; msgFrom := TWILIO_PHONE_NUMBER w; msgTo := to;
       attempt := 1; maxPrice := "0.15" |} in
  let call := sendSMS w rawPhone (JsString text) in
  (formatPhoneNumber rawPhone = JsNull ->
   outcome call = Throw (mkError "SMS send failed: Invalid phone number format") /\
   filter isMessagesCreate (trace call) = []) /\
  (forall dialable, formatPhoneNumber rawPhone = JsString dialable ->
   clientRefused w client = None ->
   filter isMessagesCreate (trace call) = [EvMessagesCreate client (params (JsString dialable))] /\
   (forall sid, messagesReply w client (params (JsString dialable)) = Ok sid ->
                outcome call = Ok sid) /\
   (forall e, messagesReply w client (params (JsString dialable)) = Throw e ->
              outcome call = Throw (mkError ("SMS send failed: " ++ errMessage e)))).
Proof.
  cbv zeta. unfold sendSMS. split.
  - intros H. rewrite H. split; reflexivity.
  - intros dialable H C. rewrite H, (formatPhoneNumber_truthy _ _ H).
    cbn [negb]. unfold twilio. rewrite C. run.
    match goal with |- context [messagesReply w ?c ?p] => destruct (messagesReply w c p) as [sid|e] end.
    + repeat split; [intros ? [= ->]; reflexivity | discriminate].
    + repeat split; [discriminate | intros ? [= ->]; reflexivity].
Qed.

Lemma C8_sendSMS_witness :
  formatPhoneNumber (JsString "12345") = JsNull /\
  outcome (sendSMS worldDown (JsString "12345") (JsString "See you at 4pm"))
  = Throw (mkError "SMS send failed: Invalid phone number format") /\
  formatPhoneNumber (JsString "(555) 123-4567") = JsString "+15551234567" /\
  clientRefused worldUp
    (twilioClient worldUp (Some {| timeout := 30000; keepAlive := false |})) = None /\
  outcome (sendSMS worldUp (JsString "(555) 123-4567") (JsString "See you at 4pm"))
  = Ok "SM0001".
Proof.
  split; [reflexivity|]. split.
  - apply (C8_sendSMS worldDown (JsString "12345") "See you at 4pm"). reflexivity.
  - split; [reflexivity|]. split; [reflexivity|].
    destruct (C8_sendSMS worldUp (JsString "(555) 123-4567") "See you at 4pm") as [_ H].
    destruct (H "+15551234567" eq_refl eq_refl) as (_ & Hok & _).
    apply Hok. reflexivity.
Defined.

(** ** CallStatusHandler *)

Lemma strictEq_string (v : JsValue) (s : string) :
  strictEq v (JsString s) = true -> v = JsString s.
Proof.
  destruct v; try discriminate. cbn [strictEq]. intros H.
  apply String.eqb_eq in H. now subst.
Qed.

Lemma isString_inv (x : JsAny) (s : string) :
  isString x s = true -> x = Plain (JsString s).
Proof.
  destruct x as [v|t c]; [|discriminate]. cbn [isString]. intros H.
  now rewrite (strictEq_string v s H).
Qed.

Lemma isString_refl (s : string) : isString (Plain (JsString s)) s = true.
Proof. cbn. apply String.eqb_refl. Qed.

Lemma consoleLog_cases (values : list JsAny) :
  consoleLog values = ([], Ok tt) \/
  consoleLog values = ([], Throw (mkError "Cannot convert object to primitive value")).
Proof.
  induction values as [|x values IH]; [now left|].
  cbn [consoleLog]. destruct x as [v|t [s|]]; cbn [toStringAny]; [exact IH|exact IH|now right].
Qed.

Lemma consoleLog_printable (values : list JsAny) :
  forallb printable values = true -> consoleLog values = ([], Ok tt).
Proof.
  induction values as [|x values IH]; [reflexivity|].
  cbn [forallb consoleLog]. unfold printable at 1.
  destruct (toStringAny x); [|discriminate]. exact IH.
Qed.

Lemma consoleLog_plain (v : JsValue) : consoleLog [Plain v] = ([], Ok tt).
Proof. reflexivity. Qed.

(** Interpolating the status that the switch has just matched adds
    nothing: it is a string. *)
Lemma consoleLog_status (x status : JsAny) (literal : string) :
  isString status literal = true -> consoleLog [x; status] = consoleLog [x].
Proof.
  intros S. apply isString_inv in S. subst status.
  cbn [consoleLog]. now destruct (toStringAny x).
Qed.

Lemma consoleLog_unprintable (x : JsAny) (rest : list JsAny) :
  printable x = false ->
  consoleLog (x :: rest) = ([], Throw (mkError "Cannot convert object to primitive value")).
Proof.
  destruct x as [v|t [s|]]; try discriminate. reflexivity.
Qed.


Lemma taggingLog_fails (w : World) (r : FetchRequest) (label : string) :
  taggingFails w r = true -> In (EvConsoleError label) (taggingLog w r label).
Proof. unfold taggingLog. intros ->. now left. Qed.

(** The contact key of a raw status callback is made of digits, or is the
    text null. *)
Lemma taggingKey_alphabet (x : JsAny) (key : JsValue) :
  formatPhoneNumberForTaggingAny x = Ok key ->
  isDigits (toString key) = true \/ toString key = "null".
Proof.
  unfold formatPhoneNumberForTaggingAny.
  destruct (truthyAny x); cbn [negb].
  - destruct (callToString "phoneNumber" x); [|discriminate].
    intros [= <-]. left. apply isDigits_stripNonDigits.
  - intros [= <-]. now right.
Qed.


(** What the tagging attempt of a status callback does, once the call sid
    has been logged: nothing but a log when the key or the name cannot be
    built, and otherwise one GET of the tagging webhook, followed by a log
    when the request fails or the closing log line throws. *)
Lemma tagging_attempt (w : World) (phone clientName to : JsAny) (tag label : string) :
  let attempt :=
    tryCatch
      (formattedPhone <- await (formatPhoneNumberForTaggingAny phone) ;;
       encodedName <- encodeURIComponentM clientName ;;
       let tagUrl := tagWebhook ++ "?clientName=" ++ encodedName
                     ++ "&phoneNumber=" ++ toString formattedPhone ++ "&tag="
                     ++ encodeURIComponentStr tag in
       response <- fetch w (get tagUrl) ;;
       (if negb (ok response) then
          errorText <- await (text response) ;;
          throw (mkError ("Failed to tag contact: " ++ statusText response ++ " - " ++ errorText))
        else ret tt) ;;;
       consoleLog [to])
      (fun error => consoleError label) in
  attempt = ([EvConsoleError label], Ok tt) \/
  exists key name log,
    formatPhoneNumberForTaggingAny phone = Ok key /\
    toStringAny clientName = Ok name /\ hasLoneSurrogate name = false /\
    let r := get (tagWebhook ++ "?clientName=" ++ encodeURIComponentStr name
                  ++ "&phoneNumber=" ++ toString key ++ "&tag=" ++ encodeURIComponentStr tag) in
    attempt = (EvFetch r :: log, Ok tt) /\
    (log = [] \/ log = [EvConsoleError label]) /\
    (taggingFails w r = true -> log = [EvConsoleError label]) /\
    (printable to = true -> log = taggingLog w r label).
Proof.
  cbv zeta. unfold encodeURIComponentM.
  destruct (formatPhoneNumberForTaggingAny phone) as [key|e]; [|now left].
  destruct (toStringAny clientName) as [name|e]; [|now left].
  destruct (hasLoneSurrogate name) eqn:S; [now left|].
  right. exists key, name.
  unfold taggingLog, taggingFails. run.
  destruct (fetchReply w _) as [response|e].
  - destruct (ok response); cbn [negb].
    + destruct (consoleLog_cases [to]) as [L|L].
      * exists []. rewrite L. repeat split; auto. discriminate.
      * exists [EvConsoleError label]. rewrite L. repeat split; auto.
        intros P. rewrite (consoleLog_printable [to]) in L; [discriminate L|].
        cbn. now rewrite P.
    + exists [EvConsoleError label].
      destruct (text response); repeat split; auto.
  - exists [EvConsoleError label]. repeat split; auto.
Qed.


(** Every way a status callback is handled. *)
Lemma callStatus_cases (w : World) (req : RawRequest) :
  (exists status,
     In status loggedStatuses /\ rawBody req "CallStatus" = Plain (JsString status) /\
     (printable (rawBody req "CallSid") = false \/ printable (rawBody req "To") = false) /\
     callStatusHandler w req
     = ([], Throw (mkError "Cannot convert object to primitive value"))) \/
  callStatusHandler w req = ([], Ok {| code := 200; content := Text "OK" |}) \/
  (exists label,
     callStatusHandler w req
     = ([EvConsoleError label], Ok {| code := 200; content := Text "OK" |})) \/
  (exists key name tag label log,
     let r := get (tagWebhook ++ "?clientName=" ++ encodeURIComponentStr name
                   ++ "&phoneNumber=" ++ toString key ++ "&tag=" ++ encodeURIComponentStr tag) in
     callStatusHandler w req
     = (EvFetch r :: log, Ok {| code := 200; content := Text "OK" |}) /\
     formatPhoneNumberForTaggingAny
       (orElseAny (rawQuery req "phoneNumber") (rawBody req "To")) = Ok key /\
     toStringAny (rawQuery req "clientName") = Ok name /\ hasLoneSurrogate name = false /\
     (rawBody req "CallStatus" = Plain (JsString "busy") /\
      tag = "events → ve0525flash-call-busy" /\ label = "Error tagging busy contact:" \/
      rawBody req "CallStatus" = Plain (JsString "no-answer") /\
      tag = "events → ve0525flash-call-no-answer" /\ label = "Error tagging no-answer contact:") /\
     (log = [] \/ log = [EvConsoleError label]) /\
     (taggingFails w r = true -> log = [EvConsoleError label]) /\
     (printable (rawBody req "To") = true -> log = taggingLog w r label)).
Proof.
  assert (forall values status,
            In status loggedStatuses -> rawBody req "CallStatus" = Plain (JsString status) ->
            incl values [rawBody req "CallSid"; rawBody req "To"] ->
            forall e, consoleLog values = ([], Throw e) ->
            printable (rawBody req "CallSid") = false \/ printable (rawBody req "To") = false)
    as blame.
  { intros values status _ _ Hincl e L.
    destruct (printable (rawBody req "CallSid")) eqn:P1; [|now left].
    destruct (printable (rawBody req "To")) eqn:P2; [|now right].
    rewrite consoleLog_printable in L; [discriminate L|].
    apply forallb_forall. intros x Hx. apply Hincl in Hx.
    destruct Hx as [<-|[<-|[]]]; assumption. }
  assert (forall values status,
            In status loggedStatuses -> rawBody req "CallStatus" = Plain (JsString status) ->
            incl values [rawBody req "CallSid"; rawBody req "To"] ->
            forall rest : M HttpResponse,
            (consoleLog values ;;; rest) = rest \/
            exists status',
              In status' loggedStatuses /\ rawBody req "CallStatus" = Plain (JsString status') /\
              (printable (rawBody req "CallSid") = false \/ printable (rawBody req "To") = false) /\
              (consoleLog values ;;; rest)
              = ([], Throw (mkError "Cannot convert object to primitive value"))) as logged.
  { intros values status Hs Hc Hincl rest.
    destruct (consoleLog_cases values) as [L|L]; rewrite L.
    - left. run. now destruct rest.
    - right. exists status. repeat split; try assumption.
      eapply blame; eassumption. }
  unfold callStatusHandler.
  destruct (isString (rawBody req "CallStatus") "initiated") eqn:S1.
  { apply isString_inv in S1.
    destruct (logged [rawBody req "CallSid"; rawBody req "To"] "initiated"
                (or_introl eq_refl) S1 (incl_refl _)
                (ret {| code := 200; content := Text "OK" |})) as [E|E].
    - right; left. exact E.
    - left. exact E. }
  assert (incl [rawBody req "CallSid"] [rawBody req "CallSid"; rawBody req "To"]) as I1
    by (intros x [<-|[]]; now left).
  destruct (isString (rawBody req "CallStatus") "ringing") eqn:S2.
  { apply isString_inv in S2.
    destruct (logged [rawBody req "CallSid"] "ringing" ltac:(cbn; tauto) S2 I1
                (ret {| code := 200; content := Text "OK" |})) as [E|E].
    - right; left. exact E.
    - left. exact E. }
  destruct (isString (rawBody req "CallStatus") "busy") eqn:S3.
  { apply isString_inv in S3. cbv zeta.
    destruct (consoleLog_cases [rawBody req "CallSid"]) as [L|L]; rewrite L.
    - pose proof (tagging_attempt w
                    (orElseAny (rawQuery req "phoneNumber") (rawBody req "To"))
                    (rawQuery req "clientName") (rawBody req "To")
                    "events → ve0525flash-call-busy" "Error tagging busy contact:") as A.
      cbv zeta in A.
      destruct A as [A|(key & name & log & K & N & W & A & Hl & Hf & Hp)].
      + right; right; left. exists "Error tagging busy contact:". run. run in A.
        now rewrite A.
      + right; right; right.
        exists key, name, "events → ve0525flash-call-busy", "Error tagging busy contact:", log.
        cbv zeta. run. run in A. rewrite A.
        repeat split; auto. now rewrite app_nil_r.
    - left. exists "busy". split; [cbn; tauto|]. split; [exact S3|].
      split; [eapply (blame _ "busy"); [cbn; tauto|exact S3|exact I1|exact L]|].
      reflexivity. }
  destruct (isString (rawBody req "CallStatus") "no-answer") eqn:S4.
  { apply isString_inv in S4. cbv zeta.
    destruct (consoleLog_cases [rawBody req "CallSid"]) as [L|L]; rewrite L.
    - pose proof (tagging_attempt w
                    (orElseAny (rawQuery req "phoneNumber") (rawBody req "To"))
                    (rawQuery req "clientName") (rawBody req "To")
                    "events → ve0525flash-call-no-answer" "Error tagging no-answer contact:") as A.
      cbv zeta in A.
      destruct A as [A|(key & name & log & K & N & W & A & Hl & Hf & Hp)].
      + right; right; left. exists "Error tagging no-answer contact:". run. run in A.
        now rewrite A.
      + right; right; right.
        exists key, name, "events → ve0525flash-call-no-answer",
               "Error tagging no-answer contact:", log.
        cbv zeta. run. run in A. rewrite A.
        repeat split; auto. now rewrite app_nil_r.
    - left. exists "no-answer". split; [cbn; tauto|]. split; [exact S4|].
      split; [eapply (blame _ "no-answer"); [cbn; tauto|exact S4|exact I1|exact L]|].
      reflexivity. }
  destruct (isString (rawBody req "CallStatus") "failed") eqn:S5.
  { rewrite (consoleLog_status _ _ _ S5). apply isString_inv in S5.
    destruct (logged [rawBody req "CallSid"] "failed" ltac:(cbn; tauto) S5 I1
                (ret {| code := 200; content := Text "OK" |})) as [E|E].
    - right; left. exact E.
    - left. exact E. }
  destruct (isString (rawBody req "CallStatus") "canceled") eqn:S6.
  { rewrite (consoleLog_status _ _ _ S6). apply isString_inv in S6.
    destruct (logged [rawBody req "CallSid"] "canceled" ltac:(cbn; tauto) S6 I1
                (ret {| code := 200; content := Text "OK" |})) as [E|E].
    - right; left. exact E.
    - left. exact E. }
  destruct (isString (rawBody req "CallStatus") "completed") eqn:S7.
  { apply isString_inv in S7.
    destruct (logged [rawBody req "CallSid"] "completed" ltac:(cbn; tauto) S7 I1
                (ret {| code := 200; content := Text "OK" |})) as [E|E].
    - right; left. exact E.
    - left. exact E. }
  right; left. reflexivity.
Qed.

(** The only request the status handler ever issues. *)
Lemma callStatus_fetch_any (w : World) (req : RawRequest) (r : FetchRequest) :
  In (EvFetch r) (trace (callStatusHandler w req)) ->
  exists key name tag,
    r = get (tagWebhook ++ "?clientName=" ++ encodeURIComponentStr name
             ++ "&phoneNumber=" ++ toString key ++ "&tag=" ++ encodeURIComponentStr tag) /\
    formatPhoneNumberForTaggingAny
      (orElseAny (rawQuery req "phoneNumber") (rawBody req "To")) = Ok key /\
    toStringAny (rawQuery req "clientName") = Ok name /\
    (rawBody req "CallStatus" = Plain (JsString "busy") /\
     tag = "events → ve0525flash-call-busy" \/
     rawBody req "CallStatus" = Plain (JsString "no-answer") /\
     tag = "events → ve0525flash-call-no-answer").
Proof.
  destruct (callStatus_cases w req)
    as [(status & _ & _ & _ & E)|[E|[(label & E)|
        (key & name & tag & label & log & E & K & N & _ & T & L & _)]]];
    try (rewrite E; cbn; intros H; repeat (destruct H as [H|H]; [discriminate H|]); now destruct H).
  cbv zeta in E. rewrite E. cbn [trace fst]. intros [H|H].
  - inversion H. exists key, name, tag. repeat split; try assumption.
    destruct T as [(S & -> & _)|(S & -> & _)]; [now left|now right].
  - destruct L as [-> | ->]; [destruct H|]. destruct H as [H|[]]. discriminate H.
Qed.




(** C6 (the code fails the claim): a status callback with one of the seven
    statuses the handler logs, and with a CallSid that cannot be converted
    to a string, makes the handler throw in the log line, which sits outside
    every try: no tagging request is issued and the 200 is never sent. *)
Theorem C6_call_status_throws (w : World) (req : RawRequest) (status : string) :
  In status loggedStatuses ->
  rawBody req "CallStatus" = Plain (JsString status) ->
  printable (rawBody req "CallSid") = false ->
  callStatusHandler w req
  = ([], Throw (mkError "Cannot convert object to primitive value")).
Proof.
  intros Hs Hc Hp. unfold callStatusHandler. rewrite Hc.
  pose proof (fun rest => consoleLog_unprintable _ rest Hp) as L.
  repeat (destruct Hs as [<-|Hs];
          [vm_compute isString; cbv iota zeta; rewrite !L; reflexivity|]).
  destruct Hs.
Qed.

Lemma C6_call_status_throws_witness :
  In "busy" loggedStatuses /\
  rawBody busyObjectSid "CallStatus" = Plain (JsString "busy") /\
  printable (rawBody busyObjectSid "CallSid") = false /\
  callStatusHandler worldUp busyObjectSid
  = ([], Throw (mkError "Cannot convert object to primitive value")).
Proof.
  split; [cbn; tauto|]. split; [reflexivity|]. split; [reflexivity|].
  apply (C6_call_status_throws worldUp busyObjectSid "busy"); [cbn; tauto|reflexivity..].
Defined.





(** ** CallOrchestrator *)

Lemma createUltravoxCall_eq (w : World) (clientName phoneNumber userType : JsValue) :
  let u := ultravoxRequest w clientName phoneNumber userType in
  createUltravoxCall w clientName phoneNumber userType
  = (EvFetch u :: match sessionResult w u with
                  | Ok _ => []
                  | Throw _ => [EvConsoleError "Error creating Ultravox call:"]
                  end,
     sessionResult w u).
Proof.
  cbv zeta. unfold createUltravoxCall, sessionResult. run.
  destruct (fetchReply w _) as [response|e]; [|reflexivity].
  destruct (ok response); cbn [negb].
  - destruct (json response); reflexivity.
  - destruct (text response); reflexivity.
Qed.

Lemma hasLoneSurrogate_cons (c a : ascii) (d : string) :
  hasLoneSurrogate (String c (String a d))
  = (nat_of_ascii c =? 237)%nat && (160 <=? nat_of_ascii a)%nat && (nat_of_ascii a <=? 191)%nat
    || hasLoneSurrogate (String a d).
Proof. reflexivity. Qed.

Lemma digits_no_surrogate (d : string) :
  isDigits d = true -> forall c, isDigit c = true \/ c = "+"%char ->
  hasLoneSurrogate (String c d) = false.
Proof.
  induction d as [|a d IH]; intros H c Hc; [reflexivity|].
  cbn [isDigits] in H. apply andb_true_iff in H as [Ha Hd].
  rewrite hasLoneSurrogate_cons.
  rewrite (IH Hd a (or_introl Ha)).
  assert ((nat_of_ascii c =? 237)%nat = false) as ->.
  { apply Nat.eqb_neq. destruct Hc as [Hc | ->]; [|cbn; lia].
    unfold isDigit in Hc. apply andb_true_iff in Hc as [_ Hc].
    apply Nat.leb_le in Hc. lia. }
  reflexivity.
Qed.

(** A dialable form can always be encoded. *)
Lemma dialable_no_surrogate (v : JsValue) :
  hasLoneSurrogate (toString (formatPhoneNumber v)) = false.
Proof.
  destruct (formatPhoneNumber_cases v) as [E|[d E]]; rewrite E; [reflexivity|].
  cbn [toString]. apply digits_no_surrogate; [|now right].
  assert (formatPhoneNumber v = JsString (String "+" d)) as E' by exact E.
  unfold formatPhoneNumber in E'.
  repeat match type of E' with
         | context [if ?b then _ else _] => destruct b
         end; inversion E'; cbn [append isDigits];
    rewrite ?isDigits_stripNonDigits; reflexivity.
Qed.

Lemma initiateCall_eq (w : World) (clientName phoneNumber userType : JsValue) :
  let u := ultravoxRequest w clientName phoneNumber userType in
  initiateCall w clientName phoneNumber userType
  = match sessionResult w u with
    | Throw e =>
        ([EvFetch u; EvConsoleError "Error creating Ultravox call:";
          EvConsoleError "Error initiating call:"], Throw e)
    | Ok DNull =>
        ([EvFetch u; EvConsoleError "Error initiating call:"],
         Throw (mkError "Cannot destructure property 'joinUrl' of 'ultravoxCall' as it is null."))
    | Ok (DObject session) =>
        if hasLoneSurrogate (toString clientName) || hasLoneSurrogate (toString phoneNumber)
        then ([EvFetch u; EvConsoleError "Error initiating call:"],
              Throw (mkError "URI malformed"))
        else
          match clientRefused w (twilioClient w None) with
          | Some e => ([EvFetch u; EvConsoleError "Error initiating call:"], Throw e)
          | None =>
              let p := dialParams w clientName phoneNumber session in
              match callsReply w (twilioClient w None) p with
              | Ok sid => ([EvFetch u; EvCallsCreate (twilioClient w None) p], Ok sid)
              | Throw e =>
                  ([EvFetch u; EvCallsCreate (twilioClient w None) p;
                    EvConsoleError "Error initiating call:"], Throw e)
              end
          end
    end.
Proof.
  cbv zeta. unfold initiateCall. rewrite createUltravoxCall_eq.
  destruct (sessionResult w _) as [[|session]|e]; run; try reflexivity.
  unfold encodeURIComponentM, twilio. cbn [toStringAny].
  destruct (hasLoneSurrogate (toString clientName)); [reflexivity|].
  destruct (hasLoneSurrogate (toString phoneNumber)); [reflexivity|].
  cbn [orb]. run.
  destruct (clientRefused w _); [reflexivity|].
  unfold dialParams, statusCallbackUrl, encodeURIComponent. run.
  destruct (callsReply w _ _); reflexivity.
Qed.

Lemma handleCall_rejected (w : World) (req : Request) :
  truthy (leadName req) && truthy (formatPhoneNumber (leadPhone req)) = false ->
  trace (handleCall w req) = [] /\
  exists fields, outcome (handleCall w req) = Ok {| code := 400; content := Json fields |}.
Proof.
  unfold handleCall. fold (leadName req) (leadPhone req) (leadType req).
  destruct (truthy (leadName req)); cbn [andb negb orb].
  - destruct (truthy (leadPhone req)) eqn:P; cbn [negb].
    + intros ->. cbn [negb]. split; [reflexivity|]. eexists. reflexivity.
    + intros _. split; [reflexivity|]. eexists. reflexivity.
  - intros _. split; [reflexivity|]. eexists. reflexivity.
Qed.

Lemma handleCall_accepted (w : World) (req : Request) :
  truthy (leadName req) && truthy (formatPhoneNumber (leadPhone req)) = true ->
  handleCall w req
  = tryCatch
      (callSid <- initiateCall w (leadName req) (formatPhoneNumber (leadPhone req)) (leadType req) ;;
       ret {| code := 200;
              content := Json [("success", FBool true);
                               ("message", FStr "Call initiated successfully");
                               ("callSid", FStr callSid)] |})
      (fun error => consoleError "Error in handleCall:" ;;; ret (failure500 "Failed to initiate call" error)).
Proof.
  intros H. apply andb_true_iff in H as [Hn Hp].
  unfold handleCall. fold (leadName req) (leadPhone req) (leadType req).
  rewrite Hn, Hp.
  assert (truthy (leadPhone req) = true) as ->.
  { destruct (truthy (leadPhone req)) eqn:P; [reflexivity|].
    unfold formatPhoneNumber in Hp. rewrite P in Hp. discriminate. }
  reflexivity.
Qed.

(** Every way an accepted initiate-call request is handled. *)
Lemma handleCall_accepted_eq (w : World) (req : Request) :
  truthy (leadName req) && truthy (formatPhoneNumber (leadPhone req)) = true ->
  let u := sessionRequest w req in
  let c := twilioClient w None in
  handleCall w req
  = match sessionResult w u with
    | Throw e =>
        ([EvFetch u; EvConsoleError "Error creating Ultravox call:";
          EvConsoleError "Error initiating call:"; EvConsoleError "Error in handleCall:"],
         Ok (failure500 "Failed to initiate call" e))
    | Ok DNull =>
        ([EvFetch u; EvConsoleError "Error initiating call:";
          EvConsoleError "Error in handleCall:"],
         Ok (failure500 "Failed to initiate call"
               (mkError "Cannot destructure property 'joinUrl' of 'ultravoxCall' as it is null.")))
    | Ok (DObject session) =>
        if hasLoneSurrogate (toString (leadName req)) then
          ([EvFetch u; EvConsoleError "Error initiating call:";
            EvConsoleError "Error in handleCall:"],
           Ok (failure500 "Failed to initiate call" (mkError "URI malformed")))
        else
          match clientRefused w c with
          | Some e =>
              ([EvFetch u; EvConsoleError "Error initiating call:";
                EvConsoleError "Error in handleCall:"],
               Ok (failure500 "Failed to initiate call" e))
          | None =>
              let p := dialParams w (leadName req) (formatPhoneNumber (leadPhone req)) session in
              match callsReply w c p with
              | Ok sid =>
                  ([EvFetch u; EvCallsCreate c p],
                   Ok {| code := 200;
                         content := Json [("success", FBool true);
                                          ("message", FStr "Call initiated successfully");
                                          ("callSid", FStr sid)] |})
              | Throw e =>
                  ([EvFetch u; EvCallsCreate c p; EvConsoleError "Error initiating call:";
                    EvConsoleError "Error in handleCall:"],
                   Ok (failure500 "Failed to initiate call" e))
              end
          end
    end.
Proof.
  intros H. cbv zeta. rewrite (handleCall_accepted w req H), initiateCall_eq.
  fold (sessionRequest w req).
  destruct (sessionResult w (sessionRequest w req)) as [[|session]|e]; try reflexivity.
  rewrite dialable_no_surrogate, orb_false_r.
  destruct (hasLoneSurrogate (toString (leadName req))); [reflexivity|].
  destruct (clientRefused w _); [reflexivity|].
  cbv zeta. destruct (callsReply w _ _); reflexivity.
Qed.

(** The ways a request to /initiate-call is handled: turned down without
    any effect, failed after the session request without a dial, or
    dialled. *)
Lemma handleCall_cases (w : World) (req : Request) :
  let u := sessionRequest w req in
  let c := twilioClient w None in
  (truthy (leadName req) && truthy (formatPhoneNumber (leadPhone req)) = false /\
   trace (handleCall w req) = [] /\ answered (handleCall w req) = Some 400%Z) \/
  (truthy (leadName req) && truthy (formatPhoneNumber (leadPhone req)) = true /\
   exists extra e,
     handleCall w req = (EvFetch u :: extra, Ok (failure500 "Failed to initiate call" e)) /\
     filter isFetch extra = [] /\ filter isCallsCreate extra = [] /\
     filter isMessagesCreate extra = []) \/
  (truthy (leadName req) && truthy (formatPhoneNumber (leadPhone req)) = true /\
   exists session,
     sessionResult w u = Ok (DObject session) /\
     hasLoneSurrogate (toString (leadName req)) = false /\
     clientRefused w c = None /\
     let p := dialParams w (leadName req) (formatPhoneNumber (leadPhone req)) session in
     match callsReply w c p with
     | Ok sid =>
         handleCall w req
         = ([EvFetch u; EvCallsCreate c p],
            Ok {| code := 200;
                  content := Json [("success", FBool true);
                                   ("message", FStr "Call initiated successfully");
                                   ("callSid", FStr sid)] |})
     | Throw e =>
         handleCall w req
         = ([EvFetch u; EvCallsCreate c p; EvConsoleError "Error initiating call:";
             EvConsoleError "Error in handleCall:"],
            Ok (failure500 "Failed to initiate call" e))
     end).
Proof.
  cbv zeta.
  destruct (truthy (leadName req) && truthy (formatPhoneNumber (leadPhone req))) eqn:A.
  - pose proof (handleCall_accepted_eq w req A) as E. cbv zeta in E.
    right. destruct (sessionResult w (sessionRequest w req)) as [[|session]|e] eqn:S.
    + left. split; [reflexivity|]. do 2 eexists. split; [exact E|]. now repeat split.
    + destruct (hasLoneSurrogate (toString (leadName req))) eqn:W.
      * left. split; [reflexivity|]. do 2 eexists. split; [exact E|]. now repeat split.
      * destruct (clientRefused w (twilioClient w None)) as [e|] eqn:C.
        -- left. split; [reflexivity|]. do 2 eexists. split; [exact E|]. now repeat split.
        -- right. split; [reflexivity|]. exists session. repeat split; try assumption.
           destruct (callsReply w _ _); exact E.
    + left. split; [reflexivity|]. do 2 eexists. split; [exact E|]. now repeat split.
  - left. destruct (handleCall_rejected w req A) as [T [fields O]].
    split; [reflexivity|]. split; [exact T|]. unfold answered. now rewrite O.
Qed.

Lemma not_in_filter (f : Event -> bool) (t : list Event) (ev : Event) :
  filter f t = [] -> f ev = true -> ~ In ev t.
Proof.
  intros F E H. assert (In ev (filter f t)) as H' by (apply filter_In; now split).
  rewrite F in H'. destruct H'.
Qed.

(** A dial request of [handleCall] is the one [initiateCall] builds from the
    display name and the normalised phone. *)
Lemma handleCall_dial (w : World) (req : Request) (c : TwilioClient) (p : CallParams) :
  In (EvCallsCreate c p) (trace (handleCall w req)) ->
  exists session,
    p = dialParams w (leadName req) (formatPhoneNumber (leadPhone req)) session.
Proof.
  destruct (handleCall_cases w req)
    as [(_ & T & _)|[(_ & extra & e & E & _ & C & _)|(_ & session & _ & _ & _ & E)]].
  - rewrite T. intros [].
  - rewrite E. intros [H|H]; [discriminate H|].
    now apply (not_in_filter _ _ _ C) in H.
  - cbv zeta in E. destruct (callsReply w _ _); rewrite E; cbn.
    + intros [H|[H|[]]]; [discriminate H|]. inversion H. now exists session.
    + intros [H|[H|[H|[H|[]]]]]; try discriminate H. inversion H. now exists session.
Qed.

(** The only request [handleCall] issues is the session request, and only
    for a request it accepts. *)
Lemma handleCall_fetch (w : World) (req : Request) (r : FetchRequest) :
  In (EvFetch r) (trace (handleCall w req)) ->
  r = sessionRequest w req /\
  truthy (leadName req) && truthy (formatPhoneNumber (leadPhone req)) = true.
Proof.
  destruct (handleCall_cases w req)
    as [(_ & T & _)|[(A & extra & e & E & F & _)|(A & session & _ & _ & _ & E)]].
  - rewrite T. intros [].
  - rewrite E. intros [H|H]; [now inversion H|].
    now apply (not_in_filter _ _ _ F) in H.
  - cbv zeta in E. destruct (callsReply w _ _); rewrite E; cbn;
      intros H; repeat (destruct H as [H|H]; [try discriminate H; now inversion H|]);
      destruct H.
Qed.

(** C2, as stated, fails: the status-callback URL carries the normalised
    phone, not the phone as supplied in the request. *)
Lemma C2_callback_raw_phone_counterexample :
  leadPhone initiateJane = JsString "(555) 123-4567" /\
  statusCallbackUrlSpec worldUp (leadName initiateJane) (leadPhone initiateJane)
  = "https://clair.example.com/call-status?clientName=Jane&phoneNumber=(555)%20123-4567" /\
  exists c p,
    In (EvCallsCreate c p) (trace (handleCall worldUp initiateJane)) /\
    statusCallback p
    = "https://clair.example.com/call-status?clientName=Jane&phoneNumber=%2B15551234567" /\
    statusCallback p
    <> statusCallbackUrlSpec worldUp (leadName initiateJane) (leadPhone initiateJane).
Proof.
  split; [reflexivity|]. split; [reflexivity|].
  exists (twilioClient worldUp None).
  exists (dialParams worldUp (JsString "Jane") (JsString "+15551234567") sampleReply).
  split; [right; left; reflexivity|]. split; [reflexivity|].
  vm_compute. discriminate.
Qed.

(** C2 (amended): for every call dialled through /initiate-call, the
    status-callback URL registered with the telephony provider embeds, as
    the percent-encoded query parameters clientName and phoneNumber, the
    display name of the lead and the normalised (dialable) form of the
    lead's phone, which is also the number dialled. *)
Theorem C2_callback_url (w : World) (req : Request) (c : TwilioClient) (p : CallParams) :
  In (EvCallsCreate c p) (trace (handleCall w req)) ->
  statusCallback p
  = getServerBaseUrl w ++ "/call-status?clientName=" ++ encodeURIComponent (leadName req)
    ++ "&phoneNumber=" ++ encodeURIComponent (formatPhoneNumber (leadPhone req)) /\
  callTo p = formatPhoneNumber (leadPhone req).
Proof.
  intros H. destruct (handleCall_dial w req c p H) as [session ->]. split; reflexivity.
Qed.

Lemma C2_callback_url_witness :
  In (EvCallsCreate (twilioClient worldUp None)
        (dialParams worldUp (JsString "Jane") (JsString "+15551234567") sampleReply))
     (trace (handleCall worldUp initiateJane)) /\
  statusCallback (dialParams worldUp (JsString "Jane") (JsString "+15551234567") sampleReply)
  = "https://clair.example.com/call-status?clientName=Jane&phoneNumber=%2B15551234567".
Proof.
  split; [right; left; reflexivity|].
  apply (C2_callback_url worldUp initiateJane (twilioClient worldUp None)).
  right; left; reflexivity.
Defined.

(** C7: when the session-creation request of an /initiate-call request is
    answered with a non-success status, the endpoint responds 500 with the
    upstream status and error text in the message of the body (or, when the
    body of the reply cannot be read, the message of that failure), and no
    dial request is issued; and whenever a dial request is issued, the
    session-creation request comes before it. *)
Theorem C7_session_failure (w : World) (req : Request) :
  (forall r response,
     In (EvFetch r) (trace (handleCall w req)) ->
     fetchReply w r = Ok response ->
     ok response = false ->
     r = sessionRequest w req /\
     outcome (handleCall w req)
     = Ok {| code := 500;
             content := Json [("error", FStr "Failed to initiate call");
                              ("message",
                               FStr (match text response with
                                     | Ok errorText =>
                                         "Ultravox API error: " ++ stringOfZ (status response)
                                         ++ " " ++ statusText response ++ " - " ++ errorText
                                     | Throw e => errMessage e
                                     end))] |} /\
     filter isCallsCreate (trace (handleCall w req)) = []) /\
  (forall before c p after,
     trace (handleCall w req) = (before ++ EvCallsCreate c p :: after)%list ->
     In (EvFetch (sessionRequest w req)) before).
Proof.
  split.
  - intros r response Hin Hr Hok.
    destruct (handleCall_fetch w req r Hin) as [-> A].
    split; [reflexivity|].
    rewrite (handleCall_accepted_eq w req A). cbv zeta.
    unfold sessionResult. rewrite Hr, Hok.
    destruct (text response); split; reflexivity.
  - intros before c p after H.
    destruct (handleCall_cases w req)
      as [(_ & T & _)|[(_ & extra & e & E & _ & C & _)|(_ & session & _ & _ & _ & E)]].
    + rewrite T in H. destruct before; discriminate H.
    + rewrite E in H. cbn [trace fst] in H.
      destruct before as [|e1 before]; [discriminate H|].
      inversion H. now left.
    + cbv zeta in E. destruct (callsReply w _ _); rewrite E in H; cbn [trace fst] in H;
        (destruct before as [|e1 before]; [discriminate H|]); inversion H; now left.
Qed.

Lemma C7_session_failure_witness :
  In (EvFetch (sessionRequest worldDown initiateJane)) (trace (handleCall worldDown initiateJane)) /\
  outcome (handleCall worldDown initiateJane)
  = Ok {| code := 500;
          content := Json [("error", FStr "Failed to initiate call");
                           ("message",
                            FStr "Ultravox API error: 500 Internal Server Error - upstream exploded")] |} /\
  filter isCallsCreate (trace (handleCall worldDown initiateJane)) = [] /\
  In (EvFetch (sessionRequest worldUp initiateJane)) [EvFetch (sessionRequest worldUp initiateJane)].
Proof.
  split; [left; reflexivity|].
  destruct (C7_session_failure worldDown initiateJane) as [H _].
  destruct (H (sessionRequest worldDown initiateJane)
              {| status := 500; statusText := "Internal Server Error";
                 text := Ok "upstream exploded"; json := Throw (mkError "Unexpected token") |})
    as (_ & H500 & Hdial);
    [left; reflexivity | reflexivity | reflexivity |].
  split; [exact H500|]. split; [exact Hdial|].
  destruct (C7_session_failure worldUp initiateJane) as [_ Horder].
  apply (Horder [EvFetch (sessionRequest worldUp initiateJane)]
                (twilioClient worldUp None)
                (dialParams worldUp (JsString "Jane") (JsString "+15551234567") sampleReply)
                []).
  reflexivity.
Defined.

(** ** Traces, compositionally *)

Section TraceAll.

Variable Q : Event -> Prop.

Lemma all_ret {A} (a : A) : traceAll Q (ret a).
Proof. constructor. Qed.

Lemma all_throw {A} (e : JsError) : traceAll Q (@throw A e).
Proof. constructor. Qed.

Lemma all_await {A} (r : Result A) : traceAll Q (await r).
Proof. constructor. Qed.

Lemma all_emit {A} (ev : Event) (r : Result A) : Q ev -> traceAll Q ([ev], r).
Proof. intros H. constructor; [exact H|constructor]. Qed.

Lemma all_bind {A B} (m : M A) (k : A -> M B) :
  traceAll Q m -> (forall a, traceAll Q (k a)) -> traceAll Q (bind m k).
Proof.
  unfold traceAll, bind, trace. destruct m as [t [a|e]]; cbn [fst]; intros Hm Hk.
  - specialize (Hk a). destruct (k a) as [t' r]. cbn [fst] in *.
    apply Forall_app. now split.
  - exact Hm.
Qed.

Lemma all_tryCatch {A} (m : M A) (h : JsError -> M A) :
  traceAll Q m -> (forall e, traceAll Q (h e)) -> traceAll Q (tryCatch m h).
Proof.
  unfold traceAll, tryCatch, trace. destruct m as [t [a|e]]; cbn [fst]; intros Hm Hh.
  - exact Hm.
  - specialize (Hh e). destruct (h e) as [t' r]. cbn [fst] in *.
    apply Forall_app. now split.
Qed.

Lemma all_silent {A} (m : M A) : trace m = [] -> traceAll Q m.
Proof. unfold traceAll. intros ->. constructor. Qed.

Lemma all_consoleLog (values : list JsAny) : traceAll Q (consoleLog values).
Proof.
  apply all_silent. destruct (consoleLog_cases values) as [E|E]; now rewrite E.
Qed.

Lemma all_encode (x : JsAny) : traceAll Q (encodeURIComponentM x).
Proof.
  apply all_silent. unfold encodeURIComponentM.
  destruct (toStringAny x); [|reflexivity]. now destruct (hasLoneSurrogate _).
Qed.

Lemma all_twilio (w : World) (options : option ClientOptions) : traceAll Q (twilio w options).
Proof. apply all_silent. unfold twilio. now destruct (clientRefused w _). Qed.

End TraceAll.

Lemma crmRestRequest_headers (w : World) (r : FetchRequest) :
  crmRestRequest w r -> headers r = ghlHeaders w.
Proof. now destruct 1. Qed.

Lemma all_consoleError (w : World) (label : string) : traceAll (crmFree w) (consoleError label).
Proof. now apply all_emit. Qed.

Lemma all_messagesCreate (w : World) c p : traceAll (crmFree w) (messagesCreate w c p).
Proof. now apply all_emit. Qed.

Lemma all_callsCreate (w : World) c p : traceAll (crmFree w) (callsCreate w c p).
Proof. now apply all_emit. Qed.

Lemma all_fetch (w : World) (r : FetchRequest) :
  headers r <> ghlHeaders w -> startsWith (url r) GHL_API_URL = false ->
  traceAll (crmFree w) (fetch w r).
Proof.
  intros Hh Hu. apply all_emit. split; [|exact Hu].
  intros H. now apply crmRestRequest_headers in H.
Qed.

Ltac effects w :=
  repeat first
    [ apply all_ret | apply all_throw | apply all_await
    | apply all_consoleLog | apply all_encode | apply all_twilio
    | apply (all_consoleError w) | apply (all_messagesCreate w) | apply (all_callsCreate w)
    | apply all_fetch; [discriminate|reflexivity]
    | apply all_bind; [|intros]
    | apply all_tryCatch; [|intros]
    | match goal with
      | |- traceAll _ (if ?b then _ else _) => destruct b
      | |- traceAll _ (match ?x with _ => _ end) => destruct x
      end ].

Lemma sendSMS_crmFree (w : World) (phoneNumber message : JsValue) :
  traceAll (crmFree w) (sendSMS w phoneNumber message).
Proof. unfold sendSMS. effects w. Qed.

Lemma smsWebhook_crmFree (w : World) (req : Request) :
  traceAll (crmFree w) (smsWebhook w req).
Proof. unfold smsWebhook. effects w. apply sendSMS_crmFree. Qed.

Lemma sendSmsHandler_crmFree (w : World) (req : Request) :
  traceAll (crmFree w) (sendSmsHandler w req).
Proof. unfold sendSmsHandler. effects w. apply sendSMS_crmFree. Qed.

Lemma callStatusHandler_crmFree (w : World) (req : RawRequest) :
  traceAll (crmFree w) (callStatusHandler w req).
Proof. unfold callStatusHandler. effects w. Qed.

Lemma handleCall_crmFree (w : World) (req : Request) :
  traceAll (crmFree w) (handleCall w req).
Proof. unfold handleCall, initiateCall, createUltravoxCall. effects w. Qed.

Lemma serve_crmFree (w : World) (route : Route) (req : Request) :
  traceAll (crmFree w) (serve w route req).
Proof.
  destruct route; cbn [serve];
    auto using smsWebhook_crmFree, sendSmsHandler_crmFree, callStatusHandler_crmFree,
               handleCall_crmFree.
  unfold healthHandler. apply all_ret.
Qed.

Lemma sendSMSToolImplementation_crmFree (w : World) (baseUrl : string) (recipient message : JsValue) :
  traceAll (fun ev => match ev with EvFetch r => ~ crmRestRequest w r | _ => True end)
           (sendSMSToolImplementation w baseUrl recipient message).
Proof.
  unfold sendSMSToolImplementation.
  repeat first
    [ apply all_ret | apply all_throw | apply all_await
    | apply all_emit; try exact I
    | apply all_bind; [|intros]
    | apply all_tryCatch; [|intros]
    | match goal with
      | |- traceAll _ (if ?b then _ else _) => destruct b
      | |- traceAll _ (match ?x with _ => _ end) => destruct x
      end ].
  intros H. apply crmRestRequest_headers in H. discriminate H.
Qed.

(** C10: the two CRM REST helpers are never reached.  Either helper, when
    invoked, first issues a request to the CRM REST API; no route of the
    application and no tool implementation ever issues such a request, and no
    route fetches a URL under the CRM REST base URL; every request the status
    handler issues is a GET of the tagging webhook, and the addContact tool
    registered with every session is bound to a GET of that same webhook. *)
Theorem C10_crm_rest_unreachable (w : World) :
  (forall phoneNumber, exists rest,
     trace (findOrCreateContact w phoneNumber)
     = EvFetch (ghlSearchRequest w phoneNumber) :: rest) /\
  (forall contactId tag, exists rest,
     trace (addTagToContact w contactId tag)
     = EvFetch (ghlTagsRequest w contactId tag) :: rest) /\
  (forall route req r,
     In (EvFetch r) (trace (serve w route req)) ->
     ~ crmRestRequest w r /\ startsWith (url r) GHL_API_URL = false) /\
  (forall baseUrl recipient message r,
     In (EvFetch r) (trace (sendSMSToolImplementation w baseUrl recipient message)) ->
     ~ crmRestRequest w r) /\
  (forall req r,
     In (EvFetch r) (trace (callStatusHandler w req)) ->
     method r = "GET" /\ startsWith (url r) (tagWebhook ++ "?") = true) /\
  (forall clientName phoneNumber userType tool,
     In tool (selectedTools (ULTRAVOX_CALL_CONFIG w clientName phoneNumber userType)) ->
     modelToolName tool = "addContact" ->
     toolBinding tool = Http tagWebhook "GET").
Proof.
  repeat apply conj.
  - intros phoneNumber. unfold findOrCreateContact, ghlSearchRequest. run.
    destruct (fetchReply w _) as [response|e]; [|eexists; reflexivity].
    destruct (ok response); cbn [negb]; [|eexists; reflexivity].
    destruct (json response) as [[|found]|e]; try (eexists; reflexivity).
    destruct (contacts found); [|eexists; reflexivity].
    destruct (fetchReply w _) as [created|e]; [|eexists; reflexivity].
    destruct (ok created); cbn [negb]; [|eexists; reflexivity].
    destruct (json created) as [[|o]|e]; eexists; reflexivity.
  - intros contactId tag. unfold addTagToContact, ghlTagsRequest. run.
    destruct (fetchReply w _) as [response|e]; [|eexists; reflexivity].
    destruct (ok response); cbn [negb]; [|eexists; reflexivity].
    destruct (json response); eexists; reflexivity.
  - intros route req r H.
    pose proof (serve_crmFree w route req) as F. unfold traceAll in F.
    rewrite Forall_forall in F. exact (F _ H).
  - intros baseUrl recipient message r H.
    pose proof (sendSMSToolImplementation_crmFree w baseUrl recipient message) as F.
    unfold traceAll in F. rewrite Forall_forall in F. exact (F _ H).
  - intros req r H.
    destruct (callStatus_fetch_any w req r H) as (key & name & tag & -> & _).
    now split.
  - intros clientName phoneNumber userType tool [<-|[<-|[]]]; [discriminate|reflexivity].
Qed.

Lemma C10_crm_rest_unreachable_witness :
  In (EvFetch (taggingRequest (JsString "Jane") "5551234567" "events → ve0525flash-call-busy"))
     (trace (serve worldUp PostCallStatus busyJane)) /\
  ~ crmRestRequest worldUp
      (taggingRequest (JsString "Jane") "5551234567" "events → ve0525flash-call-busy") /\
  method (taggingRequest (JsString "Jane") "5551234567" "events → ve0525flash-call-busy") = "GET" /\
  In (EvFetch (sessionRequest worldUp initiateJane))
     (trace (serve worldUp PostInitiateCall initiateJane)) /\
  startsWith (url (sessionRequest worldUp initiateJane)) GHL_API_URL = false.
Proof.
  split; [left; reflexivity|].
  destruct (C10_crm_rest_unreachable worldUp) as (_ & _ & Hroute & _ & Hstatus & _).
  split; [|split; [|split; [left; reflexivity|]]].
  - apply (Hroute PostCallStatus busyJane). left; reflexivity.
  - apply (Hstatus (raw busyJane)). left; reflexivity.
  - apply (Hroute PostInitiateCall initiateJane). left; reflexivity.
Defined.

(** * Further properties of the code *)

(** ** PhoneNormalizer *)

Lemma stripNonDigits_length_digits (s : string) :
  isDigits s = true -> stripNonDigits (String "+" s) = s.
Proof. intros H. cbn. now apply stripNonDigits_digits. Qed.

Lemma startsWith_one (d : string) : startsWith (String "1" d) "1" = true.
Proof. destruct d; reflexivity. Qed.

(** Every dialable form, taken apart. *)
Lemma formatPhoneNumber_shape (v : JsValue) (s : string) :
  formatPhoneNumber v = JsString s ->
  exists d,
    s = String "+" d /\ isDigits d = true /\
    (startsWith d "63" = true \/
     ((11 <=? String.length d)%nat = true /\ startsWith d "1" = true)) /\
    (d = digitsOf v \/ d = String "1" (digitsOf v)).
Proof.
  intros H.
  assert (truthy v = true) as T.
  { destruct (truthy v) eqn:T; [reflexivity|].
    unfold formatPhoneNumber in H. rewrite T in H. discriminate. }
  destruct (truthy_inv v T) as (c & raw & ->).
  rewrite formatPhoneNumber_string in H. cbn [String.eqb] in H. cbv zeta in H.
  unfold digitsOf. cbn [toString].
  remember (stripNonDigits (String c raw)) as digits eqn:D.
  assert (isDigits digits = true) as Hd by (subst digits; apply isDigits_stripNonDigits).
  destruct (startsWith digits "63") eqn:P63.
  - inversion H. exists digits. repeat split; auto.
  - destruct (String.length digits =? 10)%nat eqn:L10.
    + inversion H. exists (String "1" digits). apply Nat.eqb_eq in L10.
      split; [reflexivity|]. split; [|split].
      * change (isDigits (String "1" digits)) with (isDigit "1" && isDigits digits).
        now rewrite Hd.
      * right. split; [cbn [String.length]; now rewrite L10|apply startsWith_one].
      * now right.
    + destruct (11 <=? String.length digits)%nat eqn:L11; [|discriminate].
      destruct (startsWith digits "1") eqn:P1; [|discriminate].
      inversion H. exists digits. repeat split; auto.
Qed.

(** X1: normalising an already normalised number changes nothing, so the
    number the orchestrator hands on can be normalised again by the SMS
    sender without harm. *)
Theorem X1_formatPhoneNumber_idempotent (v : JsValue) :
  formatPhoneNumber (formatPhoneNumber v) = formatPhoneNumber v.
Proof.
  destruct (formatPhoneNumber_cases v) as [E|[d0 E]]; rewrite E; [reflexivity|].
  destruct (formatPhoneNumber_shape v _ E) as (d & Es & Hd & Hk & _).
  inversion Es; subst d0.
  rewrite formatPhoneNumber_string. cbn [String.eqb]. cbv zeta.
  rewrite (stripNonDigits_length_digits d Hd).
  destruct Hk as [H63|[H11 H1]].
  - now rewrite H63.
  - destruct (startsWith d "63"); [reflexivity|].
    apply Nat.leb_le in H11.
    destruct (String.length d =? 10)%nat eqn:L10.
    + apply Nat.eqb_eq in L10. lia.
    + apply Nat.leb_le in H11. now rewrite H11, H1.
Qed.

(** X2: a dialable form is always a plus sign followed by digits only, and
    those digits either start with 63 or start with 1 and number at least
    eleven. *)
Theorem X2_dialable_shape (v : JsValue) (s : string) :
  formatPhoneNumber v = JsString s ->
  exists d,
    s = String "+" d /\ isDigits d = true /\
    (startsWith d "63" = true \/
     ((11 <= String.length d)%nat /\ startsWith d "1" = true)).
Proof.
  intros H. destruct (formatPhoneNumber_shape v s H) as (d & E & Hd & Hk & _).
  exists d. repeat split; auto.
  destruct Hk as [H63|[H11 H1]]; [now left|right].
  split; [now apply Nat.leb_le|assumption].
Qed.

Lemma X2_dialable_shape_witness :
  formatPhoneNumber (JsString "(555) 123-4567") = JsString "+15551234567" /\
  exists d,
    "+15551234567" = String "+" d /\ isDigits d = true /\
    (startsWith d "63" = true \/
     ((11 <= String.length d)%nat /\ startsWith d "1" = true)).
Proof.
  split; [reflexivity|].
  apply (X2_dialable_shape (JsString "(555) 123-4567")). reflexivity.
Defined.

(** X3: only the digits of a phone string matter: two non-empty strings
    with the same digits have the same dialable form and the same tagging
    form, whatever punctuation or spacing they carry. *)
Theorem X3_formatting_insensitive (a b : string) :
  a <> "" -> b <> "" ->
  stripNonDigits a = stripNonDigits b ->
  formatPhoneNumber (JsString a) = formatPhoneNumber (JsString b) /\
  formatPhoneNumberForTagging (JsString a) = formatPhoneNumberForTagging (JsString b).
Proof.
  intros Ha Hb E.
  assert (String.eqb a "" = false) as Ea by now apply String.eqb_neq.
  assert (String.eqb b "" = false) as Eb by now apply String.eqb_neq.
  split.
  - rewrite !formatPhoneNumber_string, Ea, Eb, E. reflexivity.
  - rewrite !formatPhoneNumberForTagging_eq, !truthy_string, Ea, Eb.
    cbn [negb toString]. now rewrite E.
Qed.

Lemma X3_formatting_insensitive_witness :
  "(555) 123-4567" <> "" /\ "555.123.4567" <> "" /\
  stripNonDigits "(555) 123-4567" = stripNonDigits "555.123.4567" /\
  formatPhoneNumber (JsString "(555) 123-4567") = formatPhoneNumber (JsString "555.123.4567").
Proof.
  split; [discriminate|]. split; [discriminate|]. split; [reflexivity|].
  apply (X3_formatting_insensitive "(555) 123-4567" "555.123.4567");
    [discriminate|discriminate|reflexivity].
Defined.

(** X4: the tagging form of a dialable number is that number without its
    plus sign, and it is either the digits of the original input or those
    digits behind a 1: a ten-digit number tagged through its dialable form
    gets a key with the country code, tagged directly it gets one without. *)
Theorem X4_tagging_of_dialable (v : JsValue) (s : string) :
  formatPhoneNumber v = JsString s ->
  exists d,
    s = String "+" d /\
    formatPhoneNumberForTagging (JsString s) = JsString d /\
    (d = digitsOf v \/ d = String "1" (digitsOf v)) /\
    ((String.length (digitsOf v) = 10)%nat -> startsWith (digitsOf v) "63" = false ->
     d = String "1" (digitsOf v)).
Proof.
  intros H. destruct (formatPhoneNumber_shape v s H) as (d & -> & Hd & _ & Hr).
  exists d. split; [reflexivity|]. split; [|split; [exact Hr|]].
  - rewrite formatPhoneNumberForTagging_eq. cbn [truthy toString].
    now rewrite (stripNonDigits_length_digits d Hd).
  - intros L N.
    assert (truthy v = true) as T.
    { destruct (truthy v) eqn:T; [reflexivity|].
      unfold formatPhoneNumber in H. rewrite T in H. discriminate. }
    destruct (truthy_inv v T) as (c & raw & ->).
    rewrite formatPhoneNumber_string in H. cbn [String.eqb] in H. cbv zeta in H.
    unfold digitsOf in *. cbn [toString] in *.
    rewrite N in H. apply Nat.eqb_eq in L. rewrite L in H. now inversion H.
Qed.

Lemma X4_tagging_of_dialable_witness :
  formatPhoneNumber (JsString "555-123-4567") = JsString "+15551234567" /\
  formatPhoneNumberForTagging (JsString "+15551234567") = JsString "15551234567" /\
  formatPhoneNumberForTagging (JsString "555-123-4567") = JsString "5551234567".
Proof.
  split; [reflexivity|].
  destruct (X4_tagging_of_dialable (JsString "555-123-4567") "+15551234567" eq_refl)
    as (d & E & Ht & _).
  split; [|reflexivity].
  inversion E. subst d. exact Ht.
Defined.

(** ** URL building *)

Lemma countChar_app (c : ascii) (a b : string) :
  countChar c (a ++ b) = (countChar c a + countChar c b)%nat.
Proof.
  induction a as [|x a IH]; [reflexivity|].
  cbn [append countChar]. rewrite IH. lia.
Qed.

Lemma hexDigit_unreserved (k : nat) : (k < 16)%nat -> uriUnreserved (hexDigit k) = true.
Proof.
  intros H. do 16 (destruct k as [|k]; [reflexivity|]). lia.
Qed.

Lemma hexDigit_code (k : nat) :
  (k < 16)%nat -> nat_of_ascii (hexDigit k) = if (k <? 10)%nat then (48 + k)%nat else (55 + k)%nat.
Proof.
  intros H. unfold hexDigit. rewrite nat_ascii_embedding; [reflexivity|].
  destruct (k <? 10)%nat; lia.
Qed.

Lemma hexDigit_inj (j k : nat) :
  (j < 16)%nat -> (k < 16)%nat -> hexDigit j = hexDigit k -> j = k.
Proof.
  intros Hj Hk E. apply (f_equal nat_of_ascii) in E.
  rewrite (hexDigit_code j Hj), (hexDigit_code k Hk) in E.
  destruct (j <? 10)%nat eqn:J, (k <? 10)%nat eqn:K;
    try apply Nat.ltb_lt in J; try apply Nat.ltb_lt in K;
    try apply Nat.ltb_ge in J; try apply Nat.ltb_ge in K; lia.
Qed.

Lemma ascii_code_bound (c : ascii) :
  (nat_of_ascii c / 16 < 16)%nat /\ (nat_of_ascii c mod 16 < 16)%nat.
Proof.
  pose proof (nat_ascii_bounded c) as B. split.
  - apply Nat.Div0.div_lt_upper_bound. lia.
  - apply Nat.mod_upper_bound. lia.
Qed.

(** The output of [encodeURIComponent] holds unreserved characters and
    percent signs only. *)
Lemma encode_alphabet (c : ascii) (s : string) :
  uriUnreserved c = false -> c <> "%"%char ->
  countChar c (encodeURIComponentStr s) = 0%nat.
Proof.
  intros Hc Hp. induction s as [|a s IH]; [reflexivity|].
  cbn [encodeURIComponentStr].
  assert (forall x, uriUnreserved x = true -> Ascii.eqb x c = false) as Hne.
  { intros x Hx. apply Ascii.eqb_neq. intros ->. congruence. }
  destruct (uriUnreserved a) eqn:Ha.
  - cbn [countChar]. now rewrite (Hne a Ha), IH.
  - cbv zeta. destruct (ascii_code_bound a) as [Hh Hl].
    cbn [countChar].
    rewrite (Hne _ (hexDigit_unreserved _ Hh)), (Hne _ (hexDigit_unreserved _ Hl)), IH.
    assert (Ascii.eqb "%" c = false) as -> by (apply Ascii.eqb_neq; congruence).
    reflexivity.
Qed.

Lemma digits_alphabet (c : ascii) (s : string) :
  isDigit c = false -> isDigits s = true -> countChar c s = 0%nat.
Proof.
  intros Hc. induction s as [|a s IH]; [reflexivity|].
  cbn [isDigits countChar]. intros H. apply andb_true_iff in H as [Ha Hs].
  assert (Ascii.eqb a c = false) as -> by (apply Ascii.eqb_neq; intros ->; congruence).
  now rewrite IH.
Qed.

(** X5: whatever the display name and the phone hold, the query string of
    the status-callback URL has exactly one question mark, two equals signs
    and one ampersand, and no space or hash: the two values cannot add or
    hide a parameter. *)
Theorem X5_callback_query_wellformed (w : World) (clientName phoneNumber : JsValue) :
  exists rest,
    statusCallbackUrl w clientName phoneNumber = getServerBaseUrl w ++ rest /\
    countChar "?" rest = 1%nat /\ countChar "=" rest = 2%nat /\
    countChar "&" rest = 1%nat /\ countChar " " rest = 0%nat /\ countChar "#" rest = 0%nat.
Proof.
  exists ("/call-status?clientName=" ++ encodeURIComponent clientName
          ++ "&phoneNumber=" ++ encodeURIComponent phoneNumber).
  split; [reflexivity|].
  unfold encodeURIComponent.
  repeat split;
    rewrite !countChar_app, !encode_alphabet by (reflexivity || discriminate);
    reflexivity.
Qed.

Lemma taggingKey_count (x : JsAny) (key : JsValue) (c : ascii) :
  formatPhoneNumberForTaggingAny x = Ok key ->
  In c ["?"; "="; "&"; " "; "#"]%char ->
  countChar c (toString key) = 0%nat.
Proof.
  intros K Hin. destruct (taggingKey_alphabet x key K) as [D|N].
  - apply digits_alphabet; [|exact D].
    repeat (destruct Hin as [<-|Hin]; [reflexivity|]). destruct Hin.
  - rewrite N. repeat (destruct Hin as [<-|Hin]; [reflexivity|]). destruct Hin.
Qed.

(** X6: every tagging request of the status handler is a GET of the tagging
    webhook whose query string has exactly one question mark, three equals
    signs and two ampersands, and no space or hash, whatever the callback
    carried as name and phone. *)
Theorem X6_tagging_query_wellformed (w : World) (req : RawRequest) (r : FetchRequest) :
  In (EvFetch r) (trace (callStatusHandler w req)) ->
  exists rest,
    url r = tagWebhook ++ rest /\
    countChar "?" rest = 1%nat /\ countChar "=" rest = 3%nat /\
    countChar "&" rest = 2%nat /\ countChar " " rest = 0%nat /\ countChar "#" rest = 0%nat.
Proof.
  intros H. destruct (callStatus_fetch_any w req r H) as (key & name & tag & -> & K & _).
  exists ("?clientName=" ++ encodeURIComponentStr name
          ++ "&phoneNumber=" ++ toString key ++ "&tag=" ++ encodeURIComponentStr tag).
  split; [reflexivity|].
  repeat split;
    rewrite !countChar_app, !encode_alphabet by (reflexivity || discriminate);
    rewrite (taggingKey_count _ key _ K) by (cbn; tauto);
    reflexivity.
Qed.

Lemma X6_tagging_query_wellformed_witness :
  In (EvFetch (taggingRequest (JsString "Jane") "5551234567" "events → ve0525flash-call-busy"))
     (trace (callStatusHandler worldUp (raw busyJane))) /\
  exists rest,
    url (taggingRequest (JsString "Jane") "5551234567" "events → ve0525flash-call-busy")
    = tagWebhook ++ rest /\
    countChar "?" rest = 1%nat /\ countChar "=" rest = 3%nat /\
    countChar "&" rest = 2%nat /\ countChar " " rest = 0%nat /\ countChar "#" rest = 0%nat.
Proof.
  split; [left; reflexivity|].
  apply (X6_tagging_query_wellformed worldUp (raw busyJane)). left; reflexivity.
Defined.

Lemma append_inv_head (a x y : string) : a ++ x = a ++ y -> x = y.
Proof.
  induction a as [|c a IH]; cbn [append]; intros H; [exact H|].
  inversion H. now apply IH.
Qed.

(** Two strings without ampersand, each followed by an ampersand, split
    in one way only. *)
Lemma split_at_ampersand (a a' r r' : string) :
  countChar "&" a = 0%nat -> countChar "&" a' = 0%nat ->
  a ++ String "&" r = a' ++ String "&" r' -> a = a' /\ r = r'.
Proof.
  revert a'. induction a as [|c a IH]; intros [|c' a'] Ha Ha' H; cbn [append] in H.
  - inversion H. now split.
  - inversion H; subst c'. cbn in Ha'. discriminate.
  - inversion H; subst c. cbn in Ha. discriminate.
  - inversion H; subst c'.
    cbn [countChar] in Ha, Ha'.
    destruct (IH a') as [-> ->]; try assumption; try lia.
    now split.
Qed.

Lemma encode_inj (s t : string) :
  encodeURIComponentStr s = encodeURIComponentStr t -> s = t.
Proof.
  revert t. induction s as [|a s IH]; intros [|b t] H; cbn [encodeURIComponentStr] in H.
  - reflexivity.
  - destruct (uriUnreserved b); discriminate.
  - destruct (uriUnreserved a); discriminate.
  - destruct (uriUnreserved a) eqn:Ha, (uriUnreserved b) eqn:Hb; cbv zeta in H.
    + inversion H. f_equal. now apply IH.
    + inversion H; subst a. discriminate.
    + inversion H; subst b. discriminate.
    + injection H as Hh Hl E.
      destruct (ascii_code_bound a) as [Ah Al]. destruct (ascii_code_bound b) as [Bh Bl].
      assert (nat_of_ascii a / 16 = nat_of_ascii b / 16)%nat as Dh
        by (apply hexDigit_inj; [exact Ah|exact Bh|exact Hh]).
      assert (nat_of_ascii a mod 16 = nat_of_ascii b mod 16)%nat as Dl
        by (apply hexDigit_inj; [exact Al|exact Bl|exact Hl]).
      assert (nat_of_ascii a = nat_of_ascii b) as N.
      { rewrite (Nat.div_mod_eq (nat_of_ascii a) 16), (Nat.div_mod_eq (nat_of_ascii b) 16).
        now rewrite Dh, Dl. }
      apply (f_equal ascii_of_nat) in N. rewrite !ascii_nat_embedding in N.
      f_equal; [exact N|now apply IH].
Qed.

(** X7: the status-callback URL determines the lead: two calls of one
    deployment get the same URL only when display name and phone are the
    same, so the correlation data can always be told apart. *)
Theorem X7_callback_url_injective (w : World) (name name' phone phone' : string) :
  statusCallbackUrl w (JsString name) (JsString phone)
  = statusCallbackUrl w (JsString name') (JsString phone') ->
  name = name' /\ phone = phone'.
Proof.
  unfold statusCallbackUrl, encodeURIComponent. cbn [toString]. intros H.
  apply append_inv_head in H.
  apply (append_inv_head "/call-status?clientName=") in H.
  change ("&phoneNumber=" ++ encodeURIComponentStr phone)
    with (String "&" ("phoneNumber=" ++ encodeURIComponentStr phone)) in H.
  change ("&phoneNumber=" ++ encodeURIComponentStr phone')
    with (String "&" ("phoneNumber=" ++ encodeURIComponentStr phone')) in H.
  apply split_at_ampersand in H;
    [|apply encode_alphabet; [reflexivity|discriminate]..].
  destruct H as [Hn Hp]. apply append_inv_head in Hp.
  split; now apply encode_inj.
Qed.

Lemma X7_callback_url_injective_witness :
  statusCallbackUrl worldUp (JsString "Jane") (JsString "+15551234567")
  = statusCallbackUrl worldUp (JsString "Jane") (JsString "+15551234567") /\
  "Jane" = "Jane" /\ "+15551234567" = "+15551234567".
Proof.
  split; [reflexivity|].
  apply (X7_callback_url_injective worldUp "Jane" "Jane" "+15551234567" "+15551234567").
  reflexivity.
Defined.

(** ** GET|POST /initiate-call *)

Lemma handleCall_no_message (w : World) (req : Request) :
  filter isMessagesCreate (trace (handleCall w req)) = [].
Proof.
  destruct (handleCall_cases w req)
    as [(_ & T & _)|[(_ & extra & e & E & F & C & Ms)|(_ & session & _ & _ & _ & E)]].
  - now rewrite T.
  - rewrite E. cbn [trace fst filter isMessagesCreate]. exact Ms.
  - cbv zeta in E. destruct (callsReply w _ _); now rewrite E.
Qed.

(** X8: /initiate-call answers 400 exactly when it has done nothing: a
    request that is turned down for a missing name, a missing phone or a
    phone without dialable form causes no outbound request and no log, and
    every other request causes at least the session request. *)
Theorem X8_initiate_400_iff_no_effect (w : World) (req : Request) :
  (answered (handleCall w req) = Some 400%Z <-> trace (handleCall w req) = []) /\
  (trace (handleCall w req) = [] <->
   truthy (leadName req) && truthy (formatPhoneNumber (leadPhone req)) = false).
Proof.
  destruct (handleCall_cases w req)
    as [(A & T & C)|[(A & extra & e & E & _)|(A & session & _ & _ & _ & E)]].
  - rewrite A, T, C. now repeat split.
  - rewrite A, E. unfold answered. cbn. repeat split; intros H; discriminate H.
  - rewrite A. cbv zeta in E. destruct (callsReply w _ _); rewrite E; unfold answered; cbn;
      repeat split; intros H; discriminate H.
Qed.

Lemma X8_initiate_400_iff_no_effect_witness :
  trace (handleCall worldUp (request [("clientName", "Jane"); ("phoneNumber", "12345")] [])) = [] /\
  answered (handleCall worldUp (request [("clientName", "Jane"); ("phoneNumber", "12345")] []))
  = Some 400%Z.
Proof.
  pose (req := request [("clientName", "Jane"); ("phoneNumber", "12345")] []).
  destruct (X8_initiate_400_iff_no_effect worldUp req) as [[_ H400] [_ Hnone]].
  assert (trace (handleCall worldUp req) = []) as T by (apply Hnone; reflexivity).
  split; [exact T|]. apply H400. exact T.
Defined.

(** X9: one /initiate-call request makes at most one session request and at
    most one dial request, in that order, and never sends a message: nothing
    is retried. *)
Theorem X9_initiate_attempts_once (w : World) (req : Request) :
  (List.length (filter isFetch (trace (handleCall w req))) <= 1)%nat /\
  (List.length (filter isCallsCreate (trace (handleCall w req))) <= 1)%nat /\
  filter isMessagesCreate (trace (handleCall w req)) = [].
Proof.
  destruct (handleCall_cases w req)
    as [(_ & T & _)|[(_ & extra & e & E & F & C & Ms)|(_ & session & _ & _ & _ & E)]].
  - rewrite T. cbn. repeat split; lia.
  - rewrite E. cbn [trace fst filter isFetch isCallsCreate isMessagesCreate].
    rewrite F, C, Ms. cbn. repeat split; lia.
  - cbv zeta in E. destruct (callsReply w _ _); rewrite E; cbn; repeat split; lia.
Qed.

(** X10: /initiate-call answers 200 only when the telephony provider
    accepted the dial request, and then the body carries the call sid the
    provider returned; when the provider rejects the dial request the answer
    is 500 with the provider's message, unchanged. *)
Theorem X10_initiate_dial_outcome (w : World) (req : Request) :
  (answered (handleCall w req) = Some 200%Z ->
   exists c p sid,
     In (EvCallsCreate c p) (trace (handleCall w req)) /\ callsReply w c p = Ok sid) /\
  (forall c p,
     In (EvCallsCreate c p) (trace (handleCall w req)) ->
     outcome (handleCall w req)
     = match callsReply w c p with
       | Ok sid => Ok {| code := 200;
                         content := Json [("success", FBool true);
                                          ("message", FStr "Call initiated successfully");
                                          ("callSid", FStr sid)] |}
       | Throw e => Ok (failure500 "Failed to initiate call" e)
       end).
Proof.
  destruct (handleCall_cases w req)
    as [(_ & T & A)|[(_ & extra & e & E & F & C & Ms)|(_ & session & _ & _ & _ & E)]].
  - split; [rewrite A; discriminate|]. rewrite T. intros c p [].
  - split.
    + unfold answered. rewrite E. discriminate.
    + intros c p H. rewrite E in H. cbn [trace fst] in H.
      destruct H as [H|H]; [discriminate H|].
      now apply (not_in_filter _ _ _ C) in H.
  - cbv zeta in E.
    destruct (callsReply w (twilioClient w None) _) as [sid|e] eqn:R; rewrite E; split.
    + intros _. do 3 eexists. split; [right; left; reflexivity|exact R].
    + intros c p [H|[H|[]]]; [discriminate H|]. inversion H; subst. now rewrite R.
    + unfold answered. discriminate.
    + intros c p [H|[H|[H|[H|[]]]]]; try discriminate H. inversion H; subst. now rewrite R.
Qed.

Lemma X10_initiate_dial_outcome_witness :
  answered (handleCall worldUp initiateJane) = Some 200%Z /\
  (exists c p sid,
     In (EvCallsCreate c p) (trace (handleCall worldUp initiateJane)) /\
     callsReply worldUp c p = Ok sid) /\
  outcome (handleCall worldUp initiateJane)
  = Ok {| code := 200;
          content := Json [("success", FBool true);
                           ("message", FStr "Call initiated successfully");
                           ("callSid", FStr "CA0001")] |}.
Proof.
  split; [reflexivity|].
  destruct (X10_initiate_dial_outcome worldUp initiateJane) as [H200 Hdial].
  split; [apply H200; reflexivity|].
  apply (Hdial (twilioClient worldUp None)
               (dialParams worldUp (JsString "Jane") (JsString "+15551234567") sampleReply)).
  right; left; reflexivity.
Defined.

(** X11: the session request of /initiate-call tells the voice agent the
    display name as supplied and the phone in its dialable form, not as
    supplied; the user type is the userType of the query when that is
    present and not empty, else the userType of the body when that is
    present and not empty, else "non-VIP", and is never empty. *)
Theorem X11_session_prompt (w : World) (req : Request) (r : FetchRequest) :
  In (EvFetch r) (trace (handleCall w req)) ->
  exists cfg,
    payload r = UltravoxCallBody cfg /\
    promptClientName (systemPrompt cfg) = leadName req /\
    promptPhoneNumber (systemPrompt cfg) = formatPhoneNumber (leadPhone req) /\
    truthy (promptPhoneNumber (systemPrompt cfg)) = true /\
    truthy (promptUserType (systemPrompt cfg)) = true /\
    promptUserType (systemPrompt cfg)
    = (if truthy (query req "userType") then query req "userType"
       else if truthy (body req "userType") then body req "userType"
       else JsString "non-VIP").
Proof.
  intros H. destruct (handleCall_fetch w req r H) as [-> A].
  apply andb_true_iff in A as [_ Hp].
  eexists. split; [reflexivity|]. cbn [systemPrompt ULTRAVOX_CALL_CONFIG promptClientName
    promptPhoneNumber promptUserType].
  repeat split; try assumption.
  - unfold leadType, orElse.
    destruct (truthy (query req "userType")) eqn:Q; [now rewrite Q|].
    destruct (truthy (body req "userType")) eqn:B; [now rewrite B|reflexivity].
  - unfold leadType, orElse.
    destruct (truthy (query req "userType")) eqn:Q; cbv iota; [now rewrite Q|].
    now destruct (truthy (body req "userType")).
Qed.

Lemma X11_session_prompt_witness :
  let req := request [("clientName", "Jane"); ("phoneNumber", "(555) 123-4567")]
                     [("userType", "VIP")] in
  In (EvFetch (sessionRequest worldUp req)) (trace (handleCall worldUp req)) /\
  exists cfg,
    payload (sessionRequest worldUp req) = UltravoxCallBody cfg /\
    promptPhoneNumber (systemPrompt cfg) = JsString "+15551234567" /\
    promptUserType (systemPrompt cfg) = JsString "VIP".
Proof.
  cbv zeta.
  pose (req := request [("clientName", "Jane"); ("phoneNumber", "(555) 123-4567")]
                       [("userType", "VIP")]).
  split; [left; reflexivity|].
  destruct (X11_session_prompt worldUp req (sessionRequest worldUp req))
    as (cfg & P & _ & Hp & _ & _ & Ht); [left; reflexivity|].
  exists cfg. split; [exact P|]. split; [exact Hp|exact Ht].
Defined.

(** X12: for an accepted /initiate-call request, a session reply that is
    null makes the endpoint answer 500 without dialling; a session reply
    that is an object without joinUrl is not checked: provided the display
    name can be URI-encoded and the telephony client can be constructed, the
    call is dialled all the same, with "undefined" as the stream URL of its
    TwiML. *)
Theorem X12_session_reply_unchecked (w : World) (req : Request) :
  truthy (leadName req) && truthy (formatPhoneNumber (leadPhone req)) = true ->
  (sessionResult w (sessionRequest w req) = Ok DNull ->
   answered (handleCall w req) = Some 500%Z /\
   filter isCallsCreate (trace (handleCall w req)) = []) /\
  (forall session,
     sessionResult w (sessionRequest w req) = Ok (DObject session) ->
     joinUrl session = JsUndefined ->
     hasLoneSurrogate (toString (leadName req)) = false ->
     clientRefused w (twilioClient w None) = None ->
     exists c p,
       In (EvCallsCreate c p) (trace (handleCall w req)) /\
       twiml p = "<Response><Connect><Stream url=" ++ quote ++ "undefined" ++ quote
                 ++ "/></Connect></Response>").
Proof.
  intros A. pose proof (handleCall_accepted_eq w req A) as E. cbv zeta in E. split.
  - intros S. rewrite S in E. rewrite E. split; reflexivity.
  - intros session S J W C. rewrite S, W, C in E.
    exists (twilioClient w None),
           (dialParams w (leadName req) (formatPhoneNumber (leadPhone req)) session).
    split.
    + destruct (callsReply w _ _); rewrite E; right; left; reflexivity.
    + unfold dialParams. cbn [twiml]. now rewrite J.
Qed.

Lemma X12_session_reply_unchecked_witness :
  let w := {| env := sampleEnv; now := "2025-05-20T16:00:00.000Z";
              fetchReply := fun _ => Ok {| status := 200; statusText := "OK"; text := Ok "{}";
                                           json := Ok (DObject {| joinUrl := JsUndefined;
                                                                  messageSid := JsUndefined;
                                                                  contacts := [];
                                                                  contact := None |}) |};
              clientRefused := accountSidCheck;
              messagesReply := fun _ _ => Ok "SM0001";
              callsReply := fun _ _ => Ok "CA0001" |} in
  truthy (leadName initiateJane) && truthy (formatPhoneNumber (leadPhone initiateJane)) = true /\
  hasLoneSurrogate (toString (leadName initiateJane)) = false /\
  clientRefused w (twilioClient w None) = None /\
  exists c p,
    In (EvCallsCreate c p) (trace (handleCall w initiateJane)) /\
    twiml p = "<Response><Connect><Stream url=" ++ quote ++ "undefined" ++ quote
              ++ "/></Connect></Response>".
Proof.
  cbv zeta. split; [reflexivity|]. split; [reflexivity|]. split; [reflexivity|].
  eapply X12_session_reply_unchecked; reflexivity.
Defined.

(** ** SMS endpoints *)

Lemma sendSMS_eq (w : World) (phoneNumber : JsValue) (text : string) :
  sendSMS w phoneNumber (JsString text)
  = if truthy (formatPhoneNumber phoneNumber) then
      let p := smsParams w phoneNumber (JsString text) in
      match clientRefused w (smsClient w) with
      | Some e =>
          ([EvConsoleError (newline ++ "=== SMS Send Error ===");
            EvConsoleError "Error details:"],
           Throw (mkError ("SMS send failed: " ++ errMessage e)))
      | None =>
          match messagesReply w (smsClient w) p with
          | Ok sid => ([EvMessagesCreate (smsClient w) p], Ok sid)
          | Throw e =>
              ([EvMessagesCreate (smsClient w) p;
                EvConsoleError (newline ++ "=== SMS Send Error ===");
                EvConsoleError "Error details:"],
               Throw (mkError ("SMS send failed: " ++ errMessage e)))
          end
      end
    else
      ([EvConsoleError "Invalid phone number format:";
        EvConsoleError (newline ++ "=== SMS Send Error ===");
        EvConsoleError "Error details:"],
       Throw (mkError "SMS send failed: Invalid phone number format")).
Proof.
  unfold sendSMS, smsParams, smsClient, twilio.
  destruct (truthy (formatPhoneNumber phoneNumber)); cbn [negb]; run; [|reflexivity].
  destruct (clientRefused w _); [reflexivity|].
  destruct (messagesReply w _ _); reflexivity.
Qed.

Lemma truthy_text (v : JsValue) : truthy v = true -> exists text, v = JsString text.
Proof. intros T. destruct (truthy_inv v T) as (c & s & ->). now eexists. Qed.

(** What [sendSMS] does for a message that is a string. *)
Lemma sendSMS_cases (w : World) (phoneNumber message : JsValue) :
  truthy message = true ->
  (exists sid,
     sendSMS w phoneNumber message
     = ([EvMessagesCreate (smsClient w) (smsParams w phoneNumber message)], Ok sid) /\
     messagesReply w (smsClient w) (smsParams w phoneNumber message) = Ok sid /\
     truthy (formatPhoneNumber phoneNumber) = true /\
     clientRefused w (smsClient w) = None) \/
  (exists t reason,
     sendSMS w phoneNumber message = (t, Throw (mkError ("SMS send failed: " ++ reason))) /\
     (List.length (filter isMessagesCreate t) <= 1)%nat /\
     filter isFetch t = [] /\ filter isCallsCreate t = [] /\
     (truthy (formatPhoneNumber phoneNumber) = false -> filter isMessagesCreate t = []) /\
     (forall e, clientRefused w (smsClient w) = Some e -> filter isMessagesCreate t = [])).
Proof.
  intros T. destruct (truthy_text message T) as [text ->].
  rewrite sendSMS_eq.
  destruct (truthy (formatPhoneNumber phoneNumber)) eqn:F; cbv zeta.
  - destruct (clientRefused w (smsClient w)) as [e|] eqn:C.
    + right. do 2 eexists. split; [reflexivity|]. cbn. repeat split; lia.
    + destruct (messagesReply w _ _) as [sid|e] eqn:R.
      * left. exists sid. now repeat split.
      * right. do 2 eexists. split; [reflexivity|]. cbn. repeat split; try lia; discriminate.
  - right. do 2 eexists. split; [reflexivity|]. cbn. repeat split; lia.
Qed.

Lemma smsWebhook_eq (w : World) (req : Request) :
  smsWebhook w req
  = if truthy (webhookPhone req) && truthy (webhookMessage req) then
      match sendSMS w (webhookPhone req) (webhookMessage req) with
      | (t, Ok sid) =>
          (t, Ok {| code := 200;
                    content := Json [("success", FBool true); ("messageSid", FStr sid);
                                     ("message", FStr "SMS sent successfully")] |})
      | (t, Throw e) =>
          ((t ++ [EvConsoleError "Error sending SMS in webhook:"])%list,
           Ok {| code := 500;
                 content := Json [("success", FBool false);
                                  ("error", FStr ("SMS send failed: " ++ errMessage e))] |})
      end
    else
      ([EvConsoleError "Missing parameters:"],
       Ok {| code := 400;
             content := Json [("success", FBool false);
                              ("error", FStr "Missing phoneNumber/recipient or message")] |}).
Proof.
  unfold smsWebhook. fold (webhookPhone req) (webhookMessage req).
  destruct (truthy (webhookPhone req)); cbn [negb orb andb]; [|reflexivity].
  destruct (truthy (webhookMessage req)); cbn [negb]; [|reflexivity].
  destruct (sendSMS w _ _) as [t [sid|e]]; run; [|reflexivity].
  now rewrite !app_nil_r.
Qed.

Lemma sendSmsHandler_eq (w : World) (req : Request) :
  sendSmsHandler w req
  = if truthy (body req "phoneNumber") && truthy (body req "message") then
      match sendSMS w (body req "phoneNumber") (body req "message") with
      | (t, Ok sid) =>
          (t, Ok {| code := 200;
                    content := Json [("success", FBool true);
                                     ("message", FStr "SMS sent successfully");
                                     ("messageSid", FStr sid)] |})
      | (t, Throw e) =>
          ((t ++ [EvConsoleError "Error in direct SMS endpoint:"])%list,
           Ok (failure500 "Failed to send SMS" e))
      end
    else
      ([EvConsoleError "Missing parameters in direct SMS:"],
       Ok {| code := 400;
             content := Json [("error",
                               FStr "Missing required parameters: phoneNumber and message")] |}).
Proof.
  unfold sendSmsHandler.
  destruct (truthy (body req "phoneNumber")); cbn [negb orb andb]; [|reflexivity].
  destruct (truthy (body req "message")); cbn [negb]; [|reflexivity].
  destruct (sendSMS w _ _) as [t [sid|e]]; run; [|reflexivity].
  now rewrite !app_nil_r.
Qed.

(** The three ways a POST /api/sms-webhook is handled. *)
Lemma smsWebhook_cases (w : World) (req : Request) :
  let p := smsParams w (webhookPhone req) (webhookMessage req) in
  (truthy (webhookPhone req) && truthy (webhookMessage req) = false /\
   smsWebhook w req
   = ([EvConsoleError "Missing parameters:"],
      Ok {| code := 400;
            content := Json [("success", FBool false);
                             ("error", FStr "Missing phoneNumber/recipient or message")] |})) \/
  (exists sid,
     truthy (webhookPhone req) && truthy (webhookMessage req) = true /\
     truthy (formatPhoneNumber (webhookPhone req)) = true /\
     messagesReply w (smsClient w) p = Ok sid /\
     clientRefused w (smsClient w) = None /\
     smsWebhook w req
     = ([EvMessagesCreate (smsClient w) p],
        Ok {| code := 200;
              content := Json [("success", FBool true); ("messageSid", FStr sid);
                               ("message", FStr "SMS sent successfully")] |})) \/
  (exists t reason,
     truthy (webhookPhone req) && truthy (webhookMessage req) = true /\
     smsWebhook w req
     = (t, Ok {| code := 500;
                 content := Json [("success", FBool false);
                                  ("error", FStr ("SMS send failed: SMS send failed: "
                                                  ++ reason))] |}) /\
     (List.length (filter isMessagesCreate t) <= 1)%nat /\
     filter isFetch t = [] /\ filter isCallsCreate t = [] /\
     (truthy (formatPhoneNumber (webhookPhone req)) = false -> filter isMessagesCreate t = [])).
Proof.
  cbv zeta. rewrite smsWebhook_eq.
  destruct (truthy (webhookPhone req) && truthy (webhookMessage req)) eqn:A; [|now left].
  right. apply andb_true_iff in A as [_ Tm].
  destruct (sendSMS_cases w (webhookPhone req) (webhookMessage req) Tm)
    as [(sid & -> & R & F & C)|(t & reason & -> & L & Hf & Hc & Hn & _)].
  - left. exists sid. now repeat split.
  - right. exists (t ++ [EvConsoleError "Error sending SMS in webhook:"])%list, reason.
    split; [reflexivity|]. split; [reflexivity|].
    rewrite !filter_app. cbn [filter isMessagesCreate isFetch isCallsCreate].
    rewrite !app_nil_r. now repeat split.
Qed.

(** The three ways a POST /send-sms is handled. *)
Lemma sendSmsHandler_cases (w : World) (req : Request) :
  let p := smsParams w (body req "phoneNumber") (body req "message") in
  (truthy (body req "phoneNumber") && truthy (body req "message") = false /\
   sendSmsHandler w req
   = ([EvConsoleError "Missing parameters in direct SMS:"],
      Ok {| code := 400;
            content := Json [("error",
                              FStr "Missing required parameters: phoneNumber and message")] |})) \/
  (exists sid,
     truthy (body req "phoneNumber") && truthy (body req "message") = true /\
     truthy (formatPhoneNumber (body req "phoneNumber")) = true /\
     messagesReply w (smsClient w) p = Ok sid /\
     clientRefused w (smsClient w) = None /\
     sendSmsHandler w req
     = ([EvMessagesCreate (smsClient w) p],
        Ok {| code := 200;
              content := Json [("success", FBool true);
                               ("message", FStr "SMS sent successfully");
                               ("messageSid", FStr sid)] |})) \/
  (exists t reason,
     truthy (body req "phoneNumber") && truthy (body req "message") = true /\
     sendSmsHandler w req
     = (t, Ok {| code := 500;
                 content := Json [("error", FStr "Failed to send SMS");
                                  ("message", FStr ("SMS send failed: " ++ reason))] |}) /\
     (List.length (filter isMessagesCreate t) <= 1)%nat /\
     filter isFetch t = [] /\ filter isCallsCreate t = [] /\
     (truthy (formatPhoneNumber (body req "phoneNumber")) = false ->
      filter isMessagesCreate t = [])).
Proof.
  cbv zeta. rewrite sendSmsHandler_eq.
  destruct (truthy (body req "phoneNumber") && truthy (body req "message")) eqn:A; [|now left].
  right. apply andb_true_iff in A as [_ Tm].
  destruct (sendSMS_cases w (body req "phoneNumber") (body req "message") Tm)
    as [(sid & -> & R & F & C)|(t & reason & -> & L & Hf & Hc & Hn & _)].
  - left. exists sid. now repeat split.
  - right. exists (t ++ [EvConsoleError "Error in direct SMS endpoint:"])%list, reason.
    split; [reflexivity|]. split; [reflexivity|].
    rewrite !filter_app. cbn [filter isMessagesCreate isFetch isCallsCreate].
    rewrite !app_nil_r. now repeat split.
Qed.

(** X13: an SMS request without a recipient or without a text is answered
    400 and causes nothing but one log line; /send-sms looks for both in the
    body only, so a recipient given in the query string counts as missing
    there, while /api/sms-webhook accepts it. *)
Theorem X13_sms_missing_parameters (w : World) (req : Request) :
  (truthy (webhookPhone req) && truthy (webhookMessage req) = false ->
   answered (smsWebhook w req) = Some 400%Z /\
   trace (smsWebhook w req) = [EvConsoleError "Missing parameters:"]) /\
  (truthy (body req "phoneNumber") && truthy (body req "message") = false ->
   answered (sendSmsHandler w req) = Some 400%Z /\
   trace (sendSmsHandler w req) = [EvConsoleError "Missing parameters in direct SMS:"]) /\
  (truthy (body req "phoneNumber") = false -> truthy (body req "recipient") = false ->
   truthy (query req "recipient") = true -> truthy (webhookMessage req) = true ->
   answered (smsWebhook w req) <> Some 400%Z).
Proof.
  split; [|split].
  - intros A. rewrite smsWebhook_eq, A. now split.
  - intros A. rewrite sendSmsHandler_eq, A. now split.
  - intros B R Q M.
    assert (truthy (webhookPhone req) = true) as P.
    { unfold webhookPhone, orElse. rewrite B. cbv iota. rewrite R. cbv iota.
      rewrite Q. cbv iota. now rewrite Q. }
    destruct (smsWebhook_cases w req)
      as [[A _]|[(sid & _ & _ & _ & _ & E)|(t & reason & _ & E & _)]].
    + rewrite P, M in A. discriminate.
    + rewrite E. discriminate.
    + rewrite E. discriminate.
Qed.

Lemma X13_sms_missing_parameters_witness :
  let req := request [("recipient", "5551234567"); ("message", "See you at 4pm")] [] in
  truthy (body req "phoneNumber") && truthy (body req "message") = false /\
  answered (sendSmsHandler worldUp req) = Some 400%Z /\
  answered (smsWebhook worldUp req) <> Some 400%Z.
Proof.
  cbv zeta.
  pose (req := request [("recipient", "5551234567"); ("message", "See you at 4pm")] []).
  destruct (X13_sms_missing_parameters worldUp req) as (_ & Hdirect & Hhook).
  split; [reflexivity|]. split.
  - apply Hdirect. reflexivity.
  - apply Hhook; reflexivity.
Defined.

(** X14: a failed send is reported differently by the two endpoints.
    /api/sms-webhook answers 500 with an error text that carries the
    "SMS send failed: " prefix twice, once from the sender and once from the
    endpoint; /send-sms answers 500 with the error "Failed to send SMS" and
    the sender's message, prefixed once. *)
Theorem X14_sms_failure_report (w : World) (req : Request) :
  (answered (smsWebhook w req) = Some 500%Z ->
   exists reason,
     outcome (smsWebhook w req)
     = Ok {| code := 500;
             content := Json [("success", FBool false);
                              ("error", FStr ("SMS send failed: SMS send failed: "
                                              ++ reason))] |}) /\
  (answered (sendSmsHandler w req) = Some 500%Z ->
   exists reason,
     outcome (sendSmsHandler w req)
     = Ok {| code := 500;
             content := Json [("error", FStr "Failed to send SMS");
                              ("message", FStr ("SMS send failed: " ++ reason))] |}).
Proof.
  split.
  - destruct (smsWebhook_cases w req)
      as [[_ E]|[(sid & _ & _ & _ & _ & E)|(t & reason & _ & E & _)]];
      rewrite E; try discriminate.
    intros _. now exists reason.
  - destruct (sendSmsHandler_cases w req)
      as [[_ E]|[(sid & _ & _ & _ & _ & E)|(t & reason & _ & E & _)]];
      rewrite E; try discriminate.
    intros _. now exists reason.
Qed.

Lemma X14_sms_failure_report_witness :
  let req := request [] [("phoneNumber", "12345"); ("message", "See you at 4pm")] in
  answered (smsWebhook worldUp req) = Some 500%Z /\
  outcome (smsWebhook worldUp req)
  = Ok {| code := 500;
          content := Json [("success", FBool false);
                           ("error",
                            FStr "SMS send failed: SMS send failed: Invalid phone number format")] |} /\
  exists reason,
    outcome (sendSmsHandler worldDown req)
    = Ok {| code := 500;
            content := Json [("error", FStr "Failed to send SMS");
                             ("message", FStr ("SMS send failed: " ++ reason))] |}.
Proof.
  cbv zeta.
  pose (req := request [] [("phoneNumber", "12345"); ("message", "See you at 4pm")]).
  split; [reflexivity|]. split; [reflexivity|].
  apply (X14_sms_failure_report worldDown req). reflexivity.
Defined.

(** X15: /api/sms-webhook answers 200 exactly when the request names a
    recipient with a dialable form and a text, the telephony client could be
    constructed from the configured credentials and the provider accepted
    the message; an SMS endpoint that answers 200 has caused exactly one
    message, sent to the dialable form of the recipient, and the body
    carries the sid the provider returned. *)
Theorem X15_sms_success (w : World) (req : Request) :
  (answered (smsWebhook w req) = Some 200%Z <->
   truthy (webhookPhone req) && truthy (webhookMessage req) = true /\
   truthy (formatPhoneNumber (webhookPhone req)) = true /\
   clientRefused w (smsClient w) = None /\
   exists sid,
     messagesReply w (smsClient w) (smsParams w (webhookPhone req) (webhookMessage req))
     = Ok sid) /\
  (answered (smsWebhook w req) = Some 200%Z ->
   exists sid,
     smsWebhook w req
     = ([EvMessagesCreate (smsClient w) (smsParams w (webhookPhone req) (webhookMessage req))],
        Ok {| code := 200;
              content := Json [("success", FBool true); ("messageSid", FStr sid);
                               ("message", FStr "SMS sent successfully")] |}) /\
     messagesReply w (smsClient w) (smsParams w (webhookPhone req) (webhookMessage req))
     = Ok sid) /\
  (answered (sendSmsHandler w req) = Some 200%Z ->
   exists sid,
     sendSmsHandler w req
     = ([EvMessagesCreate (smsClient w)
           (smsParams w (body req "phoneNumber") (body req "message"))],
        Ok {| code := 200;
              content := Json [("success", FBool true);
                               ("message", FStr "SMS sent successfully");
                               ("messageSid", FStr sid)] |}) /\
     messagesReply w (smsClient w) (smsParams w (body req "phoneNumber") (body req "message"))
     = Ok sid).
Proof.
  split; [|split].
  - destruct (smsWebhook_cases w req)
      as [[A E]|[(sid & A & F & R & C & E)|(t & reason & A & E & L & _ & _ & Hn)]]; cbv zeta in *.
    + rewrite E, A. split; [discriminate|]. intros [H _]. discriminate.
    + rewrite E. split; [intros _|reflexivity]. split; [exact A|]. split; [exact F|].
      split; [exact C|]. now exists sid.
    + rewrite E. split; [discriminate|]. intros (_ & F & C & sid & R).
      exfalso.
      apply andb_true_iff in A as [_ Tm]. destruct (truthy_text _ Tm) as [text Em].
      pose proof E as E'. rewrite smsWebhook_eq in E'.
      rewrite Em in *. rewrite sendSMS_eq, F, C in E'. cbv zeta in E'.
      destruct (truthy (webhookPhone req)); cbn [andb truthy] in E'.
      * destruct text; [discriminate Tm|]. cbn [truthy] in E'. rewrite R in E'. discriminate E'.
      * discriminate E'.
  - destruct (smsWebhook_cases w req)
      as [[_ E]|[(sid & _ & _ & R & _ & E)|(t & reason & _ & E & _)]];
      rewrite E; try discriminate.
    intros _. now exists sid.
  - destruct (sendSmsHandler_cases w req)
      as [[_ E]|[(sid & _ & _ & R & _ & E)|(t & reason & _ & E & _)]];
      rewrite E; try discriminate.
    intros _. now exists sid.
Qed.

Lemma X15_sms_success_witness :
  let req := request [] [("recipient", "(555) 123-4567"); ("message", "See you at 4pm")] in
  answered (smsWebhook worldUp req) = Some 200%Z /\
  exists sid,
    smsWebhook worldUp req
    = ([EvMessagesCreate (smsClient worldUp)
          (smsParams worldUp (JsString "(555) 123-4567") (JsString "See you at 4pm"))],
       Ok {| code := 200;
             content := Json [("success", FBool true); ("messageSid", FStr sid);
                              ("message", FStr "SMS sent successfully")] |}) /\
    messagesReply worldUp (smsClient worldUp)
      (smsParams worldUp (JsString "(555) 123-4567") (JsString "See you at 4pm")) = Ok sid.
Proof.
  cbv zeta.
  pose (req := request [] [("recipient", "(555) 123-4567"); ("message", "See you at 4pm")]).
  split; [reflexivity|].
  destruct (X15_sms_success worldUp req) as (_ & H & _).
  apply H. reflexivity.
Defined.

(** ** All routes *)

(** What a status callback can cause: one request at most, and never a
    message or a call. *)
Lemma callStatus_bounds (w : World) (req : RawRequest) :
  (List.length (filter isFetch (trace (callStatusHandler w req))) <= 1)%nat /\
  filter isMessagesCreate (trace (callStatusHandler w req)) = [] /\
  filter isCallsCreate (trace (callStatusHandler w req)) = [].
Proof.
  destruct (callStatus_cases w req)
    as [(status & _ & _ & _ & E)|[E|[(label & E)|
        (key & name & tag & label & log & E & _ & _ & _ & _ & L & _)]]].
  - rewrite E. cbn. repeat split; lia.
  - rewrite E. cbn. repeat split; lia.
  - rewrite E. cbn. repeat split; lia.
  - cbv zeta in E. rewrite E. destruct L as [-> | ->]; cbn; repeat split; lia.
Qed.

(** A status callback whose CallSid and To can be converted to text is
    acknowledged. *)
Lemma callStatus_answers (w : World) (req : RawRequest) :
  printable (rawBody req "CallSid") = true -> printable (rawBody req "To") = true ->
  outcome (callStatusHandler w req) = Ok {| code := 200; content := Text "OK" |}.
Proof.
  intros P1 P2.
  destruct (callStatus_cases w req)
    as [(status & _ & _ & [P|P] & E)|[E|[(label & E)|
        (key & name & tag & label & log & E & _)]]].
  - rewrite P1 in P. discriminate P.
  - rewrite P2 in P. discriminate P.
  - now rewrite E.
  - now rewrite E.
  - cbv zeta in E. now rewrite E.
Qed.

(** X16: every route answers every request whose parameters are strings or
    absent: no handler lets an error escape, whatever the outside services
    do, and the status code is 200, 400 or 500.  A status callback with
    parameters of any kind is answered 200 whenever its CallSid and its To
    can be converted to text; its only other outcome is the conversion
    error, thrown before any outbound request and any log. *)
Theorem X16_routes_always_answer (w : World) (route : Route) (req : Request)
    (callback : RawRequest) :
  (exists response,
     outcome (serve w route req) = Ok response /\
     (code response = 200 \/ code response = 400 \/ code response = 500)%Z) /\
  (printable (rawBody callback "CallSid") = true ->
   printable (rawBody callback "To") = true ->
   answered (callStatusHandler w callback) = Some 200%Z) /\
  (answered (callStatusHandler w callback) = Some 200%Z \/
   callStatusHandler w callback
   = ([], Throw (mkError "Cannot convert object to primitive value"))).
Proof.
  split; [|split].
  - destruct route; cbn [serve].
    + destruct (smsWebhook_cases w req)
        as [[_ E]|[(sid & _ & _ & _ & _ & E)|(t & reason & _ & E & _)]];
        rewrite E; eexists; (split; [reflexivity|cbn; tauto]).
    + rewrite (callStatus_answers w (raw req)) by reflexivity.
      eexists. split; [reflexivity|cbn; tauto].
    + destruct (sendSmsHandler_cases w req)
        as [[_ E]|[(sid & _ & _ & _ & _ & E)|(t & reason & _ & E & _)]];
        rewrite E; eexists; (split; [reflexivity|cbn; tauto]).
    + eexists. split; [reflexivity|cbn; tauto].
    + destruct (handleCall_cases w req)
        as [(_ & _ & A)|[(_ & extra & e & E & _)|(_ & session & _ & _ & _ & E)]].
      * unfold answered in A.
        destruct (outcome (handleCall w req)) as [response|]; [|discriminate].
        exists response. split; [reflexivity|]. inversion A. tauto.
      * rewrite E. eexists. split; [reflexivity|cbn; tauto].
      * cbv zeta in E. destruct (callsReply w _ _); rewrite E;
          eexists; (split; [reflexivity|cbn; tauto]).
    + destruct (handleCall_cases w req)
        as [(_ & _ & A)|[(_ & extra & e & E & _)|(_ & session & _ & _ & _ & E)]].
      * unfold answered in A.
        destruct (outcome (handleCall w req)) as [response|]; [|discriminate].
        exists response. split; [reflexivity|]. inversion A. tauto.
      * rewrite E. eexists. split; [reflexivity|cbn; tauto].
      * cbv zeta in E. destruct (callsReply w _ _); rewrite E;
          eexists; (split; [reflexivity|cbn; tauto]).
  - intros P1 P2. unfold answered. now rewrite (callStatus_answers w callback P1 P2).
  - destruct (callStatus_cases w callback)
      as [(status & _ & _ & _ & E)|[E|[(label & E)|
          (key & name & tag & label & log & E & _)]]].
    + now right.
    + left. now rewrite E.
    + left. now rewrite E.
    + left. cbv zeta in E. now rewrite E.
Qed.

Lemma X16_routes_always_answer_witness :
  printable (rawBody (raw busyJane) "CallSid") = true /\
  printable (rawBody (raw busyJane) "To") = true /\
  answered (callStatusHandler worldDown (raw busyJane)) = Some 200%Z /\
  callStatusHandler worldDown busyObjectSid
  = ([], Throw (mkError "Cannot convert object to primitive value")).
Proof.
  split; [reflexivity|]. split; [reflexivity|]. split.
  - apply (X16_routes_always_answer worldDown PostCallStatus busyJane (raw busyJane));
      reflexivity.
  - reflexivity.
Defined.

(** The messages in the trace of [sendSMS]. *)
Lemma sendSMS_messages (w : World) (phoneNumber message : JsValue) c p :
  In (EvMessagesCreate c p) (trace (sendSMS w phoneNumber message)) ->
  c = smsClient w /\ p = smsParams w phoneNumber message /\
  truthy (formatPhoneNumber phoneNumber) = true.
Proof.
  destruct message as [| |text]; try (intros []).
  rewrite sendSMS_eq.
  destruct (truthy (formatPhoneNumber phoneNumber)) eqn:F; cbv zeta.
  - destruct (clientRefused w (smsClient w)).
    + cbn. intros [H|[H|[]]]; discriminate H.
    + destruct (messagesReply w _ _); cbn.
      * intros [H|[]]. inversion H. now repeat split.
      * intros [H|[H|[H|[]]]]; try discriminate H. inversion H. now repeat split.
  - cbn. intros H. repeat (destruct H as [H|H]; [discriminate H|]). destruct H.
Qed.

(** Every message a route dispatches is the one [sendSMS] builds. *)
Lemma serve_message (w : World) (route : Route) (req : Request) c p :
  In (EvMessagesCreate c p) (trace (serve w route req)) ->
  exists phoneNumber message,
    c = smsClient w /\ p = smsParams w phoneNumber message /\
    truthy (formatPhoneNumber phoneNumber) = true /\ truthy message = true.
Proof.
  intros H.
  assert (exists phoneNumber message,
            In (EvMessagesCreate c p) (trace (sendSMS w phoneNumber message)) /\
            truthy message = true) as (phoneNumber & message & Hs & Tm).
  { destruct route; cbn [serve] in H.
    - rewrite smsWebhook_eq in H.
      destruct (truthy (webhookPhone req) && truthy (webhookMessage req)) eqn:A.
      + apply andb_true_iff in A as [_ Tm].
        exists (webhookPhone req), (webhookMessage req). split; [|exact Tm].
        destruct (sendSMS w _ _) as [t [sid|e]]; cbn [trace fst] in *; [exact H|].
        apply in_app_or in H as [H|[H|[]]]; [exact H|discriminate H].
      + destruct H as [H|[]]. discriminate H.
    - exfalso. destruct (callStatus_bounds w (raw req)) as (_ & Hm & _).
      now apply (not_in_filter _ _ _ Hm) in H.
    - rewrite sendSmsHandler_eq in H.
      destruct (truthy (body req "phoneNumber") && truthy (body req "message")) eqn:A.
      + apply andb_true_iff in A as [_ Tm].
        exists (body req "phoneNumber"), (body req "message"). split; [|exact Tm].
        destruct (sendSMS w _ _) as [t [sid|e]]; cbn [trace fst] in *; [exact H|].
        apply in_app_or in H as [H|[H|[]]]; [exact H|discriminate H].
      + destruct H as [H|[]]. discriminate H.
    - destruct H.
    - exfalso. pose proof (handleCall_no_message w req) as Hm.
      assert (In (EvMessagesCreate c p) (filter isMessagesCreate (trace (handleCall w req))))
        as H' by (apply filter_In; now split).
      rewrite Hm in H'. destruct H'.
    - exfalso. pose proof (handleCall_no_message w req) as Hm.
      assert (In (EvMessagesCreate c p) (filter isMessagesCreate (trace (handleCall w req))))
        as H' by (apply filter_In; now split).
      rewrite Hm in H'. destruct H'. }
  destruct (sendSMS_messages w phoneNumber message c p Hs) as (-> & -> & F).
  exists phoneNumber, message. now repeat split.
Qed.

(** X17: whichever route dispatches a message, it goes through a client
    with a 30000 ms timeout and no keep-alive, from the configured sender
    number, as first attempt with the price cap "0.15", to a number that is
    a plus sign followed by digits only, and with a text that is not empty. *)
Theorem X17_dispatched_messages (w : World) (route : Route) (req : Request) c p :
  In (EvMessagesCreate c p) (trace (serve w route req)) ->
  clientOptions c = Some {| timeout := 30000; keepAlive := false |} /\
  accountSid c = TWILIO_ACCOUNT_SID w /\ authToken c = TWILIO_AUTH_TOKEN w /\
  msgFrom p = TWILIO_PHONE_NUMBER w /\ attempt p = 1%Z /\ maxPrice p = "0.15" /\
  truthy (msgBody p) = true /\
  exists d, msgTo p = JsString (String "+" d) /\ isDigits d = true.
Proof.
  intros H.
  destruct (serve_message w route req c p H) as (phoneNumber & message & -> & -> & F & Tm).
  repeat split; try reflexivity; try exact Tm.
  destruct (formatPhoneNumber phoneNumber) as [| |s] eqn:E; try discriminate F.
  destruct (formatPhoneNumber_shape phoneNumber s E) as (d & -> & Hd & _).
  exists d. split; [exact E|exact Hd].
Qed.

Lemma X17_dispatched_messages_witness :
  let req := request [] [("phoneNumber", "(555) 123-4567"); ("message", "See you at 4pm")] in
  In (EvMessagesCreate (smsClient worldUp)
        (smsParams worldUp (JsString "(555) 123-4567") (JsString "See you at 4pm")))
     (trace (serve worldUp PostSendSms req)) /\
  msgFrom (smsParams worldUp (JsString "(555) 123-4567") (JsString "See you at 4pm"))
  = JsString "+15550001111" /\
  exists d,
    msgTo (smsParams worldUp (JsString "(555) 123-4567") (JsString "See you at 4pm"))
    = JsString (String "+" d) /\ isDigits d = true.
Proof.
  cbv zeta.
  pose (req := request [] [("phoneNumber", "(555) 123-4567"); ("message", "See you at 4pm")]).
  split; [left; reflexivity|].
  destruct (X17_dispatched_messages worldUp PostSendSms req (smsClient worldUp)
              (smsParams worldUp (JsString "(555) 123-4567") (JsString "See you at 4pm")))
    as (_ & _ & _ & Hfrom & _ & _ & _ & Hto); [left; reflexivity|].
  split; [exact Hfrom|exact Hto].
Defined.

(** ** CallStatusHandler, other statuses *)

Lemma isString_neq (x : JsAny) (literal : string) :
  x <> Plain (JsString literal) -> isString x literal = false.
Proof.
  intros N. destruct (isString x literal) eqn:E; [|reflexivity].
  apply isString_inv in E. contradiction.
Qed.

(** X18: a status callback whose CallStatus is none of the seven statuses
    the handler logs ("answered", a different spelling, a value that is not
    a string, or none at all) is acknowledged with 200 and causes no request
    and no log, whatever its other fields are; one whose CallStatus is
    anything but the exact strings "busy" and "no-answer" is acknowledged
    the same way provided its CallSid and its To can be converted to text;
    and no status callback ever causes more than one request, a message or
    a call. *)
Theorem X18_status_without_tagging (w : World) (req : RawRequest) :
  ((forall status, In status loggedStatuses ->
                   rawBody req "CallStatus" <> Plain (JsString status)) ->
   callStatusHandler w req = ([], Ok {| code := 200; content := Text "OK" |})) /\
  (rawBody req "CallStatus" <> Plain (JsString "busy") ->
   rawBody req "CallStatus" <> Plain (JsString "no-answer") ->
   printable (rawBody req "CallSid") = true -> printable (rawBody req "To") = true ->
   callStatusHandler w req = ([], Ok {| code := 200; content := Text "OK" |})) /\
  (List.length (filter isFetch (trace (callStatusHandler w req))) <= 1)%nat /\
  filter isMessagesCreate (trace (callStatusHandler w req)) = [] /\
  filter isCallsCreate (trace (callStatusHandler w req)) = [].
Proof.
  split; [|split; [|apply callStatus_bounds]].
  - intros N. unfold callStatusHandler.
    rewrite !isString_neq by (apply N; cbn; tauto). reflexivity.
  - intros Hb Hn P1 P2. unfold callStatusHandler.
    rewrite (isString_neq _ _ Hb), (isString_neq _ _ Hn).
    rewrite (consoleLog_printable [rawBody req "CallSid"; rawBody req "To"])
      by (cbn; now rewrite P1, P2).
    repeat match goal with
           | |- context [isString ?a ?b] =>
               let S := fresh "S" in
               destruct (isString a b) eqn:S; rewrite ?(consoleLog_status _ _ _ S)
           end;
      rewrite ?(consoleLog_printable [rawBody req "CallSid"]) by (cbn; now rewrite P1);
      reflexivity.
Qed.

Lemma X18_status_without_tagging_witness :
  let req := {| rawQuery := fun _ => Plain JsUndefined;
                rawBody := fun key =>
                  if String.eqb key "CallStatus" then Plain (JsString "Busy")
                  else if String.eqb key "CallSid" then Other true None
                  else Plain JsUndefined |} in
  (forall status, In status loggedStatuses ->
                  rawBody req "CallStatus" <> Plain (JsString status)) /\
  callStatusHandler worldDown req = ([], Ok {| code := 200; content := Text "OK" |}) /\
  callStatusHandler worldDown
    (raw (request [("clientName", "Jane")] [("CallStatus", "completed"); ("CallSid", "CA1")]))
  = ([], Ok {| code := 200; content := Text "OK" |}).
Proof.
  cbv zeta.
  assert (forall status, In status loggedStatuses ->
                         Plain (JsString "Busy") <> Plain (JsString status)) as N.
  { intros status H. cbn in H.
    repeat (destruct H as [<-|H]; [discriminate|]). destruct H. }
  split; [exact N|]. split.
  - apply (proj1 (X18_status_without_tagging worldDown _)). exact N.
  - apply (proj1 (proj2 (X18_status_without_tagging worldDown _)));
      try reflexivity; discriminate.
Defined.

(** X29: a status callback whose CallSid and To can be converted to text
    is always acknowledged with 200, whatever becomes of the tagging: a
    tagging request that is rejected or answered with a non-success status
    is followed by exactly one error log, under the label of its status,
    and by nothing else; a tagging request that succeeds is followed by
    nothing at all. *)
Theorem X29_tagging_failure_contained (w : World) (req : RawRequest) :
  printable (rawBody req "CallSid") = true ->
  printable (rawBody req "To") = true ->
  outcome (callStatusHandler w req) = Ok {| code := 200; content := Text "OK" |} /\
  (forall r,
     In (EvFetch r) (trace (callStatusHandler w req)) ->
     exists label,
       (rawBody req "CallStatus" = Plain (JsString "busy") /\
        label = "Error tagging busy contact:" \/
        rawBody req "CallStatus" = Plain (JsString "no-answer") /\
        label = "Error tagging no-answer contact:") /\
       trace (callStatusHandler w req)
       = EvFetch r :: (if taggingFails w r then [EvConsoleError label] else [])).
Proof.
  intros P1 P2. split; [now apply callStatus_answers|].
  intros r0 H.
  destruct (callStatus_cases w req)
    as [(status & _ & _ & _ & E)|[E|[(label & E)|
        (key & name & tag & label & log & E & _ & _ & _ & T & L & _ & Hp)]]].
  - rewrite E in H. destruct H.
  - rewrite E in H. destruct H.
  - rewrite E in H. destruct H as [H|[]]. discriminate H.
  - cbv zeta in E, Hp. rewrite E in H |- *. cbn [trace fst] in *.
    assert (r0 = get (tagWebhook ++ "?clientName=" ++ encodeURIComponentStr name
                      ++ "&phoneNumber=" ++ toString key ++ "&tag="
                      ++ encodeURIComponentStr tag)) as ->.
    { destruct H as [H|H]; [now inversion H|].
      destruct L as [-> | ->]; [destruct H|]. destruct H as [H|[]]. discriminate H. }
    exists label. split.
    + destruct T as [(S & _ & ->)|(S & _ & ->)]; [left|right]; now split.
    + rewrite (Hp P2). reflexivity.
Qed.

Lemma X29_tagging_failure_contained_witness :
  printable (rawBody (raw busyJane) "CallSid") = true /\
  printable (rawBody (raw busyJane) "To") = true /\
  taggingFails worldDown
    (taggingRequest (JsString "Jane") "5551234567" "events → ve0525flash-call-busy") = true /\
  outcome (callStatusHandler worldDown (raw busyJane))
  = Ok {| code := 200; content := Text "OK" |} /\
  exists label,
    trace (callStatusHandler worldDown (raw busyJane))
    = [EvFetch (taggingRequest (JsString "Jane") "5551234567" "events → ve0525flash-call-busy");
       EvConsoleError label].
Proof.
  split; [reflexivity|]. split; [reflexivity|]. split; [reflexivity|].
  destruct (X29_tagging_failure_contained worldDown (raw busyJane) eq_refl eq_refl)
    as [H200 Hlog].
  split; [exact H200|].
  destruct (Hlog (taggingRequest (JsString "Jane") "5551234567"
                                 "events → ve0525flash-call-busy"))
    as (label & _ & E); [left; reflexivity|].
  exists label. exact E.
Defined.

(** ** The sendSMS tool *)

(** X19: the implementation of the sendSMS tool never throws: it issues one
    POST to the SMS webhook of this server and returns a text, which is
    "Failed to send SMS" whenever the request is rejected, the reply is not
    ok, or the reply cannot be read as a JSON object, and the success text
    with the message sid otherwise. *)
Theorem X19_sms_tool_never_throws (w : World) (baseUrl : string) (recipient message : JsValue) :
  let r := {| url := baseUrl ++ "/api/sms-webhook"; method := "POST";
              headers := [("Content-Type", "application/json")];
              payload := SmsWebhookBody recipient message |} in
  let call := sendSMSToolImplementation w baseUrl recipient message in
  (exists log, trace call = EvFetch r :: log /\ filter isFetch log = []) /\
  outcome call
  = Ok (match fetchReply w r with
        | Ok response =>
            if ok response then
              match json response with
              | Ok (DObject o) => "SMS sent successfully (" ++ toString (messageSid o) ++ ")"
              | _ => "Failed to send SMS"
              end
            else "Failed to send SMS"
        | Throw _ => "Failed to send SMS"
        end).
Proof.
  cbv zeta. unfold sendSMSToolImplementation. run.
  destruct (fetchReply w _) as [response|e]; [|split; [eexists; split|]; reflexivity].
  destruct (ok response); cbn [negb].
  - destruct (json response) as [[|o]|e]; (split; [eexists; split|]; reflexivity).
  - destruct (text response); (split; [eexists; split|]; reflexivity).
Qed.

(** ** CRM REST helpers *)

(** X20: when the CRM search finds contacts, [findOrCreateContact] returns
    the first of them after that single request: nothing is created. *)
Theorem X20_find_returns_first (w : World) (phoneNumber : JsValue)
    (response : Response) (found : ReplyObject) (first : Contact) (others : list Contact) :
  fetchReply w (ghlSearchRequest w phoneNumber) = Ok response ->
  ok response = true ->
  json response = Ok (DObject found) ->
  contacts found = first :: others ->
  findOrCreateContact w phoneNumber
  = ([EvFetch (ghlSearchRequest w phoneNumber)], Ok (Some first)).
Proof.
  intros R O J C. unfold findOrCreateContact. run.
  fold (ghlSearchRequest w phoneNumber). rewrite R, O. cbn [negb]. rewrite J, C.
  reflexivity.
Qed.

Lemma X20_find_returns_first_witness :
  let known := {| contactId := JsString "c-17" |} in
  let w := {| env := sampleEnv; now := "2025-05-20T16:00:00.000Z";
              fetchReply := fun _ =>
                Ok {| status := 200; statusText := "OK"; text := Ok "{}";
                      json := Ok (DObject {| joinUrl := JsUndefined; messageSid := JsUndefined;
                                             contacts := [known]; contact := None |}) |};
              clientRefused := accountSidCheck;
              messagesReply := fun _ _ => Ok "SM0001";
              callsReply := fun _ _ => Ok "CA0001" |} in
  findOrCreateContact w (JsString "5551234567")
  = ([EvFetch (ghlSearchRequest w (JsString "5551234567"))], Ok (Some known)).
Proof.
  cbv zeta.
  eapply X20_find_returns_first; reflexivity.
Defined.

(** X21: when the CRM search succeeds without a contact, the helper issues
    exactly one create request after the search, a POST that carries the
    phone as given and the configured location id, and returns the contact
    of the create reply; a create reply that is not ok makes it throw
    "Failed to create contact: " with the status text, after one log. *)
Theorem X21_find_creates (w : World) (phoneNumber : JsValue)
    (response : Response) (found : ReplyObject) :
  fetchReply w (ghlSearchRequest w phoneNumber) = Ok response ->
  ok response = true ->
  json response = Ok (DObject found) ->
  contacts found = [] ->
  let create := ghlCreateRequest w phoneNumber in
  payload create = GhlContactBody phoneNumber (env w "GHL_LOCATION_ID") /\
  (exists log,
     trace (findOrCreateContact w phoneNumber)
     = EvFetch (ghlSearchRequest w phoneNumber) :: EvFetch create :: log /\
     filter isFetch log = []) /\
  outcome (findOrCreateContact w phoneNumber)
  = match fetchReply w create with
    | Ok created =>
        if ok created then
          match json created with
          | Ok (DObject o) => Ok (contact o)
          | Ok DNull => Throw (nullRead "contact")
          | Throw e => Throw e
          end
        else Throw (mkError ("Failed to create contact: " ++ statusText created))
    | Throw e => Throw e
    end.
Proof.
  intros R O J C. cbv zeta. split; [reflexivity|].
  unfold findOrCreateContact. run.
  fold (ghlSearchRequest w phoneNumber). rewrite R, O. cbn [negb]. rewrite J, C.
  fold (ghlCreateRequest w phoneNumber).
  destruct (fetchReply w (ghlCreateRequest w phoneNumber)) as [created|e];
    [|split; [eexists; split|]; reflexivity].
  destruct (ok created); cbn [negb]; [|split; [eexists; split|]; reflexivity].
  destruct (json created) as [[|o]|e]; (split; [eexists; split|]; reflexivity).
Qed.

Lemma X21_find_creates_witness :
  let w := worldUp in
  fetchReply w (ghlSearchRequest w (JsString "5551234567"))
  = Ok {| status := 200; statusText := "OK"; text := Ok "ok"; json := Ok (DObject sampleReply) |} /\
  exists log,
    trace (findOrCreateContact w (JsString "5551234567"))
    = EvFetch (ghlSearchRequest w (JsString "5551234567"))
      :: EvFetch (ghlCreateRequest w (JsString "5551234567")) :: log /\
    filter isFetch log = [].
Proof.
  cbv zeta. split; [reflexivity|].
  eapply (X21_find_creates worldUp (JsString "5551234567")); reflexivity.
Defined.

(** X22: when the CRM search is rejected or answered with a status that is
    not ok, [findOrCreateContact] creates nothing: it logs once and throws,
    the rejection itself or "Failed to search contact: " with the status
    text. *)
Theorem X22_find_search_failure (w : World) (phoneNumber : JsValue) :
  (forall e,
     fetchReply w (ghlSearchRequest w phoneNumber) = Throw e ->
     findOrCreateContact w phoneNumber
     = ([EvFetch (ghlSearchRequest w phoneNumber);
         EvConsoleError "Error in findOrCreateContact:"], Throw e)) /\
  (forall response,
     fetchReply w (ghlSearchRequest w phoneNumber) = Ok response ->
     ok response = false ->
     findOrCreateContact w phoneNumber
     = ([EvFetch (ghlSearchRequest w phoneNumber);
         EvConsoleError "Error in findOrCreateContact:"],
        Throw (mkError ("Failed to search contact: " ++ statusText response)))).
Proof.
  split.
  - intros e R. unfold findOrCreateContact. run.
    fold (ghlSearchRequest w phoneNumber). now rewrite R.
  - intros response R O. unfold findOrCreateContact. run.
    fold (ghlSearchRequest w phoneNumber). now rewrite R, O.
Qed.

Lemma X22_find_search_failure_witness :
  findOrCreateContact worldDown (JsString "5551234567")
  = ([EvFetch (ghlSearchRequest worldDown (JsString "5551234567"));
      EvConsoleError "Error in findOrCreateContact:"],
     Throw (mkError "Failed to search contact: Internal Server Error")).
Proof.
  destruct (X22_find_search_failure worldDown (JsString "5551234567")) as [_ H].
  apply (H {| status := 500; statusText := "Internal Server Error";
              text := Ok "upstream exploded"; json := Throw (mkError "Unexpected token") |});
    reflexivity.
Defined.

(** What [addTagToContact] does, by the reply of the CRM. *)
Lemma addTagToContact_eq (w : World) (contactId tag : JsValue) :
  let r := ghlTagsRequest w contactId tag in
  addTagToContact w contactId tag
  = match fetchReply w r with
    | Ok response =>
        if ok response then
          match json response with
          | Ok data => ([EvFetch r], Ok data)
          | Throw e => ([EvFetch r; EvConsoleError "Error in addTagToContact:"], Throw e)
          end
        else
          ([EvFetch r; EvConsoleError "Error in addTagToContact:"],
           Throw (mkError ("Failed to add tag: " ++ statusText response)))
    | Throw e => ([EvFetch r; EvConsoleError "Error in addTagToContact:"], Throw e)
    end.
Proof.
  cbv zeta. unfold addTagToContact. run. fold (ghlTagsRequest w contactId tag).
  destruct (fetchReply w _) as [response|e]; [|reflexivity].
  destruct (ok response); cbn [negb]; [|reflexivity].
  destruct (json response); reflexivity.
Qed.

(** X23: [addTagToContact] issues exactly one request, a POST that carries
    the one tag; it returns a value only when the CRM answered ok with
    readable JSON, and then logs nothing; every failure is logged exactly
    once and thrown on. *)
Theorem X23_add_tag_outcome (w : World) (contactId tag : JsValue) :
  let r := ghlTagsRequest w contactId tag in
  let call := addTagToContact w contactId tag in
  payload r = GhlTagsBody [tag] /\ method r = "POST" /\
  (forall data,
     outcome call = Ok data ->
     trace call = [EvFetch r] /\
     exists response,
       fetchReply w r = Ok response /\ ok response = true /\ json response = Ok data) /\
  (forall e,
     outcome call = Throw e ->
     trace call = [EvFetch r; EvConsoleError "Error in addTagToContact:"]).
Proof.
  cbv zeta. split; [reflexivity|]. split; [reflexivity|].
  rewrite addTagToContact_eq. cbv zeta.
  destruct (fetchReply w _) as [response|e0] eqn:R.
  - destruct (ok response) eqn:O.
    + destruct (json response) as [data0|e0] eqn:J; split; cbn; intros x H;
        try discriminate H; try reflexivity.
      inversion H; subst x. split; [reflexivity|]. exists response. now repeat split.
    + split; cbn; intros x H; [discriminate H|reflexivity].
  - split; cbn; intros x H; [discriminate H|reflexivity].
Qed.

Lemma X23_add_tag_outcome_witness :
  outcome (addTagToContact worldUp (JsString "c-17") (JsString "vip"))
  = Ok (DObject sampleReply) /\
  trace (addTagToContact worldUp (JsString "c-17") (JsString "vip"))
  = [EvFetch (ghlTagsRequest worldUp (JsString "c-17") (JsString "vip"))].
Proof.
  split; [reflexivity|].
  destruct (X23_add_tag_outcome worldUp (JsString "c-17") (JsString "vip")) as (_ & _ & H & _).
  apply (H (DObject sampleReply)). reflexivity.
Defined.

(** ** Startup and configuration *)

Lemma missingEnvVars_nil (w : World) :
  missingEnvVars w = [] <-> Forall (fun v => truthy (env w v) = true) requiredEnvVars.
Proof.
  unfold missingEnvVars. split.
  - intros H. apply Forall_forall. intros v Hv.
    destruct (truthy (env w v)) eqn:T; [reflexivity|].
    assert (In v (filter (fun envVar => negb (truthy (env w envVar))) requiredEnvVars)) as Hin
      by (apply filter_In; split; [exact Hv|now rewrite T]).
    rewrite H in Hin. destruct Hin.
  - intros H. rewrite Forall_forall in H.
    destruct (filter _ requiredEnvVars) as [|v l] eqn:E; [reflexivity|].
    assert (In v (filter (fun envVar => negb (truthy (env w envVar))) requiredEnvVars)) as Hin
      by (rewrite E; now left).
    apply filter_In in Hin as [Hv Ht]. rewrite (H v Hv) in Ht. discriminate.
Qed.

(** X24: the server goes on to serve only when each of the six required
    environment variables is set to a non-empty string; otherwise it logs
    once and exits with code 1.  The variables it reports missing are
    exactly the required ones that are unset or empty. *)
Theorem X24_startup_validation (w : World) :
  (validateEnvironment w = ([], Ok Serves) <->
   Forall (fun v => truthy (env w v) = true) requiredEnvVars) /\
  (validateEnvironment w = ([], Ok Serves) \/
   validateEnvironment w
   = ([EvConsoleError "Missing required environment variables:"], Ok (Exits 1))) /\
  (forall v, In v (missingEnvVars w) <-> In v requiredEnvVars /\ truthy (env w v) = false).
Proof.
  split; [|split].
  - rewrite <- missingEnvVars_nil. unfold validateEnvironment.
    destruct (missingEnvVars w) as [|v l]; cbn; split; intros H;
      try reflexivity; discriminate H.
  - unfold validateEnvironment. destruct (missingEnvVars w); cbn; [now left|now right].
  - intros v. unfold missingEnvVars. rewrite filter_In.
    split; intros [Hv Ht]; (split; [exact Hv|]).
    + now destruct (truthy (env w v)).
    + now rewrite Ht.
Qed.

Lemma X24_startup_validation_witness :
  validateEnvironment worldUp = ([], Ok Serves) /\
  Forall (fun v => truthy (env worldUp v) = true) requiredEnvVars.
Proof.
  split; [reflexivity|].
  apply (X24_startup_validation worldUp). reflexivity.
Defined.

(** Every dial request a route issues is the one [initiateCall] builds, and
    only /initiate-call issues one. *)
Lemma serve_dial (w : World) (route : Route) (req : Request) c p :
  In (EvCallsCreate c p) (trace (serve w route req)) ->
  (route = GetInitiateCall \/ route = PostInitiateCall) /\
  c = twilioClient w None /\
  truthy (formatPhoneNumber (leadPhone req)) = true /\
  exists session,
    p = dialParams w (leadName req) (formatPhoneNumber (leadPhone req)) session.
Proof.
  assert (forall t, filter isCallsCreate t = [] -> ~ In (EvCallsCreate c p) t) as none.
  { intros t F H. assert (In (EvCallsCreate c p) (filter isCallsCreate t)) as H'
      by (apply filter_In; now split).
    rewrite F in H'. destruct H'. }
  assert (In (EvCallsCreate c p) (trace (handleCall w req)) ->
          c = twilioClient w None /\
          truthy (formatPhoneNumber (leadPhone req)) = true /\
          exists session,
            p = dialParams w (leadName req) (formatPhoneNumber (leadPhone req)) session) as dial.
  { destruct (handleCall_cases w req)
      as [(_ & T & _)|[(_ & extra & e & E & _ & C & _)|(A & session & _ & _ & _ & E)]].
    - rewrite T. intros [].
    - rewrite E. intros [H|H]; [discriminate H|].
      now apply (not_in_filter _ _ _ C) in H.
    - apply andb_true_iff in A as [_ F]. cbv zeta in E.
      destruct (callsReply w _ _); rewrite E; cbn.
      + intros [H|[H|[]]]; [discriminate H|].
        inversion H; subst. split; [reflexivity|]. split; [exact F|]. now exists session.
      + intros [H|[H|[H|[H|[]]]]]; try discriminate H.
        inversion H; subst. split; [reflexivity|]. split; [exact F|]. now exists session. }
  intros H. destruct route; cbn [serve] in H.
  - exfalso. destruct (smsWebhook_cases w req)
      as [[_ E]|[(sid & _ & _ & _ & _ & E)|(t & reason & _ & E & _ & _ & C & _)]];
      rewrite E in H; cbn [trace fst] in H.
    + destruct H as [H|[]]; discriminate H.
    + destruct H as [H|[]]; discriminate H.
    + now apply (none t C).
  - exfalso. destruct (callStatus_bounds w (raw req)) as (_ & _ & Hc).
    now apply (not_in_filter _ _ _ Hc) in H.
  - exfalso. destruct (sendSmsHandler_cases w req)
      as [[_ E]|[(sid & _ & _ & _ & _ & E)|(t & reason & _ & E & _ & _ & C & _)]];
      rewrite E in H; cbn [trace fst] in H.
    + destruct H as [H|[]]; discriminate H.
    + destruct H as [H|[]]; discriminate H.
    + now apply (none t C).
  - destruct H.
  - split; [now left|now apply dial].
  - split; [now right|now apply dial].
Qed.

(** The only request of a route that carries a session configuration is
    the session request of /initiate-call. *)
Lemma serve_session_fetch (w : World) (route : Route) (req : Request)
    (r : FetchRequest) (cfg : UltravoxCallConfig) :
  In (EvFetch r) (trace (serve w route req)) ->
  payload r = UltravoxCallBody cfg ->
  r = sessionRequest w req.
Proof.
  intros H P. destruct route; cbn [serve] in H.
  - exfalso. destruct (smsWebhook_cases w req)
      as [[_ E]|[(sid & _ & _ & _ & _ & E)|(t & reason & _ & E & _ & F & _)]];
      rewrite E in H; cbn [trace fst] in H.
    + destruct H as [H|[]]; discriminate H.
    + destruct H as [H|[]]; discriminate H.
    + now apply (not_in_filter _ _ _ F) in H.
  - exfalso. destruct (callStatus_fetch_any w (raw req) r H) as (key & name & tag & -> & _).
    discriminate P.
  - exfalso. destruct (sendSmsHandler_cases w req)
      as [[_ E]|[(sid & _ & _ & _ & _ & E)|(t & reason & _ & E & _ & F & _)]];
      rewrite E in H; cbn [trace fst] in H.
    + destruct H as [H|[]]; discriminate H.
    + destruct H as [H|[]]; discriminate H.
    + now apply (not_in_filter _ _ _ F) in H.
  - destruct H.
  - now apply handleCall_fetch.
  - now apply handleCall_fetch.
Qed.

(** X25: once startup validation has passed, every message and every dial
    request that a route issues carries a sender number, an account sid and
    an auth token that are non-empty strings, and every session request
    that a route issues carries a non-empty API key. *)
Theorem X25_validated_credentials (w : World) (route : Route) (req : Request) :
  validateEnvironment w = ([], Ok Serves) ->
  (forall c p,
     In (EvMessagesCreate c p) (trace (serve w route req)) ->
     truthy (msgFrom p) = true /\ truthy (accountSid c) = true /\ truthy (authToken c) = true) /\
  (forall c p,
     In (EvCallsCreate c p) (trace (serve w route req)) ->
     truthy (callFrom p) = true /\ truthy (accountSid c) = true /\ truthy (authToken c) = true) /\
  (forall r cfg,
     In (EvFetch r) (trace (serve w route req)) ->
     payload r = UltravoxCallBody cfg ->
     exists key, In ("X-API-Key", key) (headers r) /\ key <> "").
Proof.
  intros V.
  assert (Forall (fun v => truthy (env w v) = true) requiredEnvVars) as F.
  { apply missingEnvVars_nil. unfold validateEnvironment in V.
    destruct (missingEnvVars w); [reflexivity|discriminate V]. }
  rewrite Forall_forall in F.
  assert (truthy (TWILIO_ACCOUNT_SID w) = true) as Hsid by (apply F; cbn; tauto).
  assert (truthy (TWILIO_AUTH_TOKEN w) = true) as Htok by (apply F; cbn; tauto).
  assert (truthy (TWILIO_PHONE_NUMBER w) = true) as Hnum by (apply F; cbn; tauto).
  assert (truthy (ULTRAVOX_API_KEY w) = true) as Hkey by (apply F; cbn; tauto).
  split; [|split].
  - intros c p H.
    destruct (serve_message w route req c p H) as (phoneNumber & message & -> & -> & _).
    now repeat split.
  - intros c p H.
    destruct (serve_dial w route req c p H) as (_ & -> & _ & session & ->).
    now repeat split.
  - intros r cfg H P. rewrite (serve_session_fetch w route req r cfg H P).
    exists (toString (ULTRAVOX_API_KEY w)). split; [right; left; reflexivity|].
    destruct (truthy_inv _ Hkey) as (a & k & ->). discriminate.
Qed.

Lemma X25_validated_credentials_witness :
  validateEnvironment worldUp = ([], Ok Serves) /\
  truthy (callFrom (dialParams worldUp (JsString "Jane") (JsString "+15551234567") sampleReply))
  = true /\
  In (EvFetch (sessionRequest worldUp initiateJane))
     (trace (serve worldUp PostInitiateCall initiateJane)) /\
  exists key, In ("X-API-Key", key) (headers (sessionRequest worldUp initiateJane)) /\ key <> "".
Proof.
  split; [reflexivity|].
  destruct (X25_validated_credentials worldUp PostInitiateCall initiateJane eq_refl)
    as (_ & H & K).
  split; [|split; [left; reflexivity|]].
  - apply (H (twilioClient worldUp None)
             (dialParams worldUp (JsString "Jane") (JsString "+15551234567") sampleReply)).
    right; left; reflexivity.
  - eapply K; [left; reflexivity|reflexivity].
Defined.

(** X26: only /initiate-call dials.  Every dial request goes through a
    client with default options, from the configured sender number, to a
    number that is a plus sign followed by digits only; it asks for the
    events initiated, ringing, answered and completed by POST, and its
    status callback carries the very number that is dialled.  No dial is
    made for a phone without dialable form. *)
Theorem X26_dial_requests (w : World) (route : Route) (req : Request) c p :
  In (EvCallsCreate c p) (trace (serve w route req)) ->
  (route = GetInitiateCall \/ route = PostInitiateCall) /\
  clientOptions c = None /\
  callFrom p = TWILIO_PHONE_NUMBER w /\
  callTo p = formatPhoneNumber (leadPhone req) /\
  (exists d, callTo p = JsString (String "+" d) /\ isDigits d = true) /\
  statusCallback p = statusCallbackUrl w (leadName req) (callTo p) /\
  statusCallbackEvent p = ["initiated"; "ringing"; "answered"; "completed"] /\
  statusCallbackMethod p = "POST".
Proof.
  intros H. destruct (serve_dial w route req c p H) as (R & -> & F & session & ->).
  split; [exact R|]. repeat split.
  cbn [callTo dialParams].
  destruct (formatPhoneNumber (leadPhone req)) as [| |s] eqn:E; try discriminate F.
  destruct (formatPhoneNumber_shape _ s E) as (d & -> & Hd & _).
  now exists d.
Qed.

Lemma X26_dial_requests_witness :
  In (EvCallsCreate (twilioClient worldUp None)
        (dialParams worldUp (JsString "Jane") (JsString "+15551234567") sampleReply))
     (trace (serve worldUp GetInitiateCall initiateJane)) /\
  callTo (dialParams worldUp (JsString "Jane") (JsString "+15551234567") sampleReply)
  = formatPhoneNumber (leadPhone initiateJane).
Proof.
  split; [right; left; reflexivity|].
  apply (X26_dial_requests worldUp GetInitiateCall initiateJane (twilioClient worldUp None)).
  right; left; reflexivity.
Defined.

(** X27: the base URL of the server is never empty.  It is SERVER_BASE_URL
    when that is set; else "https://" followed by VERCEL_URL when that is
    set; else RENDER_EXTERNAL_URL when that is set; PORT matters only when
    none of the three is set, and then the base URL is that port, or 10000,
    on localhost. *)
Theorem X27_server_base_url (w : World) :
  getServerBaseUrl w <> "" /\
  (truthy (env w "SERVER_BASE_URL") = true ->
   JsString (getServerBaseUrl w) = env w "SERVER_BASE_URL") /\
  (truthy (env w "SERVER_BASE_URL") = false -> truthy (env w "VERCEL_URL") = true ->
   getServerBaseUrl w = "https://" ++ toString (env w "VERCEL_URL")) /\
  (truthy (env w "SERVER_BASE_URL") = false -> truthy (env w "VERCEL_URL") = false ->
   truthy (env w "RENDER_EXTERNAL_URL") = true ->
   JsString (getServerBaseUrl w) = env w "RENDER_EXTERNAL_URL") /\
  (truthy (env w "SERVER_BASE_URL") = false -> truthy (env w "VERCEL_URL") = false ->
   truthy (env w "RENDER_EXTERNAL_URL") = false ->
   getServerBaseUrl w
   = "http://localhost:" ++ (if truthy (env w "PORT") then toString (env w "PORT") else "10000")).
Proof.
  unfold getServerBaseUrl. repeat split.
  - destruct (truthy (env w "SERVER_BASE_URL")) eqn:S.
    + destruct (truthy_inv _ S) as (a & k & ->). discriminate.
    + destruct (truthy (env w "VERCEL_URL")); [discriminate|].
      destruct (truthy (env w "RENDER_EXTERNAL_URL")) eqn:R; [|discriminate].
      destruct (truthy_inv _ R) as (a & k & ->). discriminate.
  - intros S. rewrite S. destruct (truthy_inv _ S) as (a & k & ->). reflexivity.
  - intros S V. now rewrite S, V.
  - intros S V R. rewrite S, V, R. destruct (truthy_inv _ R) as (a & k & ->). reflexivity.
  - intros S V R. now rewrite S, V, R.
Qed.

Lemma X27_server_base_url_witness :
  let w := {| env := object [("RENDER_EXTERNAL_URL", "https://clair.onrender.com");
                             ("PORT", "8080")];
              now := now worldUp; fetchReply := fetchReply worldUp;
              clientRefused := clientRefused worldUp;
              messagesReply := messagesReply worldUp; callsReply := callsReply worldUp |} in
  (truthy (env worldUp "SERVER_BASE_URL") = true /\
   JsString (getServerBaseUrl worldUp) = JsString "https://clair.example.com") /\
  (truthy (env w "SERVER_BASE_URL") = false /\ truthy (env w "VERCEL_URL") = false /\
   truthy (env w "RENDER_EXTERNAL_URL") = true /\
   JsString (getServerBaseUrl w) = JsString "https://clair.onrender.com").
Proof.
  intros w. split.
  - split; [reflexivity|].
    apply (proj1 (proj2 (X27_server_base_url worldUp))). reflexivity.
  - split; [reflexivity|]. split; [reflexivity|]. split; [reflexivity|].
    exact (proj1 (proj2 (proj2 (proj2 (X27_server_base_url w)))) eq_refl eq_refl eq_refl).
Defined.

(** X28: an SMS endpoint never sends more than one message for a request,
    never issues an HTTP request or a dial request, and sends nothing at all
    when the recipient has no dialable form. *)
Theorem X28_sms_attempts_once (w : World) (req : Request) :
  ((List.length (filter isMessagesCreate (trace (smsWebhook w req))) <= 1)%nat /\
   filter isFetch (trace (smsWebhook w req)) = [] /\
   filter isCallsCreate (trace (smsWebhook w req)) = [] /\
   (truthy (formatPhoneNumber (webhookPhone req)) = false ->
    filter isMessagesCreate (trace (smsWebhook w req)) = [])) /\
  ((List.length (filter isMessagesCreate (trace (sendSmsHandler w req))) <= 1)%nat /\
   filter isFetch (trace (sendSmsHandler w req)) = [] /\
   filter isCallsCreate (trace (sendSmsHandler w req)) = [] /\
   (truthy (formatPhoneNumber (body req "phoneNumber")) = false ->
    filter isMessagesCreate (trace (sendSmsHandler w req)) = [])).
Proof.
  split.
  - destruct (smsWebhook_cases w req)
      as [[_ E]|[(sid & _ & F & _ & _ & E)|(t & reason & _ & E & L & Hf & Hc & Hn)]];
      rewrite E; cbn [trace fst].
    + cbn. repeat split; lia.
    + cbn. repeat split; try lia. intros N. rewrite N in F. discriminate.
    + now repeat split.
  - destruct (sendSmsHandler_cases w req)
      as [[_ E]|[(sid & _ & F & _ & _ & E)|(t & reason & _ & E & L & Hf & Hc & Hn)]];
      rewrite E; cbn [trace fst].
    + cbn. repeat split; lia.
    + cbn. repeat split; try lia. intros N. rewrite N in F. discriminate.
    + now repeat split.
Qed.

Lemma X28_sms_attempts_once_witness :
  let req := request [] [("phoneNumber", "12345"); ("message", "See you at 4pm")] in
  truthy (formatPhoneNumber (body req "phoneNumber")) = false /\
  filter isMessagesCreate (trace (sendSmsHandler worldUp req)) = [].
Proof.
  cbv zeta.
  pose (req := request [] [("phoneNumber", "12345"); ("message", "See you at 4pm")]).
  split; [reflexivity|].
  destruct (X28_sms_attempts_once worldUp req) as (_ & _ & _ & _ & H).
  apply H. reflexivity.
Defined.
